(** * FastMixer::threadLoop — a shallow embedding of
      services/audioflinger/FastMixer.cpp and the properties of its cycle.

    The worker loop is modelled one cycle at a time, as a computation in a
    small state / error monad over a [Machine]: the locals of [threadLoop],
    the dump areas the worker writes, and the trace of calls it makes to its
    collaborators (kernel, mixing engine, sink, clock).  What the
    collaborators answer is given per cycle by an [Env]. *)

From Stdlib Require Import ZArith List Bool Lia.
From Stdlib Require String Ascii.
From stdpp Require Import base list.
Import ListNotations.
Local Open Scope Z_scope.

(** ** Machine integers (ILP32: bionic of that era, <sys/atomics.h>) *)

Definition wrap_u32 (z : Z) : Z := z mod 2 ^ 32.
Definition wrap_s32 (z : Z) : Z := (z + 2 ^ 31) mod 2 ^ 32 - 2 ^ 31.
(** [long] and [int] are both 32-bit two's complement on ILP32. *)
Definition to_long (z : Z) : Z := wrap_s32 z.
Definition to_int (z : Z) : Z := wrap_s32 z.

(** [__builtin_ctz]: number of trailing zero bits (argument non-zero). *)
Fixpoint ctz_pos (p : positive) : nat :=
  match p with
  | xO q => S (ctz_pos q)
  | _ => O
  end.

Definition builtin_ctz (x : Z) : nat :=
  match x with
  | Zpos p => ctz_pos p
  | _ => O
  end.

(** [x &= ~(1 << i)] *)
Definition clear_bit (x : Z) (i : nat) : Z :=
  Z.land x (Z.lnot (Z.shiftl 1 (Z.of_nat i))).

Fixpoint popcount_pos (p : positive) : Z :=
  match p with
  | xH => 1
  | xO q => popcount_pos q
  | xI q => 1 + popcount_pos q
  end.

Definition popcount (x : Z) : Z :=
  match x with
  | Zpos p => popcount_pos p
  | _ => 0
  end.

(** ** FastMixerState.h (not part of the sources at hand) *)

(** Modelled from the spec: the [Command] enumeration of FastMixerState.h.
    MIX and WRITE are bit flags, MIX_WRITE = MIX|WRITE, and IDLE is a bit
    flag shared by HOT_IDLE and COLD_IDLE (and by no other command). *)
Definition INITIAL : Z := 0.
Definition HOT_IDLE : Z := 1.
Definition COLD_IDLE : Z := 2.
Definition IDLE : Z := 3.
Definition EXIT : Z := 4.
Definition MIX : Z := 8.
Definition WRITE : Z := 16.
Definition MIX_WRITE : Z := 24.

(** Modelled from the spec: [FastMixerState::kMaxFastTracks], at most 32 so
    that a track mask fits one machine word. *)
Definition kMaxFastTracks : nat := 32.

(** [p != NULL] *)
Definition non_null {A} (p : option A) : bool :=
  match p with Some _ => true | None => false end.

(** [c & FLAG] used as a C condition. *)
Definition has_flag (c flag : Z) : bool := negb (Z.land c flag =? 0).

Record FastTrack := mkFastTrack {
  mBufferProvider : option nat;   (* AudioBufferProvider*, None = NULL *)
  mVolumeProvider : option nat;   (* VolumeProvider*, None = NULL *)
  mGeneration : Z
}.

Record FastMixerState := mkFastMixerState {
  mFastTracks : list FastTrack;
  mFastTracksGen : Z;
  mTrackMask : Z;
  mOutputSink : option nat;       (* NBAIO_Sink*, None = NULL *)
  mOutputSinkGen : Z;
  mFrameCount : Z;
  mCommand : Z;
  mColdFutexAddr : option nat;    (* int32_t*, None = NULL *)
  mColdGen : Z;
  mDumpState : option nat         (* FastMixerDumpState*, None = NULL *)
}.

Definition default_FastTrack : FastTrack := mkFastTrack None None 0.

(** Modelled from the spec: the default-constructed state, whose command is
    INITIAL and which binds no track, sink, futex or dump area. *)
Definition initial : FastMixerState :=
  mkFastMixerState (replicate kMaxFastTracks default_FastTrack)
                   0 0 None 0 0 INITIAL None 0 None.

(** [&current->mFastTracks[i]] *)
Definition fastTrack_at (s : FastMixerState) (i : nat) : FastTrack :=
  default default_FastTrack (mFastTracks s !! i).

(** Modelled from the spec: NBAIO formats, of which the loop uses the sample
    rate and the channel count; [Format_Invalid] has sample rate 0. *)
Inductive NBAIO_Format :=
| Format_Invalid
| Format_PCM (sampleRate channelCount : Z).

Definition Format_sampleRate (f : NBAIO_Format) : Z :=
  match f with Format_Invalid => 0 | Format_PCM sr _ => sr end.
Definition Format_channelCount (f : NBAIO_Format) : Z :=
  match f with Format_Invalid => 0 | Format_PCM _ ch => ch end.
Definition Format_eqb (f g : NBAIO_Format) : bool :=
  match f, g with
  | Format_Invalid, Format_Invalid => true
  | Format_PCM a b, Format_PCM c d => (a =? c) && (b =? d)
  | _, _ => false
  end.

(** ** FastMixerDumpState (all counters are uint32_t) *)

Record FastMixerDumpState := mkDump {
  dCommand : Z;
  mWriteSequence : Z;
  mFramesWritten : Z;
  mNumTracks : Z;
  mWriteErrors : Z;
  mUnderruns : Z;
  mOverruns : Z
}.

(** [FastMixerDumpState::FastMixerDumpState()] *)
Definition new_FastMixerDumpState : FastMixerDumpState :=
  mkDump INITIAL 0 0 0 0 0 0.

(** ** The locals of [threadLoop] and the memory the worker writes *)

(** [const FastMixerState *]: the static [initial], the local [preIdle], or a
    snapshot in the state queue's storage. *)
Inductive StateRef :=
| RefInitial
| RefPreIdle
| RefQueue (k : nat).

Definition StateRef_eqb (a b : StateRef) : bool :=
  match a, b with
  | RefInitial, RefInitial => true
  | RefPreIdle, RefPreIdle => true
  | RefQueue j, RefQueue k => Nat.eqb j k
  | _, _ => false
  end.

(** [FastMixerDumpState *]: the local [dummyDumpState] or an external area. *)
Inductive DumpRef :=
| RefDummy
| RefDump (k : nat).

Inductive MixBufferState := UNDEFINED | MIXED | ZEROED.

Definition MixBufferState_eqb (a b : MixBufferState) : bool :=
  match a, b with
  | UNDEFINED, UNDEFINED | MIXED, MIXED | ZEROED, ZEROED => true
  | _, _ => false
  end.

(** What the bytes of [mixBuffer] hold: what [new short[]] left there, what
    [mixer->process] left there (the engine is made together with the
    buffer, for the same frame count, lines 191-192), or zero in the first
    [bytes] bytes, as cleared by [memset(mixBuffer, 0, bytes)], and beyond
    them what [under] describes. *)
Inductive BufContent :=
| Uninitialised
| MixOutput
| Cleared (bytes : Z) (under : BufContent).

(** The first [n] bytes of the buffer are known to be zero. *)
Fixpoint zero_bytes (c : BufContent) (n : Z) : bool :=
  match c with
  | Cleared bytes under => (n <=? bytes) || zero_bytes under n
  | Uninitialised | MixOutput => n <=? 0
  end.

(** Calls to the collaborators, in program order. *)
Inductive Event :=
| EvNanosleep (ns : Z)
| EvSchedYield
| EvAtomicDec (addr : nat)
| EvFutexWait (addr : nat) (val : Z)
| EvDeleteMixer
| EvDeleteMixBuffer
| EvNewMixer (frameCount sampleRate : Z) (maxTracks : nat)
| EvNewMixBuffer (len : Z)
| EvSinkFormat (sink : nat)
| EvDeleteTrackName (name : Z)
| EvGetTrackName (name : Z)
| EvSetBufferProvider (name : Z) (provider : option nat)
| EvSetMainBuffer (name : Z)
| EvEnable (name : Z)
| EvSetVolume0 (name : Z) (v : Z)
| EvSetVolume1 (name : Z) (v : Z)
| EvGetVolumeLR (provider : nat)
| EvProcess
| EvMemset (bytes : Z)
| EvSinkWrite (sink : nat) (content : BufContent) (frameCount : Z)
              (writeSequence : Z)  (* dumpState->mWriteSequence during the call *)
| EvClockGettime.

Record Machine := mkMachine {
  previous : StateRef;
  current : StateRef;
  preIdle : FastMixerState;
  oldTs : Z * Z;                     (* tv_sec, tv_nsec *)
  oldTsValid : bool;
  sleepNs : Z;
  fastTrackNames : list Z;
  generations : list Z;
  outputSink : option nat;
  outputSinkGen : Z;
  mixer : bool;                      (* mixer != NULL *)
  mixBuffer : option BufContent;     (* None = NULL *)
  mixBufferState : MixBufferState;
  format : NBAIO_Format;
  sampleRate : Z;
  fastTracksGen : Z;
  periodNs : Z;
  underrunNs : Z;
  overrunNs : Z;
  dumpState : DumpRef;
  dummyDumpState : FastMixerDumpState;
  ignoreNextOverrun : bool;
  coldGen : Z;
  dumpArea : nat -> FastMixerDumpState;  (* externally owned dump areas *)
  nameSupply : list Z;               (* what getTrackName will answer *)
  trace : list Event
}.

(** What the collaborators answer during one cycle. *)
Record Env := mkEnv {
  sq_poll : option nat;              (* mSQ.poll(), None = NULL *)
  atomic_dec_old : Z;                (* android_atomic_dec's result *)
  sink_format : nat -> NBAIO_Format; (* outputSink->format() *)
  track_names : list Z;              (* successive getTrackName() results *)
  volume_lr : nat -> Z;              (* getVolumeLR() per provider *)
  sink_write : Z;                    (* outputSink->write()'s result *)
  clock : option (Z * Z)             (* clock_gettime: None when rc != 0 *)
}.

(** ** The monad: state over [Machine], with abort and fuel exhaustion *)

Inductive Outcome (A : Type) :=
| Ok (a : A)
| Fatal          (* a failed ALOG_ASSERT or LOG_FATAL *)
| OutOfFuel.
Arguments Ok {A} a.
Arguments Fatal {A}.
Arguments OutOfFuel {A}.

Definition M (A : Type) : Type := Machine -> Outcome (A * Machine).

Definition ret {A} (a : A) : M A := fun m => Ok (a, m).
Definition bind {A B} (c : M A) (k : A -> M B) : M B :=
  fun m => match c m with
           | Ok (a, m') => k a m'
           | Fatal => Fatal
           | OutOfFuel => OutOfFuel
           end.
Definition get : M Machine := fun m => Ok (m, m).
Definition gets {A} (f : Machine -> A) : M A := fun m => Ok (f m, m).
Definition modify (f : Machine -> Machine) : M unit := fun m => Ok (tt, f m).
Definition fatal {A} : M A := fun _ => Fatal.
Definition out_of_fuel {A} : M A := fun _ => OutOfFuel.

Declare Scope fm_scope.
Delimit Scope fm_scope with fm.
Notation "x <- c ;; k" := (bind c (fun x => k))
  (at level 100, c at next level, right associativity) : fm_scope.
Notation "c ;;; k" := (bind c (fun _ => k))
  (at level 100, right associativity) : fm_scope.
Local Open Scope fm_scope.

Definition when (b : bool) (c : M unit) : M unit := if b then c else ret tt.

(** Assignments to one local (or to one part of the memory). *)
Definition set_previous v (m : Machine) : Machine :=
  mkMachine v (current m) (preIdle m) (oldTs m) (oldTsValid m) (sleepNs m)
    (fastTrackNames m) (generations m) (outputSink m) (outputSinkGen m) (mixer
    m) (mixBuffer m) (mixBufferState m) (format m) (sampleRate m)
    (fastTracksGen m) (periodNs m) (underrunNs m) (overrunNs m) (dumpState m)
    (dummyDumpState m) (ignoreNextOverrun m) (coldGen m) (dumpArea m)
    (nameSupply m) (trace m).
Definition set_current v (m : Machine) : Machine :=
  mkMachine (previous m) v (preIdle m) (oldTs m) (oldTsValid m) (sleepNs m)
    (fastTrackNames m) (generations m) (outputSink m) (outputSinkGen m) (mixer
    m) (mixBuffer m) (mixBufferState m) (format m) (sampleRate m)
    (fastTracksGen m) (periodNs m) (underrunNs m) (overrunNs m) (dumpState m)
    (dummyDumpState m) (ignoreNextOverrun m) (coldGen m) (dumpArea m)
    (nameSupply m) (trace m).
Definition set_preIdle v (m : Machine) : Machine :=
  mkMachine (previous m) (current m) v (oldTs m) (oldTsValid m) (sleepNs m)
    (fastTrackNames m) (generations m) (outputSink m) (outputSinkGen m) (mixer
    m) (mixBuffer m) (mixBufferState m) (format m) (sampleRate m)
    (fastTracksGen m) (periodNs m) (underrunNs m) (overrunNs m) (dumpState m)
    (dummyDumpState m) (ignoreNextOverrun m) (coldGen m) (dumpArea m)
    (nameSupply m) (trace m).
Definition set_oldTs v (m : Machine) : Machine :=
  mkMachine (previous m) (current m) (preIdle m) v (oldTsValid m) (sleepNs
    m) (fastTrackNames m) (generations m) (outputSink m) (outputSinkGen m)
    (mixer m) (mixBuffer m) (mixBufferState m) (format m) (sampleRate m)
    (fastTracksGen m) (periodNs m) (underrunNs m) (overrunNs m) (dumpState m)
    (dummyDumpState m) (ignoreNextOverrun m) (coldGen m) (dumpArea m)
    (nameSupply m) (trace m).
Definition set_oldTsValid v (m : Machine) : Machine :=
  mkMachine (previous m) (current m) (preIdle m) (oldTs m) v (sleepNs m)
    (fastTrackNames m) (generations m) (outputSink m) (outputSinkGen m) (mixer
    m) (mixBuffer m) (mixBufferState m) (format m) (sampleRate m)
    (fastTracksGen m) (periodNs m) (underrunNs m) (overrunNs m) (dumpState m)
    (dummyDumpState m) (ignoreNextOverrun m) (coldGen m) (dumpArea m)
    (nameSupply m) (trace m).
Definition set_sleepNs v (m : Machine) : Machine :=
  mkMachine (previous m) (current m) (preIdle m) (oldTs m) (oldTsValid m) v
    (fastTrackNames m) (generations m) (outputSink m) (outputSinkGen m) (mixer
    m) (mixBuffer m) (mixBufferState m) (format m) (sampleRate m)
    (fastTracksGen m) (periodNs m) (underrunNs m) (overrunNs m) (dumpState m)
    (dummyDumpState m) (ignoreNextOverrun m) (coldGen m) (dumpArea m)
    (nameSupply m) (trace m).
Definition set_fastTrackNames v (m : Machine) : Machine :=
  mkMachine (previous m) (current m) (preIdle m) (oldTs m) (oldTsValid m)
    (sleepNs m) v (generations m) (outputSink m) (outputSinkGen m) (mixer m)
    (mixBuffer m) (mixBufferState m) (format m) (sampleRate m) (fastTracksGen
    m) (periodNs m) (underrunNs m) (overrunNs m) (dumpState m) (dummyDumpState
    m) (ignoreNextOverrun m) (coldGen m) (dumpArea m) (nameSupply m) (trace m).
Definition set_generations v (m : Machine) : Machine :=
  mkMachine (previous m) (current m) (preIdle m) (oldTs m) (oldTsValid m)
    (sleepNs m) (fastTrackNames m) v (outputSink m) (outputSinkGen m) (mixer
    m) (mixBuffer m) (mixBufferState m) (format m) (sampleRate m)
    (fastTracksGen m) (periodNs m) (underrunNs m) (overrunNs m) (dumpState m)
    (dummyDumpState m) (ignoreNextOverrun m) (coldGen m) (dumpArea m)
    (nameSupply m) (trace m).
Definition set_outputSink v (m : Machine) : Machine :=
  mkMachine (previous m) (current m) (preIdle m) (oldTs m) (oldTsValid m)
    (sleepNs m) (fastTrackNames m) (generations m) v (outputSinkGen m) (mixer
    m) (mixBuffer m) (mixBufferState m) (format m) (sampleRate m)
    (fastTracksGen m) (periodNs m) (underrunNs m) (overrunNs m) (dumpState m)
    (dummyDumpState m) (ignoreNextOverrun m) (coldGen m) (dumpArea m)
    (nameSupply m) (trace m).
Definition set_outputSinkGen v (m : Machine) : Machine :=
  mkMachine (previous m) (current m) (preIdle m) (oldTs m) (oldTsValid m)
    (sleepNs m) (fastTrackNames m) (generations m) (outputSink m) v (mixer m)
    (mixBuffer m) (mixBufferState m) (format m) (sampleRate m) (fastTracksGen
    m) (periodNs m) (underrunNs m) (overrunNs m) (dumpState m) (dummyDumpState
    m) (ignoreNextOverrun m) (coldGen m) (dumpArea m) (nameSupply m) (trace m).
Definition set_mixer v (m : Machine) : Machine :=
  mkMachine (previous m) (current m) (preIdle m) (oldTs m) (oldTsValid m)
    (sleepNs m) (fastTrackNames m) (generations m) (outputSink m)
    (outputSinkGen m) v (mixBuffer m) (mixBufferState m) (format m)
    (sampleRate m) (fastTracksGen m) (periodNs m) (underrunNs m) (overrunNs m)
    (dumpState m) (dummyDumpState m) (ignoreNextOverrun m) (coldGen m)
    (dumpArea m) (nameSupply m) (trace m).
Definition set_mixBuffer v (m : Machine) : Machine :=
  mkMachine (previous m) (current m) (preIdle m) (oldTs m) (oldTsValid m)
    (sleepNs m) (fastTrackNames m) (generations m) (outputSink m)
    (outputSinkGen m) (mixer m) v (mixBufferState m) (format m) (sampleRate m)
    (fastTracksGen m) (periodNs m) (underrunNs m) (overrunNs m) (dumpState m)
    (dummyDumpState m) (ignoreNextOverrun m) (coldGen m) (dumpArea m)
    (nameSupply m) (trace m).
Definition set_mixBufferState v (m : Machine) : Machine :=
  mkMachine (previous m) (current m) (preIdle m) (oldTs m) (oldTsValid m)
    (sleepNs m) (fastTrackNames m) (generations m) (outputSink m)
    (outputSinkGen m) (mixer m) (mixBuffer m) v (format m) (sampleRate m)
    (fastTracksGen m) (periodNs m) (underrunNs m) (overrunNs m) (dumpState m)
    (dummyDumpState m) (ignoreNextOverrun m) (coldGen m) (dumpArea m)
    (nameSupply m) (trace m).
Definition set_format v (m : Machine) : Machine :=
  mkMachine (previous m) (current m) (preIdle m) (oldTs m) (oldTsValid m)
    (sleepNs m) (fastTrackNames m) (generations m) (outputSink m)
    (outputSinkGen m) (mixer m) (mixBuffer m) (mixBufferState m) v (sampleRate
    m) (fastTracksGen m) (periodNs m) (underrunNs m) (overrunNs m) (dumpState
    m) (dummyDumpState m) (ignoreNextOverrun m) (coldGen m) (dumpArea m)
    (nameSupply m) (trace m).
Definition set_sampleRate v (m : Machine) : Machine :=
  mkMachine (previous m) (current m) (preIdle m) (oldTs m) (oldTsValid m)
    (sleepNs m) (fastTrackNames m) (generations m) (outputSink m)
    (outputSinkGen m) (mixer m) (mixBuffer m) (mixBufferState m) (format m) v
    (fastTracksGen m) (periodNs m) (underrunNs m) (overrunNs m) (dumpState m)
    (dummyDumpState m) (ignoreNextOverrun m) (coldGen m) (dumpArea m)
    (nameSupply m) (trace m).
Definition set_fastTracksGen v (m : Machine) : Machine :=
  mkMachine (previous m) (current m) (preIdle m) (oldTs m) (oldTsValid m)
    (sleepNs m) (fastTrackNames m) (generations m) (outputSink m)
    (outputSinkGen m) (mixer m) (mixBuffer m) (mixBufferState m) (format m)
    (sampleRate m) v (periodNs m) (underrunNs m) (overrunNs m) (dumpState m)
    (dummyDumpState m) (ignoreNextOverrun m) (coldGen m) (dumpArea m)
    (nameSupply m) (trace m).
Definition set_periodNs v (m : Machine) : Machine :=
  mkMachine (previous m) (current m) (preIdle m) (oldTs m) (oldTsValid m)
    (sleepNs m) (fastTrackNames m) (generations m) (outputSink m)
    (outputSinkGen m) (mixer m) (mixBuffer m) (mixBufferState m) (format m)
    (sampleRate m) (fastTracksGen m) v (underrunNs m) (overrunNs m) (dumpState
    m) (dummyDumpState m) (ignoreNextOverrun m) (coldGen m) (dumpArea m)
    (nameSupply m) (trace m).
Definition set_underrunNs v (m : Machine) : Machine :=
  mkMachine (previous m) (current m) (preIdle m) (oldTs m) (oldTsValid m)
    (sleepNs m) (fastTrackNames m) (generations m) (outputSink m)
    (outputSinkGen m) (mixer m) (mixBuffer m) (mixBufferState m) (format m)
    (sampleRate m) (fastTracksGen m) (periodNs m) v (overrunNs m) (dumpState
    m) (dummyDumpState m) (ignoreNextOverrun m) (coldGen m) (dumpArea m)
    (nameSupply m) (trace m).
Definition set_overrunNs v (m : Machine) : Machine :=
  mkMachine (previous m) (current m) (preIdle m) (oldTs m) (oldTsValid m)
    (sleepNs m) (fastTrackNames m) (generations m) (outputSink m)
    (outputSinkGen m) (mixer m) (mixBuffer m) (mixBufferState m) (format m)
    (sampleRate m) (fastTracksGen m) (periodNs m) (underrunNs m) v (dumpState
    m) (dummyDumpState m) (ignoreNextOverrun m) (coldGen m) (dumpArea m)
    (nameSupply m) (trace m).
Definition set_dumpState v (m : Machine) : Machine :=
  mkMachine (previous m) (current m) (preIdle m) (oldTs m) (oldTsValid m)
    (sleepNs m) (fastTrackNames m) (generations m) (outputSink m)
    (outputSinkGen m) (mixer m) (mixBuffer m) (mixBufferState m) (format m)
    (sampleRate m) (fastTracksGen m) (periodNs m) (underrunNs m) (overrunNs m)
    v (dummyDumpState m) (ignoreNextOverrun m) (coldGen m) (dumpArea m)
    (nameSupply m) (trace m).
Definition set_dummyDumpState v (m : Machine) : Machine :=
  mkMachine (previous m) (current m) (preIdle m) (oldTs m) (oldTsValid m)
    (sleepNs m) (fastTrackNames m) (generations m) (outputSink m)
    (outputSinkGen m) (mixer m) (mixBuffer m) (mixBufferState m) (format m)
    (sampleRate m) (fastTracksGen m) (periodNs m) (underrunNs m) (overrunNs m)
    (dumpState m) v (ignoreNextOverrun m) (coldGen m) (dumpArea m) (nameSupply
    m) (trace m).
Definition set_ignoreNextOverrun v (m : Machine) : Machine :=
  mkMachine (previous m) (current m) (preIdle m) (oldTs m) (oldTsValid m)
    (sleepNs m) (fastTrackNames m) (generations m) (outputSink m)
    (outputSinkGen m) (mixer m) (mixBuffer m) (mixBufferState m) (format m)
    (sampleRate m) (fastTracksGen m) (periodNs m) (underrunNs m) (overrunNs m)
    (dumpState m) (dummyDumpState m) v (coldGen m) (dumpArea m) (nameSupply m)
    (trace m).
Definition set_coldGen v (m : Machine) : Machine :=
  mkMachine (previous m) (current m) (preIdle m) (oldTs m) (oldTsValid m)
    (sleepNs m) (fastTrackNames m) (generations m) (outputSink m)
    (outputSinkGen m) (mixer m) (mixBuffer m) (mixBufferState m) (format m)
    (sampleRate m) (fastTracksGen m) (periodNs m) (underrunNs m) (overrunNs m)
    (dumpState m) (dummyDumpState m) (ignoreNextOverrun m) v (dumpArea m)
    (nameSupply m) (trace m).
Definition set_dumpArea v (m : Machine) : Machine :=
  mkMachine (previous m) (current m) (preIdle m) (oldTs m) (oldTsValid m)
    (sleepNs m) (fastTrackNames m) (generations m) (outputSink m)
    (outputSinkGen m) (mixer m) (mixBuffer m) (mixBufferState m) (format m)
    (sampleRate m) (fastTracksGen m) (periodNs m) (underrunNs m) (overrunNs m)
    (dumpState m) (dummyDumpState m) (ignoreNextOverrun m) (coldGen m) v
    (nameSupply m) (trace m).
Definition set_nameSupply v (m : Machine) : Machine :=
  mkMachine (previous m) (current m) (preIdle m) (oldTs m) (oldTsValid m)
    (sleepNs m) (fastTrackNames m) (generations m) (outputSink m)
    (outputSinkGen m) (mixer m) (mixBuffer m) (mixBufferState m) (format m)
    (sampleRate m) (fastTracksGen m) (periodNs m) (underrunNs m) (overrunNs m)
    (dumpState m) (dummyDumpState m) (ignoreNextOverrun m) (coldGen m)
    (dumpArea m) v (trace m).
Definition set_trace v (m : Machine) : Machine :=
  mkMachine (previous m) (current m) (preIdle m) (oldTs m) (oldTsValid m)
    (sleepNs m) (fastTrackNames m) (generations m) (outputSink m)
    (outputSinkGen m) (mixer m) (mixBuffer m) (mixBufferState m) (format m)
    (sampleRate m) (fastTracksGen m) (periodNs m) (underrunNs m) (overrunNs m)
    (dumpState m) (dummyDumpState m) (ignoreNextOverrun m) (coldGen m)
    (dumpArea m) (nameSupply m) v.
Definition set_dCommand v (d : FastMixerDumpState) : FastMixerDumpState :=
  mkDump v (mWriteSequence d) (mFramesWritten d) (mNumTracks d) (mWriteErrors d) (mUnderruns d) (mOverruns d).
Definition set_mWriteSequence v (d : FastMixerDumpState) : FastMixerDumpState :=
  mkDump (dCommand d) v (mFramesWritten d) (mNumTracks d) (mWriteErrors d) (mUnderruns d) (mOverruns d).
Definition set_mFramesWritten v (d : FastMixerDumpState) : FastMixerDumpState :=
  mkDump (dCommand d) (mWriteSequence d) v (mNumTracks d) (mWriteErrors d) (mUnderruns d) (mOverruns d).
Definition set_mNumTracks v (d : FastMixerDumpState) : FastMixerDumpState :=
  mkDump (dCommand d) (mWriteSequence d) (mFramesWritten d) v (mWriteErrors d) (mUnderruns d) (mOverruns d).
Definition set_mWriteErrors v (d : FastMixerDumpState) : FastMixerDumpState :=
  mkDump (dCommand d) (mWriteSequence d) (mFramesWritten d) (mNumTracks d) v (mUnderruns d) (mOverruns d).
Definition set_mUnderruns v (d : FastMixerDumpState) : FastMixerDumpState :=
  mkDump (dCommand d) (mWriteSequence d) (mFramesWritten d) (mNumTracks d) (mWriteErrors d) v (mOverruns d).
Definition set_mOverruns v (d : FastMixerDumpState) : FastMixerDumpState :=
  mkDump (dCommand d) (mWriteSequence d) (mFramesWritten d) (mNumTracks d) (mWriteErrors d) (mUnderruns d) v.

(** [*r] for a state pointer [r], the queue's storage being [sq]. *)
Definition deref (sq : nat -> FastMixerState) (m : Machine) (r : StateRef)
  : FastMixerState :=
  match r with
  | RefInitial => initial
  | RefPreIdle => preIdle m
  | RefQueue k => sq k
  end.

(** [*dumpState], read and written in place. *)
Definition dump_of (m : Machine) : FastMixerDumpState :=
  match dumpState m with
  | RefDummy => dummyDumpState m
  | RefDump k => dumpArea m k
  end.

Definition update_dump (f : FastMixerDumpState -> FastMixerDumpState)
  (m : Machine) : Machine :=
  match dumpState m with
  | RefDummy => set_dummyDumpState (f (dummyDumpState m)) m
  | RefDump k =>
      set_dumpArea (fun j => if Nat.eqb j k then f (dumpArea m k)
                             else dumpArea m j) m
  end.

Definition emit (e : Event) : M unit :=
  modify (fun m => set_trace (trace m ++ [e]) m).

Section Worker.

(** Build configuration: [LOG_NDEBUG] decides whether [ALOG_ASSERT] and
    [LOG_FATAL] are compiled in, and the [#if !LOG_NDEBUG] blocks with them. *)
Variable LOG_NDEBUG : bool.

(** The storage of the state queue: snapshot [k] is immutable once published. *)
Variable sq : nat -> FastMixerState.

Definition ALOG_ASSERT (c : bool) : M unit :=
  if LOG_NDEBUG then ret tt else if c then ret tt else fatal.

Definition LOG_FATAL : M unit :=
  if LOG_NDEBUG then ret tt else fatal.

(** Lines 73-84: nanosleep, sched_yield or busy wait, then the default. *)
Definition FAST_HOT_IDLE_NS : Z := 1000000.
Definition FAST_DEFAULT_NS : Z := 999999999.

Definition do_sleep : M unit :=
  s <- gets sleepNs ;;
  when (0 <=? s)
    (if 0 <? s
     then ALOG_ASSERT (s <? 1000000000) ;;; emit (EvNanosleep s)
     else emit EvSchedYield) ;;;
  modify (set_sleepNs FAST_DEFAULT_NS).

(** Lines 86-124: poll, adopt a new state, pin [previous]; gives [command]. *)
Definition poll_state (env : Env) : M Z :=
  cur <- gets current ;;
  prev <- gets previous ;;
  next <- match sq_poll env with
          | None =>
              ALOG_ASSERT (StateRef_eqb cur RefInitial
                           && StateRef_eqb prev RefInitial) ;;;
              ret cur
          | Some k => ret (RefQueue k)
          end ;;
  m0 <- get ;;
  let command := mCommand (deref sq m0 next) in
  when (negb (StateRef_eqb next cur))
    (modify (set_dumpState match mDumpState (deref sq m0 next) with
                           | Some d => RefDump d
                           | None => RefDummy
                           end) ;;;
     when (negb (has_flag (mCommand (deref sq m0 cur)) IDLE))
       (when (has_flag command IDLE)
          (modify (fun m => set_preIdle (deref sq m (current m)) m) ;;;
           modify (set_current RefPreIdle) ;;;
           modify (set_oldTsValid false) ;;;
           modify (set_ignoreNextOverrun true)) ;;;
        modify (fun m => set_previous (current m) m)) ;;;
     modify (set_current next)) ;;;
  modify (update_dump (set_dCommand command)) ;;;
  ret command.

(** Where the [switch (command)] of lines 126-156 leaves the cycle. *)
Inductive Flow :=
| Work        (* break: go on to the work of the cycle *)
| Continue    (* continue: next cycle *)
| Return.     (* return false: the thread ends *)

(** [delete mixer] and [delete[] mixBuffer]: nothing happens on NULL. *)
Definition delete_mixer : M unit :=
  b <- gets mixer ;; when b (emit EvDeleteMixer).
Definition delete_mixBuffer : M unit :=
  b <- gets mixBuffer ;; when (non_null b) (emit EvDeleteMixBuffer).

(** Lines 131-145.  A NULL [coldFutexAddr] is fatal in every build: the
    assertion in a debug build, the access through it otherwise. *)
Definition cold_idle (env : Env) : M unit :=
  m <- get ;;
  let cur := deref sq m (current m) in
  if negb (mColdGen cur =? coldGen m) then
    match mColdFutexAddr cur with
    | None => fatal
    | Some coldFutexAddr =>
        emit (EvAtomicDec coldFutexAddr) ;;;
        let old := atomic_dec_old env in
        when (old <=? 0)
          (emit (EvFutexWait coldFutexAddr (to_int (old - 1)))) ;;;
        modify (set_sleepNs (-1)) ;;;
        modify (set_coldGen (mColdGen cur))
    end
  else modify (set_sleepNs FAST_HOT_IDLE_NS).

Definition dispatch (env : Env) (command : Z) : M Flow :=
  if (command =? INITIAL) || (command =? HOT_IDLE) then
    modify (set_sleepNs FAST_HOT_IDLE_NS) ;;; ret Continue
  else if command =? COLD_IDLE then
    cold_idle env ;;; ret Continue
  else if command =? EXIT then
    delete_mixer ;;; delete_mixBuffer ;;; ret Return
  else if (command =? MIX) || (command =? WRITE) || (command =? MIX_WRITE) then
    ret Work
  else
    LOG_FATAL ;;; ret Work.

(** [while (mask != 0) { i = __builtin_ctz(mask); mask &= ~(1 << i); ... }]
    A 32-bit mask needs at most 32 rounds ([bit_loop_32], [cycle_fueled]). *)
Fixpoint bit_loop (fuel : nat) (mask : Z) (body : nat -> M unit) : M unit :=
  if mask =? 0 then ret tt
  else match fuel with
       | O => out_of_fuel
       | S fuel' =>
           let i := builtin_ctz mask in
           body i ;;; bit_loop fuel' (clear_bit mask i) body
       end.

(** [a[i]] and [a[i] = v] on the two arrays of [kMaxFastTracks] ints. *)
Definition at_index (a : list Z) (i : nat) : Z := default 0 (a !! i).

Definition getTrackName : M Z :=
  s <- gets nameSupply ;;
  let name := match s with [] => -1 | n :: _ => n end in
  modify (set_nameSupply (tl s)) ;;;
  emit (EvGetTrackName name) ;;;
  ret name.

Definition set_generation (i : nat) (g : Z) : M unit :=
  modify (fun m => set_generations (<[i := g]> (generations m)) m).
Definition set_fastTrackName (i : nat) (n : Z) : M unit :=
  modify (fun m => set_fastTrackNames (<[i := n]> (fastTrackNames m)) m).

(** Lines 222-235, the body of the loop over removed tracks. *)
Definition removed_track (cur : FastMixerState) (i : nat) : M unit :=
  let fastTrack := fastTrack_at cur i in
  m <- get ;;
  when (mixer m)
    (let name := at_index (fastTrackNames m) i in
     ALOG_ASSERT (0 <=? name) ;;;
     emit (EvDeleteTrackName name)) ;;;
  when (negb LOG_NDEBUG) (set_fastTrackName i (-1)) ;;;
  set_generation i (mGeneration fastTrack).

(** Lines 239-256, the body of the loop over added tracks. *)
Definition added_track (cur : FastMixerState) (i : nat) : M unit :=
  let fastTrack := fastTrack_at cur i in
  let bufferProvider := mBufferProvider fastTrack in
  m <- get ;;
  ALOG_ASSERT (non_null bufferProvider
               && (at_index (fastTrackNames m) i =? -1)) ;;;
  when (mixer m)
    (name <- getTrackName ;;
     ALOG_ASSERT (0 <=? name) ;;;
     set_fastTrackName i name ;;;
     emit (EvSetBufferProvider name bufferProvider) ;;;
     emit (EvSetMainBuffer name) ;;;
     emit (EvEnable name)) ;;;
  set_generation i (mGeneration fastTrack).

(** Lines 261-282, the body of the loop over tracks in both masks. *)
Definition modified_track (cur : FastMixerState) (i : nat) : M unit :=
  let fastTrack := fastTrack_at cur i in
  m <- get ;;
  when (negb (mGeneration fastTrack =? at_index (generations m) i))
    (let bufferProvider := mBufferProvider fastTrack in
     ALOG_ASSERT (non_null bufferProvider) ;;;
     when (mixer m)
       (let name := at_index (fastTrackNames m) i in
        ALOG_ASSERT (0 <=? name) ;;;
        emit (EvSetBufferProvider name bufferProvider) ;;;
        when (negb (non_null (mVolumeProvider fastTrack)))
          (emit (EvSetVolume0 name 4096) ;;;
           emit (EvSetVolume1 name 4096))) ;;;
     set_generation i (mGeneration fastTrack)).

(** [unsigned currentTrackMask = current->mTrackMask]: a mask is read into
    an [unsigned]. *)
Definition trackMask (s : FastMixerState) : Z := wrap_u32 (mTrackMask s).

(** Lines 214-287: the diff of the active track set. *)
Definition removed_tracks (cur : FastMixerState) (previousTrackMask : Z)
  : M unit :=
  let currentTrackMask := trackMask cur in
  bit_loop 32 (Z.land previousTrackMask (wrap_u32 (Z.lnot currentTrackMask)))
           (removed_track cur).
Definition added_tracks (cur : FastMixerState) (previousTrackMask : Z)
  : M unit :=
  let currentTrackMask := trackMask cur in
  bit_loop 32 (Z.land currentTrackMask (wrap_u32 (Z.lnot previousTrackMask)))
           (added_track cur).
Definition modified_tracks (cur : FastMixerState) (previousTrackMask : Z)
  : M unit :=
  let currentTrackMask := trackMask cur in
  bit_loop 32 (Z.land currentTrackMask previousTrackMask)
           (modified_track cur).

Definition track_diff (cur : FastMixerState) (previousTrackMask : Z)
  : M unit :=
  g <- gets fastTracksGen ;;
  when (negb (mFastTracksGen cur =? g))
    (b <- gets mixBuffer ;;
     ALOG_ASSERT (non_null b) ;;;
     removed_tracks cur previousTrackMask ;;;
     added_tracks cur previousTrackMask ;;;
     modified_tracks cur previousTrackMask ;;;
     modify (set_fastTracksGen (mFastTracksGen cur)) ;;;
     modify (update_dump (set_mNumTracks (popcount (trackMask cur))))).

(** Lines 166-179: a new sink generation rebinds the sink and its format. *)
Definition check_sink (env : Env) (cur : FastMixerState) : M unit :=
  g <- gets outputSinkGen ;;
  when (negb (mOutputSinkGen cur =? g))
    (modify (set_outputSink (mOutputSink cur)) ;;;
     modify (set_outputSinkGen (mOutputSinkGen cur)) ;;;
     match mOutputSink cur with
     | None =>
         modify (set_format Format_Invalid) ;;;
         modify (set_sampleRate 0)
     | Some sink =>
         emit (EvSinkFormat sink) ;;;
         let f := sink_format env sink in
         modify (set_format f) ;;;
         modify (set_sampleRate (wrap_u32 (Format_sampleRate f))) ;;;
         ALOG_ASSERT (Format_channelCount f =? 2)
     end).

(** Lines 181-212: a new format or frame count replaces engine and buffer
    and recomputes the timing constants; gives [previousTrackMask]. *)
Definition reallocate (cur prev : FastMixerState)
  (previousFormat : NBAIO_Format) : M Z :=
  let frameCount := mFrameCount cur in
  f <- gets format ;;
  if negb (Format_eqb f previousFormat)
     || negb (frameCount =? mFrameCount prev) then
    delete_mixer ;;;
    modify (set_mixer false) ;;;
    delete_mixBuffer ;;;
    modify (set_mixBuffer None) ;;;
    sr <- gets sampleRate ;;
    (if (0 <? frameCount) && (0 <? sr) then
       emit (EvNewMixer frameCount sr kMaxFastTracks) ;;;
       modify (set_mixer true) ;;;
       emit (EvNewMixBuffer (wrap_u32 (frameCount * 2))) ;;;
       modify (set_mixBuffer (Some Uninitialised)) ;;;
       modify (set_periodNs
                 (to_long (Z.quot (frameCount * 1000000000) sr))) ;;;
       modify (set_underrunNs
                 (to_long (Z.quot (frameCount * 1750000000) sr))) ;;;
       modify (set_overrunNs
                 (to_long (Z.quot (frameCount * 250000000) sr)))
     else
       modify (set_periodNs 0) ;;;
       modify (set_underrunNs 0) ;;;
       modify (set_overrunNs 0)) ;;;
    modify (set_mixBufferState UNDEFINED) ;;;
    when (negb LOG_NDEBUG)
      (modify (set_fastTrackNames (replicate kMaxFastTracks (-1)))) ;;;
    modify (set_fastTracksGen (to_int (mFastTracksGen cur - 1))) ;;;
    ret 0
  else ret (trackMask prev).

(** Lines 158-293: the handling of a state change. *)
Definition state_change (env : Env) : M unit :=
  m <- get ;;
  let cur := deref sq m (current m) in
  let prev := deref sq m (previous m) in
  when (negb (StateRef_eqb (current m) (previous m)))
    (let previousFormat := format m in
     check_sink env cur ;;;
     previousTrackMask <- reallocate cur prev previousFormat ;;
     track_diff cur previousTrackMask ;;;
     modify (fun m' => set_previous (current m') m')).

(** Lines 296-319: volumes, then [process()]; or a stale buffer demoted. *)
Definition update_volume (env : Env) (cur : FastMixerState) (i : nat)
  : M unit :=
  let fastTrack := fastTrack_at cur i in
  names <- gets fastTrackNames ;;
  let name := at_index names i in
  ALOG_ASSERT (0 <=? name) ;;;
  match mVolumeProvider fastTrack with
  | Some vp =>
      emit (EvGetVolumeLR vp) ;;;
      let vlr := volume_lr env vp in
      emit (EvSetVolume0 name (Z.land vlr 65535)) ;;;
      emit (EvSetVolume1 name (Z.shiftr vlr 16))
  | None => ret tt
  end.

Definition mix_step (env : Env) (command : Z) (cur : FastMixerState)
  : M unit :=
  m <- get ;;
  if has_flag command MIX && mixer m then
    ALOG_ASSERT (non_null (mixBuffer m)) ;;;
    bit_loop 32 (trackMask cur) (update_volume env cur) ;;;
    emit EvProcess ;;;
    modify (fun m' => set_mixBuffer
                        (match mixBuffer m' with
                         | Some _ => Some MixOutput
                         | None => None
                         end) m') ;;;
    modify (set_mixBufferState MIXED)
  else
    when (MixBufferState_eqb (mixBufferState m) MIXED)
      (modify (set_mixBufferState UNDEFINED)).

Definition incr (z : Z) : Z := wrap_u32 (z + 1).

(** Lines 320-336: the write to the sink. *)
Definition write_step (env : Env) (command : Z) (cur : FastMixerState)
  : M unit :=
  let frameCount := mFrameCount cur in
  m <- get ;;
  match outputSink m, mixBuffer m with
  | Some sink, Some b =>
      when (has_flag command WRITE)
        (when (MixBufferState_eqb (mixBufferState m) UNDEFINED)
           (let bytes := wrap_u32 (frameCount * 2 * 2) in
            emit (EvMemset bytes) ;;;
            modify (set_mixBuffer (Some (Cleared bytes b))) ;;;
            modify (set_mixBufferState ZEROED)) ;;;
         modify (update_dump
                   (fun d => set_mWriteSequence (incr (mWriteSequence d)) d)) ;;;
         m1 <- get ;;
         emit (EvSinkWrite sink (default Uninitialised (mixBuffer m1))
                           frameCount (mWriteSequence (dump_of m1))) ;;;
         let framesWritten := sink_write env in
         modify (update_dump
                   (fun d => set_mWriteSequence (incr (mWriteSequence d)) d)) ;;;
         if 0 <=? framesWritten then
           modify (update_dump
                     (fun d => set_mFramesWritten
                                 (wrap_u32 (mFramesWritten d + framesWritten))
                                 d))
         else
           modify (update_dump
                     (fun d => set_mWriteErrors (incr (mWriteErrors d)) d)))
  | _, _ => ret tt
  end.

(** Lines 345-350: the interval since [oldTs] as seconds and nanoseconds. *)
Definition interval (newTs oldTs' : Z * Z) : Z * Z :=
  let sec := fst newTs - fst oldTs' in
  let nsec := snd newTs - snd oldTs' in
  if nsec <? 0 then (sec - 1, nsec + 1000000000) else (sec, nsec).

(** Lines 351-371: underrun, overrun or neither, and the next sleep. *)
Definition classify (sec nsec : Z) : M unit :=
  m <- get ;;
  if (0 <? sec) || (underrunNs m <? nsec) then
    modify (update_dump (fun d => set_mUnderruns (incr (mUnderruns d)) d)) ;;;
    modify (set_sleepNs (-1)) ;;;
    modify (set_ignoreNextOverrun true)
  else if nsec <? overrunNs m then
    (if ignoreNextOverrun m then
       modify (set_ignoreNextOverrun false)
     else
       modify (update_dump (fun d => set_mOverruns (incr (mOverruns d)) d))) ;;;
    modify (set_sleepNs (to_long (periodNs m - overrunNs m)))
  else
    modify (set_sleepNs (-1)) ;;;
    modify (set_ignoreNextOverrun false).

(** Lines 338-394: the next sleep time from the monotonic clock. *)
Definition timing (env : Env) : M unit :=
  emit EvClockGettime ;;;
  match clock env with
  | Some newTs =>
      m <- get ;;
      (if oldTsValid m then
         let '(sec, nsec) := interval newTs (oldTs m) in
         classify sec nsec
       else
         modify (set_oldTsValid true) ;;;
         modify (set_sleepNs (periodNs m)) ;;;
         modify (set_ignoreNextOverrun true)) ;;;
      modify (set_oldTs newTs)
  | None =>
      modify (set_oldTsValid false) ;;;
      modify (fun m => set_sleepNs (periodNs m) m)
  end.

(** Lines 295-394: the work of a cycle under a MIX / WRITE command. *)
Definition work (env : Env) (command : Z) : M unit :=
  state_change env ;;;
  m <- get ;;
  let cur := deref sq m (current m) in
  mix_step env command cur ;;;
  write_step env command cur ;;;
  timing env.

(** One round of the [for (;;)] of [threadLoop]; [true] when the loop goes
    on, [false] when [threadLoop] has returned. *)
Definition cycle (env : Env) : M bool :=
  modify (set_nameSupply (track_names env)) ;;;
  do_sleep ;;;
  command <- poll_state env ;;
  flow <- dispatch env command ;;
  match flow with
  | Continue => ret true
  | Return => ret false
  | Work => work env command ;;; ret true
  end.

(** The locals as initialised by lines 38-69. *)
Definition init_machine (areas : nat -> FastMixerDumpState) : Machine :=
  {| previous := RefInitial; current := RefInitial; preIdle := initial;
     oldTs := (0, 0); oldTsValid := false; sleepNs := -1;
     fastTrackNames := replicate kMaxFastTracks (-1);
     generations := replicate kMaxFastTracks 0;
     outputSink := None; outputSinkGen := 0;
     mixer := false; mixBuffer := None; mixBufferState := UNDEFINED;
     format := Format_Invalid; sampleRate := 0; fastTracksGen := 0;
     periodNs := 0; underrunNs := 0; overrunNs := 0;
     dumpState := RefDummy; dummyDumpState := new_FastMixerDumpState;
     ignoreNextOverrun := true; coldGen := 0;
     dumpArea := areas; nameSupply := []; trace := [] |}.

(** The loop over the answers of successive cycles: the machine at the top
    of the next cycle, or [None] once the thread has returned. *)
Fixpoint run (envs : list Env) (m : Machine) : Outcome (option Machine) :=
  match envs with
  | [] => Ok (Some m)
  | env :: rest =>
      match cycle env m with
      | Ok (true, m') => run rest m'
      | Ok (false, _) => Ok None
      | Fatal => Fatal
      | OutOfFuel => OutOfFuel
      end
  end.

End Worker.

(** * Properties *)

(** ** Evaluating the monad *)

Arguments wrap_u32 : simpl never.
Arguments wrap_s32 : simpl never.
Arguments to_long : simpl never.
Arguments to_int : simpl never.
Arguments incr : simpl never.
Arguments has_flag : simpl never.
Arguments popcount : simpl never.
Arguments builtin_ctz : simpl never.
Arguments clear_bit : simpl never.

Ltac unfold_m :=
  cbv [bind ret get gets modify when emit fatal out_of_fuel
       ALOG_ASSERT LOG_FATAL delete_mixer delete_mixBuffer
       set_generation set_fastTrackName getTrackName].

Ltac msimpl := repeat (unfold_m; cbn).

Lemma bind_Ok {A B} (c : M A) (k : A -> M B) m a m' :
  c m = Ok (a, m') -> bind c k m = k a m'.
Proof. intros H. unfold bind. now rewrite H. Qed.

Lemma bind_inv {A B} (c : M A) (k : A -> M B) m b m'' :
  bind c k m = Ok (b, m'') ->
  exists a m', c m = Ok (a, m') /\ k a m' = Ok (b, m'').
Proof.
  unfold bind. destruct (c m) as [[a m']| |]; try discriminate.
  intros H. now exists a, m'.
Qed.

(** Running a computation one step at a time. *)
Lemma run_modify {B} f (k : unit -> M B) m : bind (modify f) k m = k tt (f m).
Proof. reflexivity. Qed.

Lemma run_get {B} (k : Machine -> M B) m : bind get k m = k m m.
Proof. reflexivity. Qed.

Lemma run_gets {A B} (f : Machine -> A) (k : A -> M B) m :
  bind (gets f) k m = k (f m) m.
Proof. reflexivity. Qed.

Lemma run_ret {A B} (a : A) (k : A -> M B) m : bind (ret a) k m = k a m.
Proof. reflexivity. Qed.

Lemma run_emit {B} e (k : unit -> M B) m :
  bind (emit e) k m = k tt (set_trace (trace m ++ [e]) m).
Proof. reflexivity. Qed.

Lemma run_fatal {A B} (k : A -> M B) m : bind fatal k m = Fatal.
Proof. reflexivity. Qed.

Lemma run_assoc {A B C} (c : M A) (k1 : A -> M B) (k2 : B -> M C) m :
  bind (bind c k1) k2 m = bind c (fun a => bind (k1 a) k2) m.
Proof. unfold bind. destruct (c m) as [[a m']| |]; reflexivity. Qed.

Ltac mrun :=
  repeat (first [ rewrite run_assoc | rewrite run_modify | rewrite run_get
                | rewrite run_gets | rewrite run_ret | rewrite run_emit
                | rewrite run_fatal ];
          cbv beta).

Ltac mrun_in H :=
  repeat (first [ rewrite run_assoc in H | rewrite run_modify in H
                | rewrite run_get in H | rewrite run_gets in H
                | rewrite run_ret in H | rewrite run_emit in H
                | rewrite run_fatal in H ];
          cbv beta in H).

(** ** Timing constants (lines 181-200) *)

Lemma wrap_s32_small z : - 2 ^ 31 <= z < 2 ^ 31 -> wrap_s32 z = z.
Proof.
  intros H. unfold wrap_s32. rewrite Z.mod_small; lia.
Qed.

Lemma reallocate_valid ndebug (m : Machine) cur prev previousFormat :
  negb (Format_eqb (format m) previousFormat)
    || negb (mFrameCount cur =? mFrameCount prev) = true ->
  0 < mFrameCount cur -> 0 < sampleRate m ->
  exists m',
    reallocate ndebug cur prev previousFormat m = Ok (0, m') /\
    mixer m' = true /\ mixBuffer m' = Some Uninitialised /\
    periodNs m' = to_long (Z.quot (mFrameCount cur * 1000000000) (sampleRate m)) /\
    underrunNs m' = to_long (Z.quot (mFrameCount cur * 1750000000) (sampleRate m)) /\
    overrunNs m' = to_long (Z.quot (mFrameCount cur * 250000000) (sampleRate m)).
Proof.
  intros Hchg Hfc Hsr.
  apply Z.ltb_lt in Hfc, Hsr.
  destruct m; cbn in *. unfold reallocate. msimpl. rewrite Hchg.
  destruct mixer0, mixBuffer0, ndebug; msimpl;
    rewrite ?Hfc, ?Hsr; msimpl; eexists; repeat split; reflexivity.
Qed.

(** Concrete inputs shared by the examples below. *)
Definition no_dump_areas : nat -> FastMixerDumpState :=
  fun _ => new_FastMixerDumpState.

Definition machine0 : Machine := init_machine no_dump_areas.

(** A snapshot with no tracks: command, frame count, sink and its generation. *)
Definition snapshot (command frameCount : Z) (sink : option nat) (sinkGen : Z)
  : FastMixerState :=
  mkFastMixerState (replicate kMaxFastTracks default_FastTrack)
                   0 0 sink sinkGen frameCount command None 0 None.

(** Answers of a cycle: poll result, sample rate of every sink, write result
    and clock reading. *)
Definition answers (p : option nat) (rate : Z) (written : Z)
  (ts : option (Z * Z)) : Env :=
  mkEnv p 0 (fun _ => Format_PCM rate 2) [] (fun _ => 0) written ts.

(** C5, as stated, fails: with 256 frames at 44100 Hz the first working cycle
    leaves periodNs = 5804988 and underrunNs = 10158730, which is not 1.75
    times periodNs (neither exactly nor rounded down). *)
Lemma timing_constants_not_multiples_of_period :
  exists m',
    cycle true (fun _ => snapshot MIX_WRITE 256 (Some 0%nat) 1)
          (answers (Some 0%nat) 44100 256 (Some (1, 0))) machine0
      = Ok (true, m') /\
    periodNs m' = 5804988 /\ underrunNs m' = 10158730 /\
    4 * underrunNs m' <> 7 * periodNs m' /\
    underrunNs m' <> 7 * periodNs m' / 4.
Proof.
  eexists. split; [vm_compute; reflexivity|].
  repeat split; vm_compute; congruence.
Qed.

(** C5 (amended): when the format or the frame count changed and both
    [frameCount] and [sampleRate] are positive, each timing constant is
    computed from the frame count on its own, rounded down:
    periodNs = frameCount * 1e9 / sampleRate,
    underrunNs = frameCount * 1.75e9 / sampleRate and
    overrunNs = frameCount * 0.25e9 / sampleRate (integer divisions), as long
    as they fit a [long]; for 192 frames at 48000 Hz these are 4000000,
    7000000 and 1000000. *)
Theorem timing_constants_recomputed ndebug (m : Machine) cur prev previousFormat :
  negb (Format_eqb (format m) previousFormat)
    || negb (mFrameCount cur =? mFrameCount prev) = true ->
  0 < mFrameCount cur -> 0 < sampleRate m ->
  mFrameCount cur * 1750000000 / sampleRate m < 2 ^ 31 ->
  exists m',
    reallocate ndebug cur prev previousFormat m = Ok (0, m') /\
    periodNs m' = mFrameCount cur * 1000000000 / sampleRate m /\
    underrunNs m' = mFrameCount cur * 1750000000 / sampleRate m /\
    overrunNs m' = mFrameCount cur * 250000000 / sampleRate m.
Proof.
  intros Hchg Hfc Hsr Hfit.
  destruct (reallocate_valid ndebug m cur prev previousFormat Hchg Hfc Hsr)
    as (m' & Hrun & _ & _ & Hp & Hu & Ho).
  exists m'. split; [exact Hrun|].
  rewrite Hp, Hu, Ho. unfold to_long.
  rewrite !Z.quot_div_nonneg by lia.
  assert (Hle1 : mFrameCount cur * 1000000000 / sampleRate m
                 <= mFrameCount cur * 1750000000 / sampleRate m)
    by (apply Z.div_le_mono; lia).
  assert (Hle2 : mFrameCount cur * 250000000 / sampleRate m
                 <= mFrameCount cur * 1750000000 / sampleRate m)
    by (apply Z.div_le_mono; lia).
  assert (H0 : 0 <= mFrameCount cur * 250000000 / sampleRate m)
    by (apply Z.div_pos; lia).
  assert (H1 : 0 <= mFrameCount cur * 1000000000 / sampleRate m)
    by (apply Z.div_pos; lia).
  rewrite !wrap_s32_small by lia. auto.
Qed.

Lemma timing_constants_192_at_48000 :
  exists m',
    reallocate true (snapshot MIX_WRITE 192 (Some 0%nat) 1) initial Format_Invalid
      (set_sampleRate 48000 (set_format (Format_PCM 48000 2) machine0))
      = Ok (0, m') /\
    periodNs m' = 4000000 /\ underrunNs m' = 7000000 /\
    overrunNs m' = 1000000.
Proof.
  apply (timing_constants_recomputed true
           (set_sampleRate 48000 (set_format (Format_PCM 48000 2) machine0))
           (snapshot MIX_WRITE 192 (Some 0%nat) 1) initial Format_Invalid);
    vm_compute; reflexivity.
Defined.

(** ** The dump area in use *)

Lemma dump_of_update_dump f m : dump_of (update_dump f m) = f (dump_of m).
Proof.
  destruct m. unfold dump_of, update_dump. cbn.
  destruct dumpState0; cbn; [reflexivity|].
  now rewrite Nat.eqb_refl.
Qed.

(** ** Classification of the cycle interval (lines 341-394) *)

(** The interval between two clock readings, in nanoseconds. *)
Definition delta_ns (newTs oldTs' : Z * Z) : Z :=
  (fst newTs - fst oldTs') * 1000000000 + (snd newTs - snd oldTs').

(** C3, as stated, fails for long periods: with 38400 frames at 48000 Hz
    (underrunNs = 1.4 s, overrunNs = 0.2 s) a cycle measured 1.2 s after the
    previous one lies between the two thresholds, yet it is counted as an
    underrun because a whole second has elapsed. *)
Lemma long_period_interval_counted_as_underrun :
  exists m1 m2,
    cycle true (fun _ => snapshot MIX_WRITE 38400 (Some 0%nat) 1)
          (answers (Some 0%nat) 48000 38400 (Some (10, 0))) machine0
      = Ok (true, m1) /\
    cycle true (fun _ => snapshot MIX_WRITE 38400 (Some 0%nat) 1)
          (answers (Some 0%nat) 48000 38400 (Some (11, 200000000))) m1
      = Ok (true, m2) /\
    oldTsValid m1 = true /\
    underrunNs m1 = 1400000000 /\ overrunNs m1 = 200000000 /\
    delta_ns (11, 200000000) (oldTs m1) = 1200000000 /\
    mUnderruns (dump_of m1) = 0 /\ mUnderruns (dump_of m2) = 1 /\
    ignoreNextOverrun m2 = true.
Proof.
  do 2 eexists. split; [vm_compute; reflexivity|].
  split; [vm_compute; reflexivity|].
  repeat split; vm_compute; reflexivity.
Qed.

(** C3 (amended): the underrun test is "a whole second has elapsed or the
    nanosecond part exceeds underrunNs", which is the test on the interval
    when underrunNs is below one second.  Under that condition, at the end of
    a working cycle with a valid previous timestamp and a successful clock
    reading, the interval DELTA is classified as specified: above
    underrunNs, the underrun counter is incremented, the next sleep is -1 and
    ignoreNextOverrun is set; below overrunNs, the overrun counter is
    incremented unless ignoreNextOverrun was set (which is then cleared
    instead) and the next sleep is periodNs - overrunNs; otherwise the next
    sleep is -1. *)
Theorem interval_classified (env : Env) (m : Machine) newTs :
  oldTsValid m = true ->
  clock env = Some newTs ->
  0 <= snd newTs < 1000000000 -> 0 <= snd (oldTs m) < 1000000000 ->
  0 <= delta_ns newTs (oldTs m) ->
  underrunNs m < 1000000000 ->
  exists m',
    timing env m = Ok (tt, m') /\
    oldTs m' = newTs /\ oldTsValid m' = true /\
    let delta := delta_ns newTs (oldTs m) in
    if underrunNs m <? delta then
      dump_of m' = set_mUnderruns (incr (mUnderruns (dump_of m))) (dump_of m) /\
      sleepNs m' = -1 /\ ignoreNextOverrun m' = true
    else if delta <? overrunNs m then
      dump_of m' = (if ignoreNextOverrun m then dump_of m
                    else set_mOverruns (incr (mOverruns (dump_of m))) (dump_of m)) /\
      sleepNs m' = to_long (periodNs m - overrunNs m) /\
      ignoreNextOverrun m' = false
    else
      dump_of m' = dump_of m /\ sleepNs m' = -1.
Proof.
  intros Hvalid Hclock Hnew Hold Hmono Hunder.
  destruct m; cbn in *. subst oldTsValid0.
  destruct newTs as [ns nn]. destruct oldTs0 as [os on].
  unfold timing, classify, interval, delta_ns in *. msimpl.
  rewrite Hclock. cbn in *.
  destruct (Z.ltb_spec (nn - on) 0); msimpl;
    repeat (match goal with
            | |- context [Z.ltb ?a ?b] =>
                destruct (Z.ltb_spec a b); cbn [orb andb]
            end); try lia;
    destruct ignoreNextOverrun0; msimpl;
    (eexists; split; [reflexivity|]); cbn;
    unfold dump_of; cbn; destruct dumpState0; cbn;
    rewrite ?Nat.eqb_refl; auto.
Qed.

(** A machine as the first working cycle at 192 frames and 48000 Hz leaves
    it, with the clock then at 1 s. *)
Definition machine_192 : Machine :=
  set_oldTsValid true
    (set_oldTs (1, 0)
       (set_ignoreNextOverrun false
          (set_periodNs 4000000
             (set_underrunNs 7000000 (set_overrunNs 1000000 machine0))))).

Lemma interval_of_8ms_is_underrun :
  exists m',
    timing (answers None 48000 0 (Some (1, 8000000))) machine_192
      = Ok (tt, m') /\
    oldTs m' = (1, 8000000) /\ oldTsValid m' = true /\
    dump_of m' = set_mUnderruns 1 new_FastMixerDumpState /\
    sleepNs m' = -1 /\ ignoreNextOverrun m' = true.
Proof.
  apply (interval_classified (answers None 48000 0 (Some (1, 8000000)))
           machine_192 (1, 8000000));
    vm_compute; try reflexivity; try (split; congruence); congruence.
Defined.

(** ** Pinning of [previous] on a state change (lines 95-119) *)

Lemma StateRef_eqb_eq a b : StateRef_eqb a b = true <-> a = b.
Proof.
  destruct a, b; cbn; try (split; congruence).
  rewrite Nat.eqb_eq. split; congruence.
Qed.

Lemma StateRef_eqb_neq a b : a <> b -> StateRef_eqb a b = false.
Proof.
  intros H. destruct (StateRef_eqb a b) eqn:E; [|reflexivity].
  apply StateRef_eqb_eq in E. contradiction.
Qed.

(** The adoption of a new state by [poll_state], case by case on the old
    and the new command. *)
Lemma poll_state_adopts ndebug sq (env : Env) (m : Machine) k :
  sq_poll env = Some k ->
  current m <> RefQueue k ->
  exists m',
    poll_state ndebug sq env m = Ok (mCommand (sq k), m') /\
    current m' = RefQueue k /\
    let old := deref sq m (current m) in
    if has_flag (mCommand old) IDLE then
      previous m' = previous m /\ preIdle m' = preIdle m /\
      oldTsValid m' = oldTsValid m /\
      ignoreNextOverrun m' = ignoreNextOverrun m
    else if has_flag (mCommand (sq k)) IDLE then
      preIdle m' = old /\ previous m' = RefPreIdle /\
      deref sq m' (previous m') = old /\
      oldTsValid m' = false /\ ignoreNextOverrun m' = true
    else
      previous m' = current m /\ preIdle m' = preIdle m /\
      oldTsValid m' = oldTsValid m /\
      ignoreNextOverrun m' = ignoreNextOverrun m.
Proof.
  intros Hpoll Hnew.
  assert (Hne : StateRef_eqb (RefQueue k) (current m) = false)
    by (apply StateRef_eqb_neq; congruence).
  destruct m; cbn in *.
  unfold poll_state. msimpl. rewrite Hpoll. msimpl. rewrite Hne. msimpl.
  destruct current0 as [| |j]; cbn [deref];
    match goal with
    | |- context [has_flag (mCommand ?s) IDLE] =>
        destruct (has_flag (mCommand s) IDLE) eqn:Eold
    end; msimpl;
    try (destruct (has_flag (mCommand (sq k)) IDLE) eqn:Enew; msimpl);
    (eexists; split; [reflexivity|]); cbn;
    destruct (mDumpState (sq k)); cbn; rewrite ?Eold, ?Enew; auto 10.
Qed.

(** C4: when [poll] hands over a state other than [current], the new state
    becomes [current] and [previous] follows the kind of transition.  From
    idle (to idle or not), [previous] and [preIdle] stay.  From non-idle to
    idle, the old current state is copied into [preIdle], [previous] points
    at that copy, [oldTsValid] is cleared and [ignoreNextOverrun] is set.
    From non-idle to non-idle, [previous] is the old [current]. *)
Theorem previous_pinned ndebug sq (env : Env) (m : Machine) k :
  sq_poll env = Some k ->
  current m <> RefQueue k ->
  exists m',
    poll_state ndebug sq env m = Ok (mCommand (sq k), m') /\
    current m' = RefQueue k /\
    let old := deref sq m (current m) in
    if has_flag (mCommand old) IDLE then
      previous m' = previous m /\ preIdle m' = preIdle m /\
      oldTsValid m' = oldTsValid m /\
      ignoreNextOverrun m' = ignoreNextOverrun m
    else if has_flag (mCommand (sq k)) IDLE then
      preIdle m' = old /\ previous m' = RefPreIdle /\
      deref sq m' (previous m') = old /\
      oldTsValid m' = false /\ ignoreNextOverrun m' = true
    else
      previous m' = current m /\ preIdle m' = preIdle m /\
      oldTsValid m' = oldTsValid m /\
      ignoreNextOverrun m' = ignoreNextOverrun m.
Proof.
  intros Hpoll Hnew. exact (poll_state_adopts ndebug sq env m k Hpoll Hnew).
Qed.

(** A worker that has been mixing snapshot 0 is handed the idle snapshot 1. *)
Definition mix_then_idle (k : nat) : FastMixerState :=
  match k with
  | O => snapshot MIX_WRITE 192 (Some 0%nat) 1
  | _ => snapshot HOT_IDLE 192 (Some 0%nat) 1
  end.

Lemma previous_pinned_on_idle_entry :
  exists m',
    poll_state true mix_then_idle (answers (Some 1%nat) 48000 192 None)
               (set_current (RefQueue 0) (set_previous (RefQueue 0) machine_192))
      = Ok (HOT_IDLE, m') /\
    current m' = RefQueue 1 /\
    preIdle m' = snapshot MIX_WRITE 192 (Some 0%nat) 1 /\
    previous m' = RefPreIdle /\
    deref mix_then_idle m' (previous m') = snapshot MIX_WRITE 192 (Some 0%nat) 1 /\
    oldTsValid m' = false /\ ignoreNextOverrun m' = true.
Proof.
  apply (previous_pinned true mix_then_idle
           (answers (Some 1%nat) 48000 192 None)
           (set_current (RefQueue 0) (set_previous (RefQueue 0) machine_192))
           1%nat).
  - reflexivity.
  - vm_compute. congruence.
Defined.

(** ** Relating the machine before and after a computation *)

Section Steps.

Context (R : Machine -> Machine -> Prop) `{!PreOrder R}.

(** Whenever [c] returns, the machines before and after are related by [R]. *)
Definition steps {A} (c : M A) : Prop :=
  forall m a m', c m = Ok (a, m') -> R m m'.

Lemma steps_ret {A} (a : A) : steps (ret a).
Proof. intros m a' m' H. injection H as _ <-. reflexivity. Qed.

Lemma steps_get : steps get.
Proof. intros m a' m' H. injection H as _ <-. reflexivity. Qed.

Lemma steps_gets {A} (f : Machine -> A) : steps (gets f).
Proof. intros m a' m' H. injection H as _ <-. reflexivity. Qed.

Lemma steps_fatal {A} : steps (@fatal A).
Proof. intros m a m' H. discriminate. Qed.

Lemma steps_out_of_fuel {A} : steps (@out_of_fuel A).
Proof. intros m a m' H. discriminate. Qed.

Lemma steps_modify f : (forall m, R m (f m)) -> steps (modify f).
Proof. intros Hf m a m' H. injection H as _ <-. apply Hf. Qed.

Lemma steps_bind {A B} (c : M A) (k : A -> M B) :
  steps c -> (forall a, steps (k a)) -> steps (bind c k).
Proof.
  intros Hc Hk m b m'' H.
  apply bind_inv in H as (a & m' & H1 & H2).
  transitivity m'; [eapply Hc|eapply Hk]; eassumption.
Qed.

Lemma steps_when b c : steps c -> steps (when b c).
Proof. intros Hc. destruct b; [exact Hc|apply steps_ret]. Qed.

Lemma steps_ALOG_ASSERT ndebug c : steps (ALOG_ASSERT ndebug c).
Proof.
  unfold ALOG_ASSERT.
  destruct ndebug; [apply steps_ret|].
  destruct c; [apply steps_ret|apply steps_fatal].
Qed.

Lemma steps_LOG_FATAL ndebug : steps (LOG_FATAL ndebug).
Proof.
  unfold LOG_FATAL. destruct ndebug; [apply steps_ret|apply steps_fatal].
Qed.

Lemma steps_bit_loop fuel mask body :
  (forall i, steps (body i)) -> steps (bit_loop fuel mask body).
Proof.
  intros Hbody. revert mask.
  induction fuel as [|fuel IH]; intros mask; cbn [bit_loop];
    destruct (mask =? 0); try apply steps_ret; try apply steps_out_of_fuel.
  apply steps_bind; [apply Hbody|intros _; apply IH].
Qed.

End Steps.

(** Break a computation down to its assignments, which are left to show. *)
Ltac steps_auto :=
  repeat first
    [ match goal with
      | |- PreOrder _ => apply _
      | |- forall x, steps _ (@?c x) => intros ?
      | |- steps _ (if ?b then _ else _) => destruct b
      | |- steps _ (match ?o with _ => _ end) => destruct o
      end
    | apply steps_ret | apply steps_get | apply steps_gets
    | apply steps_fatal | apply steps_out_of_fuel
    | apply steps_ALOG_ASSERT | apply steps_LOG_FATAL
    | apply steps_bind
    | apply steps_when
    | apply steps_bit_loop
    | apply steps_modify ].

Ltac unfold_phases :=
  cbv beta zeta delta
    [cycle work do_sleep poll_state dispatch cold_idle state_change
     check_sink reallocate track_diff removed_tracks added_tracks
     modified_tracks removed_track added_track modified_track
     mix_step update_volume write_step timing classify
     emit delete_mixer delete_mixBuffer set_generation set_fastTrackName
     getTrackName].

(** The calls made: the trace grows by events that all satisfy [P]. *)
Definition emits_only (P : Event -> Prop) (m m' : Machine) : Prop :=
  exists evs, trace m' = trace m ++ evs /\ Forall P evs.

#[local] Instance emits_only_preorder P : PreOrder (emits_only P).
Proof.
  split.
  - intros m. exists []. split; [now rewrite app_nil_r|constructor].
  - intros a b c (e1 & H1 & F1) (e2 & H2 & F2).
    exists (e1 ++ e2). split.
    + now rewrite H2, H1, app_assoc.
    + now apply Forall_app.
Qed.

Lemma emits_only_same_trace P f :
  (forall m, trace (f m) = trace m) -> forall m, emits_only P m (f m).
Proof.
  intros H m. exists []. split; [now rewrite H, app_nil_r|constructor].
Qed.

Lemma emits_only_event (P : Event -> Prop) e :
  P e -> forall m, emits_only P m (set_trace (trace m ++ [e]) m).
Proof.
  intros H m. exists [e]. split; [now destruct m|].
  constructor; [exact H|constructor].
Qed.

Lemma trace_update_dump f m : trace (update_dump f m) = trace m.
Proof. destruct m. unfold update_dump. cbn. now destruct dumpState0. Qed.

(** Each assignment either leaves the trace or appends one event. *)
Ltac emits_side :=
  first
    [ apply emits_only_event;
      try (hnf; cbn; first [reflexivity | tauto | congruence])
    | apply emits_only_same_trace; intros m_;
      first [ apply trace_update_dump | now destruct m_ ] ].

Definition is_sink_write (e : Event) : bool :=
  match e with EvSinkWrite _ _ _ _ => true | _ => false end.


(** The content of a dump area, whichever one is in use. *)
Definition dump_at (m : Machine) (r : DumpRef) : FastMixerDumpState :=
  match r with
  | RefDummy => dummyDumpState m
  | RefDump k => dumpArea m k
  end.

Lemma dump_of_dump_at m : dump_of m = dump_at m (dumpState m).
Proof. reflexivity. Qed.

(** No dump area changes in what [g] reads of it. *)
Definition keeps {X} (g : FastMixerDumpState -> X) (m m' : Machine) : Prop :=
  forall r, g (dump_at m' r) = g (dump_at m r).

#[local] Instance keeps_preorder {X} (g : FastMixerDumpState -> X) :
  PreOrder (keeps g).
Proof.
  split.
  - intros m r. reflexivity.
  - intros a b c H1 H2 r. now rewrite H2, H1.
Qed.

Lemma keeps_update_dump {X} (g : FastMixerDumpState -> X) f :
  (forall d, g (f d) = g d) -> forall m, keeps g m (update_dump f m).
Proof.
  intros Hf m r. destruct m. unfold update_dump, dump_at. cbn.
  destruct dumpState0, r; cbn; auto.
  destruct (Nat.eqb_spec k0 k); [subst; apply Hf|reflexivity].
Qed.

Lemma keeps_same_dumps {X} (g : FastMixerDumpState -> X) f :
  (forall m, dummyDumpState (f m) = dummyDumpState m) ->
  (forall m, dumpArea (f m) = dumpArea m) ->
  forall m, keeps g m (f m).
Proof.
  intros H1 H2 m r. unfold dump_at. destruct r; [now rewrite H1|now rewrite H2].
Qed.

(** The dump area in use stays the same one. *)
Definition same_binding (m m' : Machine) : Prop := dumpState m' = dumpState m.

#[local] Instance same_binding_preorder : PreOrder same_binding.
Proof.
  split; [intros m; reflexivity|].
  intros a b c H1 H2. unfold same_binding in *. congruence.
Qed.

Lemma dumpState_update_dump f m : dumpState (update_dump f m) = dumpState m.
Proof. destruct m. unfold update_dump. cbn. now destruct dumpState0. Qed.

Definition rel_and (R S : Machine -> Machine -> Prop) (m m' : Machine) : Prop :=
  R m m' /\ S m m'.

#[local] Instance rel_and_preorder R S `{!PreOrder R} `{!PreOrder S} :
  PreOrder (rel_and R S).
Proof.
  split.
  - intros m. split; reflexivity.
  - intros a b c [H1 H2] [H3 H4]. split; etransitivity; eassumption.
Qed.

Ltac keeps_side :=
  first
    [ apply keeps_update_dump; intros d_; now destruct d_
    | apply keeps_same_dumps; intros m_; now destruct m_ ].

Ltac binding_side :=
  intros m_; unfold same_binding;
  first [ apply dumpState_update_dump | now destruct m_ ].

(** The counters of the sink write. *)
Definition write_counters (d : FastMixerDumpState) : Z * Z * Z :=
  (mWriteSequence d, mFramesWritten d, mWriteErrors d).

Definition not_sink_write (e : Event) : Prop := is_sink_write e = false.

(** No write call, and no change of a write counter. *)
Definition no_write : Machine -> Machine -> Prop :=
  rel_and (emits_only not_sink_write) (keeps write_counters).

Ltac no_write_side :=
  intros m_; split; [revert m_; emits_side|revert m_; keeps_side].

Lemma before_write_no_write ndebug sq env :
  steps no_write
    (modify (set_nameSupply (track_names env)) ;;;
     do_sleep ndebug ;;;
     command <- poll_state ndebug sq env ;;
     dispatch ndebug sq env command).
Proof. unfold_phases. steps_auto; no_write_side. Qed.

Lemma state_change_no_write ndebug sq env :
  steps (rel_and no_write same_binding) (state_change ndebug sq env).
Proof.
  unfold_phases. steps_auto;
    (intros m_; split; [revert m_; no_write_side|revert m_; binding_side]).
Qed.

Lemma mix_step_no_write ndebug env command cur :
  steps (rel_and no_write same_binding) (mix_step ndebug env command cur).
Proof.
  unfold_phases. steps_auto;
    (intros m_; split; [revert m_; no_write_side|revert m_; binding_side]).
Qed.

Lemma timing_no_write env :
  steps (rel_and no_write same_binding) (timing env).
Proof.
  unfold_phases. steps_auto;
    (intros m_; split; [revert m_; no_write_side|revert m_; binding_side]).
Qed.

(** ** Properties of every machine the loop can reach *)

Lemma run_cons ndebug sq env envs m :
  run ndebug sq (env :: envs) m
  = match cycle ndebug sq env m with
    | Ok (true, m') => run ndebug sq envs m'
    | Ok (false, _) => Ok None
    | Fatal => Fatal
    | OutOfFuel => OutOfFuel
    end.
Proof. reflexivity. Qed.

Lemma run_invariant ndebug sq (P : Machine -> Prop) :
  (forall env m m', P m -> cycle ndebug sq env m = Ok (true, m') -> P m') ->
  forall envs m m', P m -> run ndebug sq envs m = Ok (Some m') -> P m'.
Proof.
  intros Hstep envs. induction envs as [|env envs IH]; intros m m' Hm H.
  - cbn in H. now injection H as <-.
  - rewrite run_cons in H.
    destruct (cycle ndebug sq env m) as [[[] m1]| |] eqn:E;
      try discriminate.
    apply (IH m1); [|exact H]. eapply Hstep; eassumption.
Qed.

(** ** The write to the sink (lines 320-336) *)

Lemma write_step_skipped env command cur m :
  has_flag command WRITE = false \/ outputSink m = None \/ mixBuffer m = None ->
  write_step env command cur m = Ok (tt, m).
Proof.
  intros H. unfold write_step. msimpl.
  destruct (outputSink m), (mixBuffer m); try reflexivity.
  destruct H as [H|[H|H]]; try discriminate. now rewrite H.
Qed.

Lemma write_step_attempt env command cur m sink b :
  has_flag command WRITE = true ->
  outputSink m = Some sink -> mixBuffer m = Some b ->
  let undefined := MixBufferState_eqb (mixBufferState m) UNDEFINED in
  let d := dump_of m in
  exists m',
    write_step env command cur m = Ok (tt, m') /\
    dumpState m' = dumpState m /\
    trace m' = trace m
               ++ (if undefined
                   then [EvMemset (wrap_u32 (mFrameCount cur * 2 * 2))]
                   else [])
               ++ [EvSinkWrite sink
                     (if undefined
                      then Cleared (wrap_u32 (mFrameCount cur * 2 * 2)) b
                      else b)
                     (mFrameCount cur) (incr (mWriteSequence d))] /\
    mixBufferState m' = (if undefined then ZEROED else mixBufferState m) /\
    mixBuffer m' = Some (if undefined
                         then Cleared (wrap_u32 (mFrameCount cur * 2 * 2)) b
                         else b) /\
    mWriteSequence (dump_of m') = incr (incr (mWriteSequence d)) /\
    (if 0 <=? sink_write env then
       mFramesWritten (dump_of m')
         = wrap_u32 (mFramesWritten d + sink_write env) /\
       mWriteErrors (dump_of m') = mWriteErrors d
     else
       mWriteErrors (dump_of m') = incr (mWriteErrors d) /\
       mFramesWritten (dump_of m') = mFramesWritten d).
Proof.
  intros Hflag Hsink Hbuf. destruct m; cbn in *. subst.
  unfold write_step. mrun. cbn [outputSink mixBuffer mixBufferState].
  rewrite Hflag. cbn [when].
  destruct mixBufferState0; cbn [MixBufferState_eqb when]; mrun;
    destruct (0 <=? sink_write env); unfold modify;
    (eexists; split; [reflexivity|]);
    destruct dumpState0; cbn; rewrite ?Nat.eqb_refl; cbn;
    (split; [reflexivity|]);
    (split; [first [exact (eq_sym (app_assoc _ [_] [_])) | reflexivity]|]);
    repeat split.
Qed.

(** The dump areas not in use are left alone, and the one in use stays. *)
Definition others_kept (m m' : Machine) : Prop :=
  dumpState m' = dumpState m /\
  forall r, r <> dumpState m -> dump_at m' r = dump_at m r.

#[local] Instance others_kept_preorder : PreOrder others_kept.
Proof.
  split.
  - intros m. split; reflexivity.
  - intros a b c [H1 H2] [H3 H4]. split; [congruence|].
    intros r Hr. rewrite H4, H2; congruence.
Qed.

Lemma others_kept_update_dump f m : others_kept m (update_dump f m).
Proof.
  split; [apply dumpState_update_dump|].
  destruct m. unfold update_dump, dump_at. cbn.
  destruct dumpState0; intros [|j] Hr; cbn; try congruence.
  destruct (Nat.eqb_spec j k); congruence.
Qed.

Lemma others_kept_same f :
  (forall m, dumpState (f m) = dumpState m) ->
  (forall m, dummyDumpState (f m) = dummyDumpState m) ->
  (forall m, dumpArea (f m) = dumpArea m) ->
  forall m, others_kept m (f m).
Proof.
  intros H0 H1 H2 m. split; [apply H0|].
  intros r _. unfold dump_at. destruct r; [now rewrite H1|now rewrite H2].
Qed.

Ltac others_side :=
  first
    [ apply others_kept_update_dump
    | apply others_kept_same; intros m_; now destruct m_ ].

Lemma write_step_others env command cur :
  steps others_kept (write_step env command cur).
Proof. unfold_phases. steps_auto; others_side. Qed.

Lemma incr_incr x : incr (incr x) = wrap_u32 (x + 2).
Proof.
  unfold incr, wrap_u32.
  rewrite Zplus_mod_idemp_l. f_equal. lia.
Qed.

Lemma even_wrap_u32 x : Z.even (wrap_u32 x) = Z.even x.
Proof.
  unfold wrap_u32.
  rewrite (Z.div_mod x (2 ^ 32)) at 2 by lia.
  rewrite Z.even_add, Z.even_mul.
  change (Z.even (2 ^ 32)) with true. cbn [orb].
  now destruct (Z.even (x mod 2 ^ 32)).
Qed.

Lemma even_incr x : Z.even (incr x) = negb (Z.even x).
Proof.
  unfold incr. rewrite even_wrap_u32.
  replace (x + 1) with (Z.succ x) by lia.
  now rewrite Z.even_succ, Z.negb_even.
Qed.

Lemma filter_none (evs : list Event) :
  Forall not_sink_write evs -> List.filter is_sink_write evs = [].
Proof.
  induction 1 as [|e evs He _ IH]; [reflexivity|].
  cbn. unfold not_sink_write in He. now rewrite He.
Qed.

Lemma sleep_poll_dispatch_no_write ndebug sq env m flow m' :
  (modify (set_nameSupply (track_names env)) ;;;
   do_sleep ndebug ;;;
   command <- poll_state ndebug sq env ;;
   dispatch ndebug sq env command) m = Ok (flow, m') ->
  no_write m m'.
Proof. apply before_write_no_write. Qed.

Lemma work_write_accounting ndebug sq env command m m' :
  work ndebug sq env command m = Ok (tt, m') ->
  dumpState m' = dumpState m /\
  exists evs, trace m' = trace m ++ evs /\
    let d := dump_of m in
    let d' := dump_of m' in
    (List.filter is_sink_write evs = [] /\
     write_counters d' = write_counters d) \/
    (exists sink content fc,
        List.filter is_sink_write evs
          = [EvSinkWrite sink content fc (incr (mWriteSequence d))] /\
        mWriteSequence d' = incr (incr (mWriteSequence d)) /\
        (if 0 <=? sink_write env then
           mFramesWritten d' = wrap_u32 (mFramesWritten d + sink_write env) /\
           mWriteErrors d' = mWriteErrors d
         else
           mWriteErrors d' = incr (mWriteErrors d) /\
           mFramesWritten d' = mFramesWritten d)).
Proof.
  unfold work. intros H.
  apply bind_inv in H as ([] & m1 & H1 & H).
  apply bind_inv in H as (mm & m1' & Hget & H).
  injection Hget as <- <-.
  apply bind_inv in H as ([] & m2 & H2 & H).
  apply bind_inv in H as ([] & m3 & H3 & H4).
  apply state_change_no_write in H1 as [[(e1 & T1 & F1) K1] B1].
  apply mix_step_no_write in H2 as [[(e2 & T2 & F2) K2] B2].
  apply timing_no_write in H4 as [[(e4 & T4 & F4) K4] B4].
  unfold same_binding in *.
  assert (Hpre : write_counters (dump_of m2) = write_counters (dump_of m)).
  { rewrite !dump_of_dump_at, B2, B1, K2, K1. reflexivity. }
  assert (Hpost : write_counters (dump_of m')
                  = write_counters (dump_at m3 (dumpState m'))).
  { rewrite dump_of_dump_at. apply K4. }
  destruct (has_flag command WRITE) eqn:Hflag;
    [destruct (outputSink m2) as [sink|] eqn:Hsink;
       [destruct (mixBuffer m2) as [b|] eqn:Hbuf|]|].
  - destruct (write_step_attempt env command (deref sq m1 (current m1))
                m2 sink b Hflag Hsink Hbuf)
      as (m3' & Hrun & B3 & T3 & _ & _ & Hws & Hres).
    rewrite Hrun in H3. injection H3 as <-.
    split; [congruence|].
    assert (Hseq : mWriteSequence (dump_of m2) = mWriteSequence (dump_of m))
      by (unfold write_counters in Hpre; congruence).
    rewrite Hseq in T3.
    eexists. split.
    { rewrite T4, T3, T2, T1. rewrite <- !app_assoc. reflexivity. }
    right.
    destruct (MixBufferState_eqb (mixBufferState m2) UNDEFINED);
      do 3 eexists; (split;
      [ rewrite !List.filter_app;
        rewrite (filter_none e1), (filter_none e2), (filter_none e4)
          by assumption;
        cbn; reflexivity |]);
      rewrite B4 in Hpost; rewrite <- dump_of_dump_at in Hpost;
      unfold write_counters in *;
      injection Hpost as E1 E2 E3; injection Hpre as P1 P2 P3;
      cbv zeta; rewrite E1, E2, E3, <- P1, <- P2, <- P3;
      (split; [exact Hws|exact Hres]).
  - rewrite write_step_skipped in H3 by auto. injection H3 as <-.
    split; [congruence|].
    eexists. split.
    { rewrite T4, T2, T1. rewrite <- !app_assoc. reflexivity. }
    left. split.
    { rewrite !List.filter_app.
      now rewrite (filter_none e1), (filter_none e2), (filter_none e4). }
    rewrite B4 in Hpost. rewrite <- dump_of_dump_at in Hpost. congruence.
  - rewrite write_step_skipped in H3 by auto. injection H3 as <-.
    split; [congruence|].
    eexists. split.
    { rewrite T4, T2, T1. rewrite <- !app_assoc. reflexivity. }
    left. split.
    { rewrite !List.filter_app.
      now rewrite (filter_none e1), (filter_none e2), (filter_none e4). }
    rewrite B4 in Hpost. rewrite <- dump_of_dump_at in Hpost. congruence.
  - rewrite write_step_skipped in H3 by auto. injection H3 as <-.
    split; [congruence|].
    eexists. split.
    { rewrite T4, T2, T1. rewrite <- !app_assoc. reflexivity. }
    left. split.
    { rewrite !List.filter_app.
      now rewrite (filter_none e1), (filter_none e2), (filter_none e4). }
    rewrite B4 in Hpost. rewrite <- dump_of_dump_at in Hpost. congruence.
Qed.

(** What a cycle may do with the sink and the write counters, [m] being the
    machine before it and [m'] the machine after it; [d] is the content
    before the cycle of the dump area that the cycle ends up using. *)
Definition write_accounted (env : Env) (m m' : Machine) : Prop :=
  exists evs, trace m' = trace m ++ evs /\
    let d := dump_at m (dumpState m') in
    let d' := dump_of m' in
    (List.filter is_sink_write evs = [] /\
     write_counters d' = write_counters d) \/
    (exists sink content fc,
        List.filter is_sink_write evs
          = [EvSinkWrite sink content fc (incr (mWriteSequence d))] /\
        mWriteSequence d' = incr (incr (mWriteSequence d)) /\
        mWriteSequence d' = wrap_u32 (mWriteSequence d + 2) /\
        (if 0 <=? sink_write env then
           mFramesWritten d' = wrap_u32 (mFramesWritten d + sink_write env) /\
           mWriteErrors d' = mWriteErrors d
         else
           mWriteErrors d' = incr (mWriteErrors d) /\
           mFramesWritten d' = mFramesWritten d)).

Lemma cycle_write_accounted ndebug sq env m continue m' :
  cycle ndebug sq env m = Ok (continue, m') ->
  write_accounted env m m'.
Proof.
  unfold cycle, write_accounted. intros H.
  apply bind_inv in H as ([] & m1 & H1 & H).
  apply bind_inv in H as ([] & m2 & H2 & H).
  apply bind_inv in H as (command & m3 & H3 & H).
  apply bind_inv in H as (flow & m4 & H4 & H).
  assert (Hpre : no_write m m4).
  { apply (sleep_poll_dispatch_no_write ndebug sq env m flow m4).
    rewrite (bind_Ok _ _ _ _ _ H1), (bind_Ok _ _ _ _ _ H2).
    now rewrite (bind_Ok _ _ _ _ _ H3). }
  destruct Hpre as [(e0 & T0 & F0) K0].
  assert (Hidle : m' = m4 ->
    exists evs, trace m' = trace m ++ evs /\
      (List.filter is_sink_write evs = [] /\
       write_counters (dump_of m')
         = write_counters (dump_at m (dumpState m')))).
  { intros ->. exists e0. split; [exact T0|]. split; [now apply filter_none|].
    rewrite dump_of_dump_at. apply K0. }
  destruct flow.
  - apply bind_inv in H as ([] & m5 & H5 & H6). injection H6 as _ <-.
    apply work_write_accounting in H5 as (B5 & e5 & T5 & Hcases).
    exists (e0 ++ e5). split; [now rewrite T5, T0, app_assoc|].
    cbv zeta in *. rewrite B5. rewrite (dump_of_dump_at m4) in Hcases.
    assert (Ew : write_counters (dump_at m4 (dumpState m4))
                 = write_counters (dump_at m (dumpState m4))) by apply K0.
    unfold write_counters in Ew. injection Ew as E1 E2 E3.
    rewrite E1, E2, E3 in Hcases.
    destruct Hcases as [[Hf Hc]|(sink & content & fc & Hf & Hws & Hres)].
    + left. split.
      * rewrite List.filter_app, Hf, (filter_none e0) by assumption.
        reflexivity.
      * rewrite Hc. unfold write_counters. now rewrite E1, E2, E3.
    + right. exists sink, content, fc. split.
      * rewrite List.filter_app, Hf, (filter_none e0) by assumption.
        reflexivity.
      * split; [exact Hws|].
        split; [now rewrite Hws, incr_incr|exact Hres].
  - injection H as _ <-. destruct Hidle as (evs & T & Hf & Hc); [reflexivity|].
    exists evs. split; [exact T|]. left. now split.
  - injection H as _ <-. destruct Hidle as (evs & T & Hf & Hc); [reflexivity|].
    exists evs. split; [exact T|]. left. now split.
Qed.

(** ** The mix buffer and what the sink is given (lines 296-336) *)

(** Calls that read or write the samples of the mix buffer. *)
Definition is_buffer_event (e : Event) : bool :=
  match e with
  | EvProcess | EvMemset _ | EvSinkWrite _ _ _ _ => true
  | _ => false
  end.

Definition not_buffer_event (e : Event) : Prop := is_buffer_event e = false.

(** Neither the buffer nor what the worker believes about it changes. *)
Definition same_buffer (m m' : Machine) : Prop :=
  mixBuffer m' = mixBuffer m /\ mixBufferState m' = mixBufferState m.

#[local] Instance same_buffer_preorder : PreOrder same_buffer.
Proof.
  split; [intros m; split; reflexivity|].
  intros a b c [H1 H2] [H3 H4]. split; congruence.
Qed.

Lemma same_buffer_update_dump f m : same_buffer m (update_dump f m).
Proof. destruct m. unfold update_dump. cbn. now destruct dumpState0. Qed.

(** No call on the buffer, and no change of it. *)
Definition quiet : Machine -> Machine -> Prop :=
  rel_and (emits_only not_buffer_event) same_buffer.

Ltac quiet_side :=
  intros m_; split;
  [ revert m_; emits_side
  | first [ apply same_buffer_update_dump | now destruct m_ ] ].

Lemma sleep_poll_dispatch_quiet ndebug sq env :
  steps quiet
    (modify (set_nameSupply (track_names env)) ;;;
     do_sleep ndebug ;;;
     command <- poll_state ndebug sq env ;;
     dispatch ndebug sq env command).
Proof. unfold_phases. steps_auto; quiet_side. Qed.

Lemma check_sink_quiet ndebug env cur : steps quiet (check_sink ndebug env cur).
Proof. unfold_phases. steps_auto; quiet_side. Qed.

Lemma track_diff_quiet ndebug cur mask : steps quiet (track_diff ndebug cur mask).
Proof. unfold_phases. steps_auto; quiet_side. Qed.

Lemma timing_quiet env : steps quiet (timing env).
Proof. unfold_phases. steps_auto; quiet_side. Qed.

(** The reallocation makes no call on the samples of the buffer. *)
Lemma reallocate_emits ndebug cur prev pf :
  steps (emits_only not_buffer_event) (reallocate ndebug cur prev pf).
Proof. unfold_phases. steps_auto; emits_side. Qed.

(** The volumes are set without a call on the samples. *)
Lemma volumes_quiet ndebug env cur fuel mask :
  steps quiet (bit_loop fuel mask (update_volume ndebug env cur)).
Proof. unfold_phases. steps_auto; quiet_side. Qed.

Ltac peel H :=
  repeat (let a := fresh "a" in
          let m := fresh "m" in
          let H1 := fresh "H" in
          apply bind_inv in H as (a & m & H1 & H)).

(** After a reallocation the buffer is untouched or marked UNDEFINED. *)
Lemma reallocate_buffer ndebug cur prev pf m r m' :
  reallocate ndebug cur prev pf m = Ok (r, m') ->
  same_buffer m m' \/ mixBufferState m' = UNDEFINED.
Proof.
  unfold reallocate. rewrite run_gets.
  destruct (negb (Format_eqb (format m) pf)
            || negb (mFrameCount cur =? mFrameCount prev)).
  - intros H. right. peel H.
    injection H as _ <-.
    match goal with
    | Hs : modify (set_mixBufferState UNDEFINED) ?x = Ok (_, ?y),
      Hn : when (negb ndebug) _ ?y = Ok (_, ?z),
      Hg : modify (set_fastTracksGen _) ?z = Ok (_, _) |- _ =>
        injection Hs as _ <-; injection Hg as _ <-;
        destruct ndebug; injection Hn as _ <-; now destruct x
    end.
  - intros H. injection H as _ <-. left. reflexivity.
Qed.

(** The mix step: with MIX and an engine the buffer is MIXED after
    [process()]; otherwise nothing is called and a MIXED buffer becomes
    UNDEFINED. *)
Lemma mix_step_skipped ndebug env command cur m :
  has_flag command MIX && mixer m = false ->
  mix_step ndebug env command cur m
    = Ok (tt, if MixBufferState_eqb (mixBufferState m) MIXED
              then set_mixBufferState UNDEFINED m else m).
Proof.
  intros H. unfold mix_step. rewrite run_get, H.
  now destruct (mixBufferState m).
Qed.

Lemma mix_step_done ndebug env command cur m m' :
  has_flag command MIX && mixer m = true ->
  mix_step ndebug env command cur m = Ok (tt, m') ->
  mixBufferState m' = MIXED /\
  (mixBuffer m' = None \/ mixBuffer m' = Some MixOutput) /\
  exists evs, trace m' = trace m ++ evs ++ [EvProcess] /\
              Forall not_buffer_event evs.
Proof.
  intros Hmix. unfold mix_step. rewrite run_get, Hmix. intros H.
  apply bind_inv in H as ([] & m1 & H1 & H).
  apply bind_inv in H as ([] & m2 & H2 & H).
  apply bind_inv in H as ([] & m3 & H3 & H).
  apply bind_inv in H as ([] & m4 & H4 & H5).
  apply (steps_ALOG_ASSERT quiet) in H1 as [(e1 & T1 & F1) [B1 S1]].
  apply volumes_quiet in H2 as [(e2 & T2 & F2) [B2 S2]].
  injection H3 as <-. injection H4 as <-. injection H5 as <-.
  split; [now destruct m2|]. split.
  - destruct m2; cbn. destruct mixBuffer0; auto.
  - exists (e1 ++ e2). split.
    + replace (trace _) with (trace m2 ++ [EvProcess]) by now destruct m2.
      rewrite T2, T1. now rewrite <- !app_assoc.
    + now apply Forall_app.
Qed.

Lemma state_change_buffer ndebug sq env m m' :
  state_change ndebug sq env m = Ok (tt, m') ->
  emits_only not_buffer_event m m' /\
  (same_buffer m m' \/ mixBufferState m' = UNDEFINED).
Proof.
  unfold state_change. rewrite run_get.
  destruct (negb (StateRef_eqb (current m) (previous m))); cbn [when].
  - intros H.
    apply bind_inv in H as ([] & m1 & H1 & H).
    apply bind_inv in H as (mask & m2 & H2 & H).
    apply bind_inv in H as ([] & m3 & H3 & H4).
    injection H4 as <-.
    apply check_sink_quiet in H1 as [E1 [B1 S1]].
    pose proof (reallocate_emits _ _ _ _ _ _ _ H2) as E2.
    apply reallocate_buffer in H2 as B2.
    apply track_diff_quiet in H3 as [E3 [B3 S3]].
    split.
    + transitivity m1; [exact E1|]. transitivity m2; [exact E2|].
      transitivity m3; [exact E3|].
      apply emits_only_same_trace. intros x. now destruct x.
    + destruct B2 as [[B2 S2]|U2].
      * left. split; destruct m3; cbn in *; congruence.
      * right. destruct m3; cbn in *; congruence.
  - intros H. injection H as <-. split; [reflexivity|left; reflexivity].
Qed.

Lemma filter_no_buffer_event (evs : list Event) :
  Forall not_buffer_event evs -> List.filter is_buffer_event evs = [].
Proof.
  induction 1 as [|e evs He _ IH]; [reflexivity|].
  cbn. unfold not_buffer_event in He. now rewrite He.
Qed.

(** A cycle, cut after the [switch] on the command. *)
Lemma cycle_inv ndebug sq env m c m' :
  cycle ndebug sq env m = Ok (c, m') ->
  exists flow command m4,
    (modify (set_nameSupply (track_names env)) ;;;
     do_sleep ndebug ;;;
     command <- poll_state ndebug sq env ;;
     dispatch ndebug sq env command) m = Ok (flow, m4) /\
    match flow with
    | Work => work ndebug sq env command m4 = Ok (tt, m') /\ c = true
    | Continue => m' = m4 /\ c = true
    | Return => m' = m4 /\ c = false
    end.
Proof.
  unfold cycle. intros H.
  apply bind_inv in H as ([] & m1 & H1 & H).
  apply bind_inv in H as ([] & m2 & H2 & H).
  apply bind_inv in H as (command & m3 & H3 & H).
  apply bind_inv in H as (flow & m4 & H4 & H).
  exists flow, command, m4. split.
  - rewrite (bind_Ok _ _ _ _ _ H1), (bind_Ok _ _ _ _ _ H2).
    now rewrite (bind_Ok _ _ _ _ _ H3).
  - destruct flow.
    + apply bind_inv in H as ([] & m5 & H5 & H6). injection H6 as <- <-.
      now split.
    + injection H as <- <-. now split.
    + injection H as <- <-. now split.
Qed.

(** ** Suppression of the overrun after an underrun (lines 351-371) *)

(** Prove [R m m'] from [H : c m = Ok (a, m')] by breaking [c] down. *)
Ltac by_steps R H side :=
  match type of H with
  | ?c ?m = Ok (?a, ?m') =>
      let S := fresh "S" in
      assert (S : steps R c) by (unfold_phases; steps_auto; side);
      apply S in H; clear S
  end.

(** The flag stays set if it was, and no overrun is counted. *)
Definition suppression_kept (m m' : Machine) : Prop :=
  (ignoreNextOverrun m = true -> ignoreNextOverrun m' = true) /\
  keeps mOverruns m m'.

#[local] Instance suppression_kept_preorder : PreOrder suppression_kept.
Proof.
  split.
  - intros m. split; [auto|reflexivity].
  - intros a b c [H1 K1] [H2 K2]. split; [auto|].
    etransitivity; eassumption.
Qed.

Lemma ignoreNextOverrun_update_dump f m :
  ignoreNextOverrun (update_dump f m) = ignoreNextOverrun m.
Proof. destruct m. unfold update_dump. cbn. now destruct dumpState0. Qed.

Ltac suppression_side :=
  intros m_; split;
  [ first [ rewrite ignoreNextOverrun_update_dump; tauto
          | destruct m_; cbn; tauto ]
  | revert m_; keeps_side ].

Lemma before_timing_suppression ndebug sq env :
  steps suppression_kept
    (modify (set_nameSupply (track_names env)) ;;;
     do_sleep ndebug ;;;
     command <- poll_state ndebug sq env ;;
     dispatch ndebug sq env command).
Proof. unfold_phases. steps_auto; suppression_side. Qed.

Lemma state_change_suppression ndebug sq env :
  steps suppression_kept (state_change ndebug sq env).
Proof. unfold_phases. steps_auto; suppression_side. Qed.

Lemma mix_step_suppression ndebug env command cur :
  steps suppression_kept (mix_step ndebug env command cur).
Proof. unfold_phases. steps_auto; suppression_side. Qed.

Lemma write_step_suppression env command cur :
  steps suppression_kept (write_step env command cur).
Proof. unfold_phases. steps_auto; suppression_side. Qed.

Lemma classify_suppressed sec nsec m m' :
  ignoreNextOverrun m = true ->
  classify sec nsec m = Ok (tt, m') ->
  keeps mOverruns m m'.
Proof.
  intros Hi. unfold classify. rewrite run_get, Hi.
  destruct ((0 <? sec) || (underrunNs m <? nsec));
    [|destruct (nsec <? overrunNs m)];
    intros H; by_steps (keeps mOverruns) H keeps_side; exact H.
Qed.

Lemma classify_underrun sec nsec m m' :
  classify sec nsec m = Ok (tt, m') ->
  keeps mUnderruns m m' \/ ignoreNextOverrun m' = true.
Proof.
  unfold classify. rewrite run_get.
  destruct ((0 <? sec) || (underrunNs m <? nsec));
    [|destruct (nsec <? overrunNs m)]; intros H.
  - right. peel H. injection H as <-.
    match goal with
    | Hs : modify (set_sleepNs _) ?x = Ok (_, ?y) |- _ =>
        injection Hs as <-; now destruct x
    end.
  - left. by_steps (keeps mUnderruns) H keeps_side. exact H.
  - left. by_steps (keeps mUnderruns) H keeps_side. exact H.
Qed.

Lemma ignoreNextOverrun_set_trace t m :
  ignoreNextOverrun (set_trace t m) = ignoreNextOverrun m.
Proof. now destruct m. Qed.

Lemma timing_suppressed env m m' :
  ignoreNextOverrun m = true ->
  timing env m = Ok (tt, m') ->
  keeps mOverruns m m'.
Proof.
  intros Hi. unfold timing. rewrite run_emit.
  set (m0 := set_trace (trace m ++ [EvClockGettime]) m).
  assert (Hi0 : ignoreNextOverrun m0 = true)
    by (subst m0; now rewrite ignoreNextOverrun_set_trace).
  assert (K0 : keeps mOverruns m m0)
    by (subst m0; apply keeps_same_dumps; intros x; now destruct x).
  clearbody m0.
  destruct (clock env) as [newTs|].
  - rewrite run_get. destruct (oldTsValid m0).
    + destruct (interval newTs (oldTs m0)) as [sec nsec]. intros H.
      apply bind_inv in H as ([] & m1 & H1 & H2).
      apply (classify_suppressed _ _ _ _ Hi0) in H1.
      by_steps (keeps mOverruns) H2 keeps_side.
      transitivity m0; [exact K0|]. transitivity m1; assumption.
    + intros H. by_steps (keeps mOverruns) H keeps_side.
      transitivity m0; assumption.
  - intros H. by_steps (keeps mOverruns) H keeps_side.
    transitivity m0; assumption.
Qed.

Lemma timing_underrun env m m' :
  timing env m = Ok (tt, m') ->
  keeps mUnderruns m m' \/ ignoreNextOverrun m' = true.
Proof.
  unfold timing. rewrite run_emit.
  set (m0 := set_trace (trace m ++ [EvClockGettime]) m).
  assert (K0 : keeps mUnderruns m m0)
    by (subst m0; apply keeps_same_dumps; intros x; now destruct x).
  clearbody m0.
  destruct (clock env) as [newTs|].
  - rewrite run_get. destruct (oldTsValid m0).
    + destruct (interval newTs (oldTs m0)) as [sec nsec]. intros H.
      apply bind_inv in H as ([] & m1 & H1 & H2).
      injection H2 as <-.
      apply classify_underrun in H1 as [K1|I1].
      * left. transitivity m0; [exact K0|]. transitivity m1; [exact K1|].
        apply keeps_same_dumps; intros x; now destruct x.
      * right. now destruct m1.
    + intros H. right.
      apply bind_inv in H as ([] & m1 & H1 & H2). injection H2 as <-.
      peel H1. injection H1 as <-.
      match goal with
      | |- ignoreNextOverrun (_ (_ ?x)) = true => now destruct x
      end.
  - intros H. left. by_steps (keeps mUnderruns) H keeps_side.
    transitivity m0; assumption.
Qed.

Lemma work_inv ndebug sq env command m m' :
  work ndebug sq env command m = Ok (tt, m') ->
  exists m1 m2 m3,
    state_change ndebug sq env m = Ok (tt, m1) /\
    mix_step ndebug env command (deref sq m1 (current m1)) m1 = Ok (tt, m2) /\
    write_step env command (deref sq m1 (current m1)) m2 = Ok (tt, m3) /\
    timing env m3 = Ok (tt, m').
Proof.
  unfold work. intros H.
  apply bind_inv in H as ([] & m1 & H1 & H).
  apply bind_inv in H as (mm & m1' & Hget & H).
  injection Hget as <- <-.
  apply bind_inv in H as ([] & m2 & H2 & H).
  apply bind_inv in H as ([] & m3 & H3 & H4).
  now exists m1, m2, m3.
Qed.

Lemma cycle_suppressed ndebug sq env m c m' :
  ignoreNextOverrun m = true ->
  cycle ndebug sq env m = Ok (c, m') ->
  keeps mOverruns m m'.
Proof.
  intros Hi H.
  apply cycle_inv in H as (flow & command & m4 & Hpre & Hflow).
  apply before_timing_suppression in Hpre as [I4 K4].
  destruct flow; [|destruct Hflow as [-> _]; exact K4..].
  destruct Hflow as [Hwork _].
  apply work_inv in Hwork as (m1 & m2 & m3 & H1 & H2 & H3 & H5).
  apply state_change_suppression in H1 as [I1 K1].
  apply mix_step_suppression in H2 as [I2 K2].
  apply write_step_suppression in H3 as [I3 K3].
  apply timing_suppressed in H5; [|auto].
  transitivity m4; [exact K4|]. transitivity m1; [exact K1|].
  transitivity m2; [exact K2|]. transitivity m3; assumption.
Qed.

Lemma before_timing_underruns ndebug sq env :
  steps (keeps mUnderruns)
    (modify (set_nameSupply (track_names env)) ;;;
     do_sleep ndebug ;;;
     command <- poll_state ndebug sq env ;;
     dispatch ndebug sq env command).
Proof. unfold_phases. steps_auto; keeps_side. Qed.

Lemma cycle_underrun ndebug sq env m m' :
  cycle ndebug sq env m = Ok (true, m') ->
  keeps mUnderruns m m' \/ ignoreNextOverrun m' = true.
Proof.
  intros H.
  apply cycle_inv in H as (flow & command & m4 & Hpre & Hflow).
  apply before_timing_underruns in Hpre as K4.
  destruct flow; [|destruct Hflow as [-> _]; left; exact K4..].
  destruct Hflow as [Hwork _].
  apply work_inv in Hwork as (m1 & m2 & m3 & H1 & H2 & H3 & H5).
  by_steps (keeps mUnderruns) H1 keeps_side.
  by_steps (keeps mUnderruns) H2 keeps_side.
  by_steps (keeps mUnderruns) H3 keeps_side.
  apply timing_underrun in H5 as [K5|I5]; [left|right; exact I5].
  transitivity m4; [exact K4|]. transitivity m1; [exact H1|].
  transitivity m2; [exact H2|]. transitivity m3; assumption.
Qed.

(** A worker at 192 frames and 48000 Hz (underrunNs = 7 ms, overrunNs =
    1 ms), always handed the same snapshot. *)
Definition mixing_192 (k : nat) : FastMixerState :=
  snapshot MIX_WRITE 192 (Some 0%nat) 1.

Definition tick (sec nsec : Z) : Env :=
  answers (Some 0%nat) 48000 192 (Some (sec, nsec)).

(** C6, as stated, fails: an underrun (8 ms), then a nominal cycle (4 ms),
    then a cycle of 0.5 ms: that one is the first to be classified as an
    overrun after the underrun, and it is counted. *)
Lemma overrun_counted_after_nominal_cycle :
  exists m1 m2 m3 m4,
    cycle true mixing_192 (tick 1 0) machine0 = Ok (true, m1) /\
    cycle true mixing_192 (tick 1 8000000) m1 = Ok (true, m2) /\
    cycle true mixing_192 (tick 1 12000000) m2 = Ok (true, m3) /\
    cycle true mixing_192 (tick 1 12500000) m3 = Ok (true, m4) /\
    mUnderruns (dump_of m1) = 0 /\ mUnderruns (dump_of m2) = 1 /\
    ignoreNextOverrun m2 = true /\
    delta_ns (1, 12000000) (oldTs m2) = 4000000 /\
    mUnderruns (dump_of m3) = 1 /\ mOverruns (dump_of m3) = 0 /\
    ignoreNextOverrun m3 = false /\
    delta_ns (1, 12500000) (oldTs m3) = 500000 /\ overrunNs m3 = 1000000 /\
    mOverruns (dump_of m4) = 1.
Proof.
  do 4 eexists.
  split; [vm_compute; reflexivity|].
  split; [vm_compute; reflexivity|].
  split; [vm_compute; reflexivity|].
  split; [vm_compute; reflexivity|].
  repeat split; vm_compute; reflexivity.
Qed.

(** C6 (amended): after a cycle in which an underrun is detected (the
    underrun counter changed), ignoreNextOverrun is set and the cycle that
    follows counts no overrun, whatever its interval.  The suppression does
    not reach further: a cycle in between that is neither an underrun nor an
    overrun clears it. *)
Theorem overrun_suppressed_after_underrun ndebug sq env1 env2
  (m0 m1 : Machine) c m2 r :
  cycle ndebug sq env1 m0 = Ok (true, m1) ->
  mUnderruns (dump_at m1 r) <> mUnderruns (dump_at m0 r) ->
  cycle ndebug sq env2 m1 = Ok (c, m2) ->
  ignoreNextOverrun m1 = true /\
  forall r', mOverruns (dump_at m2 r') = mOverruns (dump_at m1 r').
Proof.
  intros H1 Hunder H2.
  assert (Hi : ignoreNextOverrun m1 = true).
  { apply cycle_underrun in H1 as [K|I]; [|exact I].
    exfalso. apply Hunder. apply K. }
  split; [exact Hi|].
  exact (cycle_suppressed _ _ _ _ _ _ Hi H2).
Qed.

(** The machine after a cycle that returns, for the examples. *)
Definition after_cycle (sq : nat -> FastMixerState) (env : Env) (m : Machine)
  : Machine :=
  match cycle true sq env m with
  | Ok (_, m') => m'
  | _ => m
  end.

Definition m192_first : Machine :=
  Eval vm_compute in after_cycle mixing_192 (tick 1 0) machine0.

Definition m192_underrun : Machine :=
  Eval vm_compute in after_cycle mixing_192 (tick 1 8000000) m192_first.

Lemma overrun_suppressed_right_after_underrun :
  ignoreNextOverrun m192_underrun = true /\
  forall r',
    mOverruns (dump_at (after_cycle mixing_192 (tick 1 8500000) m192_underrun) r')
    = mOverruns (dump_at m192_underrun r').
Proof.
  apply (overrun_suppressed_after_underrun true mixing_192
           (tick 1 8000000) (tick 1 8500000) m192_first m192_underrun true
           (after_cycle mixing_192 (tick 1 8500000) m192_underrun) RefDummy).
  - vm_compute. reflexivity.
  - vm_compute. congruence.
  - vm_compute. reflexivity.
Defined.

(** ** Cold idle: one decrement per generation (lines 131-145) *)

(** The events of a cycle: what [m'] has in its trace beyond [m]. *)
Definition new_events (m m' : Machine) : list Event :=
  skipn (length (trace m)) (trace m').

Lemma new_events_app m m' evs :
  trace m' = trace m ++ evs -> new_events m m' = evs.
Proof.
  intros H. unfold new_events. rewrite H.
  rewrite skipn_app, skipn_all, Nat.sub_diag. reflexivity.
Qed.

(** ** The write sequence when no write is in flight (lines 327-329) *)

Lemma DumpRef_eq_dec (a b : DumpRef) : {a = b} + {a <> b}.
Proof. decide equality. apply Nat.eq_dec. Qed.

(** No write is in flight: the write sequence of every dump area, the
    worker's own dummy area included, is even. *)
Definition sequences_even (m : Machine) : Prop :=
  forall r, Z.even (mWriteSequence (dump_at m r)) = true.

(** The write sequence that each write call of [evs] finds is odd. *)
Definition writes_in_flight_odd (evs : list Event) : Prop :=
  forall sink content fc seq,
    In (EvSinkWrite sink content fc seq) evs -> Z.even seq = false.

Lemma in_sink_writes e evs :
  In e evs -> is_sink_write e = true -> In e (List.filter is_sink_write evs).
Proof. intros H E. apply filter_In. now split. Qed.

(** Over a cycle every dump area keeps the parity of its write sequence:
    the only changes are the two increments around the write call. *)
Lemma cycle_parity ndebug sq env m c m' :
  cycle ndebug sq env m = Ok (c, m') ->
  keeps (fun d => Z.even (mWriteSequence d)) m m'.
Proof.
  intros H r.
  apply cycle_inv in H as (flow & command & m4 & Hpre & Hflow).
  apply before_write_no_write in Hpre as [_ K0].
  assert (P0 : forall x, mWriteSequence (dump_at m4 x)
                         = mWriteSequence (dump_at m x)).
  { intros x. specialize (K0 x). unfold write_counters in K0. congruence. }
  destruct flow; [|destruct Hflow as [-> _]; now rewrite P0
                  |destruct Hflow as [-> _]; now rewrite P0].
  destruct Hflow as [Hw _]. rewrite <- P0. clear P0 K0.
  unfold work in Hw.
  apply bind_inv in Hw as ([] & m1 & H1 & Hw).
  apply bind_inv in Hw as (mm & m1' & Hget & Hw).
  injection Hget as <- <-.
  apply bind_inv in Hw as ([] & m2 & H2 & Hw).
  apply bind_inv in Hw as ([] & m3 & H3 & H4).
  apply state_change_no_write in H1 as [[_ K1] _].
  apply mix_step_no_write in H2 as [[_ K2] _].
  apply timing_no_write in H4 as [[_ K4] _].
  assert (P : forall a b, keeps write_counters a b ->
                forall x, mWriteSequence (dump_at b x)
                          = mWriteSequence (dump_at a x)).
  { intros a b K x. specialize (K x). unfold write_counters in K.
    congruence. }
  rewrite (P _ _ K4), <- (P _ _ K1), <- (P _ _ K2). clear P K1 K2 K4.
  pose proof (write_step_others _ _ _ _ _ _ H3) as [B3 O3].
  destruct (has_flag command WRITE) eqn:Hflag;
    [destruct (outputSink m2) as [sink|] eqn:Hsink;
       [destruct (mixBuffer m2) as [b|] eqn:Hbuf|]|];
    try (rewrite write_step_skipped in H3 by auto;
         injection H3 as <-; reflexivity).
  destruct (write_step_attempt env command (deref sq m1 (current m1))
              m2 sink b Hflag Hsink Hbuf)
    as (m3' & Hrun & _ & _ & _ & _ & Hws & _).
  rewrite Hrun in H3. injection H3 as <-.
  destruct (DumpRef_eq_dec r (dumpState m2)) as [->|Hr].
  - rewrite <- B3 at 1. rewrite <- !dump_of_dump_at, Hws, !even_incr.
    apply negb_involutive.
  - now rewrite O3.
Qed.

Lemma reachable_sequences_even ndebug sq areas envs m :
  (forall k, Z.even (mWriteSequence (areas k)) = true) ->
  run ndebug sq envs (init_machine areas) = Ok (Some m) ->
  sequences_even m.
Proof.
  intros Hareas. apply (run_invariant ndebug sq sequences_even).
  - intros env m0 m' Inv H r.
    rewrite (cycle_parity _ _ _ _ _ _ H r). apply Inv.
  - intros [|k]; [reflexivity|apply Hareas].
Qed.

(** C8: the dump areas being handed over with an even write sequence (the
    constructor sets it to 0), at the top of every cycle of the loop the
    write sequence of every dump area is even, and so it is at the end of
    the cycle.  In the cycle either no write is attempted and the write
    counters stay, or exactly one write is attempted (never a second one):
    the write sequence is incremented once before the call, which finds it
    odd, and once after it, so that it grows by 2 (modulo 2^32, as a
    uint32_t does), and the result of the write is added to mFramesWritten
    when it is not negative and counted in mWriteErrors when it is. *)
Theorem sink_write_accounting ndebug sq areas envs env (m : Machine)
  continue m' :
  (forall k, Z.even (mWriteSequence (areas k)) = true) ->
  run ndebug sq envs (init_machine areas) = Ok (Some m) ->
  cycle ndebug sq env m = Ok (continue, m') ->
  sequences_even m /\ sequences_even m' /\
  writes_in_flight_odd (new_events m m') /\
  write_accounted env m m'.
Proof.
  intros Hareas Hreach H.
  pose proof (reachable_sequences_even _ _ _ _ _ Hareas Hreach) as Ev.
  pose proof (cycle_write_accounted _ _ _ _ _ _ H) as Acc.
  split; [exact Ev|]. split.
  { intros r. rewrite (cycle_parity _ _ _ _ _ _ H r). apply Ev. }
  split; [|exact Acc].
  destruct Acc as (evs & T & Hcases).
  rewrite (new_events_app _ _ _ T).
  intros sink content fc seq Hin.
  apply in_sink_writes in Hin; [|reflexivity].
  destruct Hcases as [[Hf _]|(s0 & c0 & f0 & Hf & _)]; rewrite Hf in Hin.
  - destruct Hin.
  - destruct Hin as [E|[]]. injection E as _ _ _ <-.
    rewrite even_incr. now rewrite (Ev (dumpState m')).
Qed.

(** The second cycle of a worker given 192 frames at 48000 Hz and a sink
    that takes them all, its dump areas fresh from the constructor: the
    write finds the sequence at 3 and leaves it at 4. *)
Lemma sink_write_accounting_second_cycle :
  sequences_even m192_first /\ sequences_even m192_underrun /\
  writes_in_flight_odd (new_events m192_first m192_underrun) /\
  write_accounted (tick 1 8000000) m192_first m192_underrun.
Proof.
  apply (sink_write_accounting true mixing_192 no_dump_areas [tick 1 0]
           (tick 1 8000000) m192_first true m192_underrun).
  - intros k. reflexivity.
  - vm_compute. reflexivity.
  - vm_compute. reflexivity.
Defined.

(** ** A write without a mix after a published INITIAL state
       (lines 100-119, 181-212, 316-331) *)

(** A state with one track, in slot 0, and sink 0. *)
Definition one_track (command frameCount : Z) : FastMixerState :=
  mkFastMixerState (mkFastTrack (Some 0%nat) None 1
                    :: replicate 31 default_FastTrack)
                   1 1 (Some 0%nat) 1 frameCount command None 0 None.

(** A worker that mixes 384 frames is handed, one after the other: a state
    of 192 frames that calls for no work, a write of 192 frames, a state of
    384 frames that calls for no work, and a write of 384 frames.  The
    command of the two states in between is [idle]. *)
Definition resized_through (idle : Z) (k : nat) : FastMixerState :=
  match k with
  | O => one_track MIX_WRITE 384
  | 1%nat => one_track idle 192
  | 2%nat => one_track WRITE 192
  | 3%nat => one_track idle 384
  | _ => one_track WRITE 384
  end.

(** The answers of the cycle that polls state [k], at [ms] milliseconds. *)
Definition polled_at (k : nat) (ms : Z) : Env :=
  mkEnv (Some k) 0 (fun _ => Format_PCM 48000 2) [7] (fun _ => 0) 0
        (Some (1, ms * 1000000)).

(** C7 fails on the code when a snapshot with the INITIAL command is
    published.  INITIAL lacks the IDLE bit, so the poll makes such a
    snapshot [previous] although the [switch] treats it as idle and never
    applies it; the write that follows finds its frame count equal to that
    of [previous] and keeps buffer and [mixBufferState].  Here the buffer of
    1536 bytes, made and mixed for 384 frames, is cleared for 192 frames
    (768 bytes) and marked ZEROED; the write of 384 frames, in a cycle
    without [process()] and without [memset], then hands the sink 768 bytes
    of zeros followed by 768 bytes left by [process()] four cycles
    earlier. *)
Lemma stale_frames_written_after_published_initial :
  exists m m',
    run true (resized_through INITIAL)
        [polled_at 0 0; polled_at 1 8; polled_at 2 16; polled_at 3 20]
        machine0 = Ok (Some m) /\
    cycle true (resized_through INITIAL) (polled_at 4 24) m = Ok (true, m') /\
    mCommand (deref (resized_through INITIAL) m' (current m')) = WRITE /\
    mFrameCount (deref (resized_through INITIAL) m' (current m')) = 384 /\
    trace m
    = [EvSinkFormat 0; EvNewMixer 384 48000 32; EvNewMixBuffer 768;
       EvGetTrackName 7; EvSetBufferProvider 7 (Some 0%nat);
       EvSetMainBuffer 7; EvEnable 7; EvProcess;
       EvSinkWrite 0 MixOutput 384 1; EvClockGettime;
       EvNanosleep 8000000; EvNanosleep 1000000; EvMemset 768;
       EvSinkWrite 0 (Cleared 768 MixOutput) 192 3; EvClockGettime] /\
    mixBufferState m = ZEROED /\
    new_events m m'
    = [EvNanosleep 1000000; EvSinkWrite 0 (Cleared 768 MixOutput) 384 5;
       EvClockGettime] /\
    mixBufferState m' = ZEROED /\
    zero_bytes (Cleared 768 MixOutput) (384 * 2 * 2) = false.
Proof.
  do 2 eexists. split; [vm_compute; reflexivity|].
  split; [vm_compute; reflexivity|].
  repeat split; vm_compute; reflexivity.
Qed.

(** The same states published with HOT_IDLE in place of INITIAL: the worker
    keeps a copy of the state it last applied as [previous], so each write
    finds the frame count changed, buffer and engine are made anew and the
    buffer is marked UNDEFINED, and the write of 384 frames is handed 1536
    bytes cleared in the same cycle. *)
Lemma cleared_frames_written_after_hot_idle :
  exists m m',
    run true (resized_through HOT_IDLE)
        [polled_at 0 0; polled_at 1 8; polled_at 2 16; polled_at 3 20]
        machine0 = Ok (Some m) /\
    cycle true (resized_through HOT_IDLE) (polled_at 4 24) m
    = Ok (true, m') /\
    List.filter is_buffer_event (new_events m m')
    = [EvMemset 1536; EvSinkWrite 0 (Cleared 1536 Uninitialised) 384 5] /\
    zero_bytes (Cleared 1536 Uninitialised) (384 * 2 * 2) = true.
Proof.
  do 2 eexists. split; [vm_compute; reflexivity|].
  split; [vm_compute; reflexivity|].
  split; vm_compute; reflexivity.
Qed.

Definition is_futex_op (e : Event) : bool :=
  match e with
  | EvAtomicDec _ | EvFutexWait _ _ => true
  | _ => false
  end.

Definition not_futex_op (e : Event) : Prop := is_futex_op e = false.

Lemma filter_no_futex_op (evs : list Event) :
  Forall not_futex_op evs -> List.filter is_futex_op evs = [].
Proof.
  induction 1 as [|e evs He _ IH]; [reflexivity|].
  cbn. unfold not_futex_op in He. now rewrite He.
Qed.

(** No futex call, and [coldGen] stays. *)
Definition cold_kept : Machine -> Machine -> Prop :=
  rel_and (emits_only not_futex_op) (fun m m' => coldGen m' = coldGen m).

#[local] Instance same_coldGen_preorder :
  PreOrder (fun m m' : Machine => coldGen m' = coldGen m).
Proof. split; [intros m; reflexivity|intros a b c H1 H2; congruence]. Qed.

Lemma coldGen_update_dump f m : coldGen (update_dump f m) = coldGen m.
Proof. destruct m. unfold update_dump. cbn. now destruct dumpState0. Qed.

Ltac cold_side :=
  intros m_; split;
  [ revert m_; emits_side
  | first [ apply coldGen_update_dump | now destruct m_ ] ].

Lemma sleep_poll_cold_kept ndebug sq env :
  steps cold_kept
    (modify (set_nameSupply (track_names env)) ;;;
     do_sleep ndebug ;;;
     poll_state ndebug sq env).
Proof. unfold_phases. steps_auto; cold_side. Qed.

Lemma work_cold_kept ndebug sq env command :
  steps cold_kept (work ndebug sq env command).
Proof. unfold_phases. steps_auto; cold_side. Qed.

(** The state [poll_state] settles on is [current], and its command is the
    one of the cycle. *)
Definition current_kept (m m' : Machine) : Prop :=
  current m' = current m /\ preIdle m' = preIdle m.

#[local] Instance current_kept_preorder : PreOrder current_kept.
Proof.
  split; [intros m; split; reflexivity|].
  intros a b c [H1 H2] [H3 H4]. split; congruence.
Qed.

Lemma current_kept_update_dump f m : current_kept m (update_dump f m).
Proof. destruct m. unfold update_dump. cbn. now destruct dumpState0. Qed.

Ltac current_side :=
  intros m_;
  first [ apply current_kept_update_dump | now destruct m_ ].

Lemma deref_same_preIdle sq m m' r :
  preIdle m' = preIdle m -> deref sq m' r = deref sq m r.
Proof. intros H. destruct r; cbn; congruence. Qed.

Lemma poll_state_command ndebug sq env m command m' :
  poll_state ndebug sq env m = Ok (command, m') ->
  command = mCommand (deref sq m' (current m')).
Proof.
  unfold poll_state. rewrite !run_gets. intros H.
  apply bind_inv in H as (next & m0 & Hnext & H).
  assert (Hm0 : m0 = m /\ (next = current m \/ exists k, next = RefQueue k)).
  { destruct (sq_poll env) as [k|].
    - injection Hnext as <- <-. split; [reflexivity|right; now exists k].
    - apply bind_inv in Hnext as ([] & m1 & Ha & Hr).
      injection Hr as <- <-. split; [|now left].
      unfold ALOG_ASSERT in Ha. destruct ndebug; [now injection Ha|].
      destruct (_ && _); [now injection Ha|discriminate]. }
  destruct Hm0 as [-> Hnext'].
  rewrite run_get in H.
  apply bind_inv in H as ([] & m1 & Hchange & H).
  apply bind_inv in H as ([] & m2 & Hdump & Hret).
  injection Hret as <- <-. injection Hdump as <-.
  destruct (StateRef_eqb next (current m)) eqn:E; cbn [negb when] in Hchange.
  - injection Hchange as <-. apply StateRef_eqb_eq in E. subst next.
    destruct (current_kept_update_dump (set_dCommand
                (mCommand (deref sq m (current m)))) m) as [-> Hp].
    f_equal. symmetry. now apply deref_same_preIdle.
  - destruct Hnext' as [->|[k ->]].
    { assert (F : StateRef_eqb (current m) (current m) = true)
        by (now apply StateRef_eqb_eq).
      congruence. }
    apply bind_inv in Hchange as ([] & m3 & H3 & Hchange).
    apply bind_inv in Hchange as ([] & m4 & H4 & H5).
    injection H5 as <-.
    destruct (current_kept_update_dump
                (set_dCommand (mCommand (deref sq m (RefQueue k))))
                (set_current (RefQueue k) m4)) as [-> _].
    now destruct m4.
Qed.

(** What the worker does with the futex word at [addr], [old] being the
    value the decrement returns. *)
Definition decrement_and_wait (addr : nat) (old : Z) : list Event :=
  EvAtomicDec addr
  :: (if old <=? 0 then [EvFutexWait addr (to_int (old - 1))] else []).

Lemma dispatch_cold_idle ndebug sq env m flow m' :
  dispatch ndebug sq env COLD_IDLE m = Ok (flow, m') ->
  let cur := deref sq m (current m) in
  flow = Continue /\ current_kept m m' /\ coldGen m' = mColdGen cur /\
  if mColdGen cur =? coldGen m then trace m' = trace m
  else exists addr,
         mColdFutexAddr cur = Some addr /\
         trace m' = trace m ++ decrement_and_wait addr (atomic_dec_old env).
Proof.
  change (dispatch ndebug sq env COLD_IDLE)
    with (cold_idle sq env ;;; ret (A := Flow) Continue).
  intros H. apply bind_inv in H as ([] & m1 & H & Hret).
  injection Hret as <- <-. cbv zeta. split; [reflexivity|].
  unfold cold_idle in H. rewrite run_get in H.
  destruct (mColdGen (deref sq m (current m)) =? coldGen m) eqn:E;
    cbn [negb] in H.
  - injection H as <-. apply Z.eqb_eq in E.
    split; [split; now destruct m|]. split; now destruct m.
  - destruct (mColdFutexAddr (deref sq m (current m))) as [addr|];
      [|discriminate].
    rewrite run_emit in H. unfold decrement_and_wait.
    destruct (atomic_dec_old env <=? 0); cbn [when] in H.
    + mrun_in H. injection H as <-.
      split; [split; now destruct m|]. split; [now destruct m|].
      exists addr. split; [reflexivity|].
      destruct m; cbn. now rewrite <- app_assoc.
    + mrun_in H. injection H as <-.
      split; [split; now destruct m|]. split; [now destruct m|].
      exists addr. split; [reflexivity|]. now destruct m.
Qed.

Lemma work_current_kept ndebug sq env command :
  steps current_kept (work ndebug sq env command).
Proof. unfold_phases. steps_auto; current_side. Qed.

Definition futex_ops (evs : list Event) : list Event :=
  List.filter is_futex_op evs.

Lemma cycle_cold_idle ndebug sq env m c m' :
  cycle ndebug sq env m = Ok (c, m') ->
  let cur := deref sq m' (current m') in
  mCommand cur = COLD_IDLE ->
  coldGen m' = mColdGen cur /\
  if mColdGen cur =? coldGen m then futex_ops (new_events m m') = []
  else exists addr,
         mColdFutexAddr cur = Some addr /\
         futex_ops (new_events m m')
           = decrement_and_wait addr (atomic_dec_old env).
Proof.
  intros H. cbv zeta. intros Hcmd.
  apply cycle_inv in H as (flow & command0 & m4 & Hpre & Hflow).
  apply bind_inv in Hpre as ([] & m1 & H1 & Hpre).
  apply bind_inv in Hpre as ([] & m2 & H2 & Hpre).
  apply bind_inv in Hpre as (command & m3 & H3 & H4).
  assert (Hkept : cold_kept m m3).
  { apply (sleep_poll_cold_kept ndebug sq env m command m3).
    rewrite (bind_Ok _ _ _ _ _ H1). now rewrite (bind_Ok _ _ _ _ _ H2). }
  destruct Hkept as [(e0 & T0 & F0) G0].
  pose proof (poll_state_command _ _ _ _ _ _ H3) as Hc.
  assert (Hcur : command = COLD_IDLE ->
                 m' = m4 /\ deref sq m' (current m') = deref sq m3 (current m3)).
  { intros ->. destruct (dispatch_cold_idle _ _ _ _ _ _ H4)
      as (-> & [K1 K2] & _).
    destruct Hflow as [-> _]. split; [reflexivity|].
    rewrite K1. now apply deref_same_preIdle. }
  assert (Hcommand : command = COLD_IDLE).
  { destruct (Z.eqb_spec command COLD_IDLE) as [|Hne]; [assumption|].
    exfalso. apply Hne. rewrite Hc, <- Hcmd. f_equal.
    unfold dispatch in H4.
    apply Z.eqb_neq in Hne. rewrite Hne in H4.
    assert (K4 : current_kept m3 m4) by (by_steps current_kept H4 current_side; exact H4).
    destruct K4 as [K1 K2].
    assert (K5 : current_kept m4 m').
    { destruct flow; [|destruct Hflow as [-> _]; reflexivity..].
      destruct Hflow as [Hw _]. now apply work_current_kept in Hw. }
    destruct K5 as [K3 K5].
    rewrite K3, K1. symmetry.
    apply deref_same_preIdle. congruence. }
  destruct (Hcur Hcommand) as [-> Hderef]. clear Hc Hcur. subst command.
  rewrite Hderef.
  destruct (dispatch_cold_idle _ _ _ _ _ _ H4) as (_ & _ & Hgen & Hops).
  split; [exact Hgen|].
  rewrite <- G0.
  destruct (mColdGen (deref sq m3 (current m3)) =? coldGen m3).
  - rewrite (new_events_app m m4 e0) by congruence.
    now apply filter_no_futex_op.
  - destruct Hops as (addr & Ha & T4). exists addr. split; [exact Ha|].
    rewrite (new_events_app m m4
               (e0 ++ decrement_and_wait addr (atomic_dec_old env)))
      by (rewrite T4, T0; now rewrite app_assoc).
    unfold futex_ops. rewrite List.filter_app, (filter_no_futex_op e0) by assumption.
    unfold decrement_and_wait. cbn.
    now destruct (atomic_dec_old env <=? 0).
Qed.

(** C1: a COLD_IDLE cycle whose state carries a cold generation other than
    the one the worker has stored makes exactly one atomic decrement and no
    other futex call but one wait, which it makes if and only if the
    decrement returned a value <= 0; it stores the generation, and from then
    on every COLD_IDLE cycle that finds this same generation (the next one
    and any later one, as long as the stored generation is this one) makes no
    atomic and no futex call and leaves the stored generation. *)
Theorem cold_idle_once ndebug sq env1 (m0 : Machine) c1 m1 :
  cycle ndebug sq env1 m0 = Ok (c1, m1) ->
  mCommand (deref sq m1 (current m1)) = COLD_IDLE ->
  mColdGen (deref sq m1 (current m1)) <> coldGen m0 ->
  (exists addr,
      mColdFutexAddr (deref sq m1 (current m1)) = Some addr /\
      futex_ops (new_events m0 m1)
        = decrement_and_wait addr (atomic_dec_old env1)) /\
  coldGen m1 = mColdGen (deref sq m1 (current m1)) /\
  forall env2 (m : Machine) c2 m2,
    coldGen m = coldGen m1 ->
    cycle ndebug sq env2 m = Ok (c2, m2) ->
    mCommand (deref sq m2 (current m2)) = COLD_IDLE ->
    mColdGen (deref sq m2 (current m2)) = mColdGen (deref sq m1 (current m1)) ->
    futex_ops (new_events m m2) = [] /\ coldGen m2 = coldGen m1.
Proof.
  intros H1 Hcmd1 Hnew.
  destruct (cycle_cold_idle _ _ _ _ _ _ H1 Hcmd1) as [Hgen Hops].
  apply Z.eqb_neq in Hnew. rewrite Hnew in Hops.
  split; [exact Hops|]. split; [exact Hgen|].
  intros env2 m c2 m2 Hm H2 Hcmd2 Hsame.
  destruct (cycle_cold_idle _ _ _ _ _ _ H2 Hcmd2) as [Hgen2 Hops2].
  assert (E : (mColdGen (deref sq m2 (current m2)) =? coldGen m) = true)
    by (apply Z.eqb_eq; congruence).
  rewrite E in Hops2. split; [exact Hops2|congruence].
Qed.

(** A worker that has been mixing is parked: snapshot 1 is COLD_IDLE with
    cold generation 1 and the futex word at address 5. *)
Definition cold_snapshot : FastMixerState :=
  mkFastMixerState (replicate kMaxFastTracks default_FastTrack)
                   0 0 (Some 0%nat) 1 192 COLD_IDLE (Some 5%nat) 1 None.

Definition mix_then_cold (k : nat) : FastMixerState :=
  match k with
  | O => snapshot MIX_WRITE 192 (Some 0%nat) 1
  | _ => cold_snapshot
  end.

(** The controller has not released the futex: the decrement returns 0. *)
Definition park : Env :=
  mkEnv (Some 1%nat) 0 (fun _ => Format_PCM 48000 2) [] (fun _ => 0) 0 None.

Definition m192_parked : Machine :=
  Eval vm_compute in after_cycle mix_then_cold park m192_first.

Lemma cold_idle_once_when_parked :
  (exists addr,
      mColdFutexAddr (deref mix_then_cold m192_parked (current m192_parked))
        = Some addr /\
      futex_ops (new_events m192_first m192_parked)
        = decrement_and_wait addr 0) /\
  coldGen m192_parked
    = mColdGen (deref mix_then_cold m192_parked (current m192_parked)) /\
  forall env2 (m : Machine) c2 m2,
    coldGen m = coldGen m192_parked ->
    cycle true mix_then_cold env2 m = Ok (c2, m2) ->
    mCommand (deref mix_then_cold m2 (current m2)) = COLD_IDLE ->
    mColdGen (deref mix_then_cold m2 (current m2))
      = mColdGen (deref mix_then_cold m192_parked (current m192_parked)) ->
    futex_ops (new_events m m2) = [] /\ coldGen m2 = coldGen m192_parked.
Proof.
  apply (cold_idle_once true mix_then_cold park m192_first true m192_parked).
  - vm_compute. reflexivity.
  - vm_compute. reflexivity.
  - vm_compute. congruence.
Defined.

(** ** The loops over the bits of a track mask *)

Lemma ctz_pos_spec p :
  Z.testbit (Zpos p) (Z.of_nat (ctz_pos p)) = true /\
  forall j, (j < ctz_pos p)%nat -> Z.testbit (Zpos p) (Z.of_nat j) = false.
Proof.
  induction p as [q IH|q IH|].
  - split; [reflexivity|]. cbn [ctz_pos]. intros j Hj. lia.
  - destruct IH as [IH1 IH2]. cbn [ctz_pos].
    change (Zpos q~0) with (2 * Zpos q). split.
    + rewrite Nat2Z.inj_succ. rewrite Z.testbit_even_succ by lia. exact IH1.
    + intros [|j] Hj; [apply Z.testbit_even_0|].
      rewrite Nat2Z.inj_succ. rewrite Z.testbit_even_succ by lia.
      apply IH2. lia.
  - split; [reflexivity|]. cbn [ctz_pos]. intros j Hj. lia.
Qed.

Lemma clear_bit_spec x i j :
  Z.testbit (clear_bit x i) (Z.of_nat j)
  = Z.testbit x (Z.of_nat j) && negb (Nat.eqb i j).
Proof.
  unfold clear_bit.
  rewrite Z.land_spec, Z.lnot_spec by lia.
  rewrite Z.shiftl_1_l, Z.pow2_bits_eqb by lia.
  f_equal. f_equal.
  destruct (Nat.eqb_spec i j) as [->|Hne].
  - apply Z.eqb_refl.
  - apply Z.eqb_neq. lia.
Qed.

Lemma clear_bit_nonneg x i : 0 <= x -> 0 <= clear_bit x i.
Proof. intros H. unfold clear_bit. apply Z.land_nonneg. now left. Qed.

(** [body] on each slot of a list, in order. *)
Fixpoint for_each (slots : list nat) (body : nat -> M unit) : M unit :=
  match slots with
  | [] => ret tt
  | i :: rest => body i ;;; for_each rest body
  end.

(** The slots whose bit is set in [mask], in ascending order. *)
Definition bits_from (lo n : nat) (mask : Z) : list nat :=
  List.filter (fun i => Z.testbit mask (Z.of_nat i)) (seq lo n).

Definition set_bits (mask : Z) : list nat := bits_from 0 32 mask.

Lemma no_bits_zero mask :
  0 <= mask ->
  (forall j, Z.testbit mask (Z.of_nat j) = false) -> mask = 0.
Proof.
  intros Hpos H. apply Z.bits_inj'. intros k Hk.
  rewrite Z.bits_0. rewrite <- (Z2Nat.id k) by lia. apply H.
Qed.

Lemma bit_loop_bits_from body n :
  forall lo fuel mask,
    0 <= mask ->
    (forall j, Z.testbit mask (Z.of_nat j) = true -> (lo <= j < lo + n)%nat) ->
    (n <= fuel)%nat ->
    bit_loop fuel mask body = for_each (bits_from lo n mask) body.
Proof.
  induction n as [|n IH]; intros lo fuel mask Hpos Hbits Hfuel.
  - assert (mask = 0).
    { apply no_bits_zero; [exact Hpos|]. intros j.
      destruct (Z.testbit mask (Z.of_nat j)) eqn:E; [|reflexivity].
      apply Hbits in E. lia. }
    subst mask. destruct fuel; reflexivity.
  - unfold bits_from. cbn [seq List.filter].
    destruct (Z.testbit mask (Z.of_nat lo)) eqn:Elo.
    + destruct fuel as [|fuel]; [lia|].
      assert (Hnz : mask <> 0) by (intros ->; now rewrite Z.bits_0 in Elo).
      cbn [bit_loop]. apply Z.eqb_neq in Hnz as Hnz'. rewrite Hnz'.
      assert (Hctz : builtin_ctz mask = lo).
      { destruct mask as [|p|p]; try lia.
        unfold builtin_ctz. destruct (ctz_pos_spec p) as [H1 H2].
        apply Hbits in H1.
        destruct (Nat.lt_ge_cases lo (ctz_pos p)) as [Hlt|Hge]; [|lia].
        apply H2 in Hlt. congruence. }
      rewrite Hctz. cbn [for_each].
      rewrite (IH (S lo) fuel (clear_bit mask lo)).
      * assert (E : bits_from (S lo) n (clear_bit mask lo)
                    = bits_from (S lo) n mask).
        { apply List.filter_ext_in.
          intros j Hj. apply in_seq in Hj. rewrite clear_bit_spec.
          destruct (Nat.eqb_spec lo j); [lia|]. now rewrite andb_true_r. }
        now rewrite E.
      * now apply clear_bit_nonneg.
      * intros j Hj. rewrite clear_bit_spec in Hj.
        apply andb_prop in Hj as [Hj Hne]. apply Hbits in Hj.
        destruct (Nat.eqb_spec lo j); [discriminate|]. lia.
      * lia.
    + apply (IH (S lo) fuel mask Hpos); [|lia].
      intros j Hj. destruct (Nat.eq_dec j lo) as [->|]; [congruence|].
      apply Hbits in Hj. lia.
Qed.

Lemma bits_below_32 mask j :
  0 <= mask < 2 ^ 32 -> Z.testbit mask (Z.of_nat j) = true -> (j < 32)%nat.
Proof.
  intros Hm Hj. destruct (Nat.lt_ge_cases j 32) as [|Hge]; [assumption|].
  rewrite <- (Z.mod_small mask (2 ^ 32)) in Hj by lia.
  rewrite Z.mod_pow2_bits_high in Hj by lia. discriminate.
Qed.

Lemma bit_loop_32 mask body :
  0 <= mask < 2 ^ 32 ->
  bit_loop 32 mask body = for_each (set_bits mask) body.
Proof.
  intros Hm. apply (bit_loop_bits_from body 32 0 32).
  - lia.
  - intros j Hj. apply (bits_below_32 mask j Hm) in Hj. lia.
  - lia.
Qed.

Lemma wrap_u32_range x : 0 <= wrap_u32 x < 2 ^ 32.
Proof. unfold wrap_u32. apply Z.mod_pos_bound. lia. Qed.

Lemma land_range_l a b : 0 <= a < 2 ^ 32 -> 0 <= Z.land a b < 2 ^ 32.
Proof.
  intros Ha. assert (H0 : 0 <= Z.land a b) by (apply Z.land_nonneg; lia).
  split; [exact H0|].
  destruct (Z.eq_dec (Z.land a b) 0) as [->|Hnz]; [lia|].
  apply Z.log2_lt_cancel. rewrite Z.log2_pow2 by lia.
  assert (Hbit : Z.testbit (Z.land a b) (Z.log2 (Z.land a b)) = true)
    by (apply Z.bit_log2; lia).
  rewrite Z.land_spec in Hbit. apply andb_prop in Hbit as [Hbit _].
  pose proof (Z.log2_nonneg (Z.land a b)) as Hl.
  rewrite <- (Z2Nat.id _ Hl) in Hbit.
  apply (bits_below_32 a _ Ha) in Hbit. lia.
Qed.

Lemma land_range_r a b : 0 <= b < 2 ^ 32 -> 0 <= Z.land a b < 2 ^ 32.
Proof. rewrite Z.land_comm. apply land_range_l. Qed.

Lemma trackMask_range s : 0 <= trackMask s < 2 ^ 32.
Proof. apply wrap_u32_range. Qed.

Lemma testbit_trackMask s j :
  (j < 32)%nat ->
  Z.testbit (trackMask s) (Z.of_nat j) = Z.testbit (mTrackMask s) (Z.of_nat j).
Proof.
  intros Hj. unfold trackMask, wrap_u32. apply Z.mod_pow2_bits_low. lia.
Qed.

(** The three sets of slots of a diff, as the specification words them. *)
Definition in_mask (mask : Z) (i : nat) : bool := Z.testbit mask (Z.of_nat i).

Definition removed_slots (previous_mask current_mask : Z) : list nat :=
  List.filter (fun i => in_mask previous_mask i && negb (in_mask current_mask i))
              (seq 0 32).
Definition added_slots (previous_mask current_mask : Z) : list nat :=
  List.filter (fun i => in_mask current_mask i && negb (in_mask previous_mask i))
              (seq 0 32).
Definition modified_slots (previous_mask current_mask : Z) : list nat :=
  List.filter (fun i => in_mask current_mask i && in_mask previous_mask i)
              (seq 0 32).

Lemma testbit_not_u32 x j :
  (j < 32)%nat ->
  Z.testbit (wrap_u32 (Z.lnot x)) (Z.of_nat j) = negb (Z.testbit x (Z.of_nat j)).
Proof.
  intros Hj. unfold wrap_u32.
  rewrite Z.mod_pow2_bits_low by lia. apply Z.lnot_spec. lia.
Qed.

Lemma set_bits_and_not a b :
  set_bits (Z.land a (wrap_u32 (Z.lnot b)))
  = List.filter (fun i => in_mask a i && negb (in_mask b i)) (seq 0 32).
Proof.
  apply List.filter_ext_in. intros j Hj. apply in_seq in Hj.
  unfold in_mask. rewrite Z.land_spec, testbit_not_u32 by lia. reflexivity.
Qed.

Lemma set_bits_and a b :
  set_bits (Z.land a b)
  = List.filter (fun i => in_mask a i && in_mask b i) (seq 0 32).
Proof.
  apply List.filter_ext_in. intros j Hj.
  unfold in_mask. now rewrite Z.land_spec.
Qed.

Lemma seq_below_32 j : In j (seq 0 32) -> (j < 32)%nat.
Proof. intros H. apply in_seq in H. lia. Qed.

(** Only the 32 low bits of a mask count. *)
Lemma removed_slots_trackMask pm s :
  removed_slots pm (trackMask s) = removed_slots pm (mTrackMask s).
Proof.
  apply List.filter_ext_in. intros j Hj. apply seq_below_32 in Hj.
  unfold in_mask. now rewrite testbit_trackMask.
Qed.

Lemma added_slots_trackMask pm s :
  added_slots pm (trackMask s) = added_slots pm (mTrackMask s).
Proof.
  apply List.filter_ext_in. intros j Hj. apply seq_below_32 in Hj.
  unfold in_mask. now rewrite testbit_trackMask.
Qed.

Lemma modified_slots_trackMask pm s :
  modified_slots pm (trackMask s) = modified_slots pm (mTrackMask s).
Proof.
  apply List.filter_ext_in. intros j Hj. apply seq_below_32 in Hj.
  unfold in_mask. now rewrite testbit_trackMask.
Qed.

(** The diff as the specification words it: removed slots, then added
    slots, then slots in both masks, each set in ascending order. *)
Definition track_diff_in_order (ndebug : bool) (cur : FastMixerState)
  (previous_mask : Z) : M unit :=
  g <- gets fastTracksGen ;;
  when (negb (mFastTracksGen cur =? g))
    (b <- gets mixBuffer ;;
     ALOG_ASSERT ndebug (non_null b) ;;;
     for_each (removed_slots previous_mask (mTrackMask cur))
              (removed_track ndebug cur) ;;;
     for_each (added_slots previous_mask (mTrackMask cur))
              (added_track ndebug cur) ;;;
     for_each (modified_slots previous_mask (mTrackMask cur))
              (modified_track ndebug cur) ;;;
     modify (set_fastTracksGen (mFastTracksGen cur)) ;;;
     modify (update_dump (set_mNumTracks (popcount (trackMask cur))))).

Lemma track_diff_refines ndebug cur previous_mask :
  track_diff ndebug cur previous_mask
  = track_diff_in_order ndebug cur previous_mask.
Proof.
  unfold track_diff, track_diff_in_order.
  unfold removed_tracks, added_tracks, modified_tracks. cbv zeta.
  rewrite (bit_loop_32 (Z.land previous_mask _))
    by (apply land_range_r, wrap_u32_range).
  rewrite (bit_loop_32 (Z.land (trackMask cur) (wrap_u32 _)))
    by (apply land_range_l, trackMask_range).
  rewrite (bit_loop_32 (Z.land (trackMask cur) previous_mask))
    by (apply land_range_l, trackMask_range).
  rewrite !set_bits_and_not, set_bits_and.
  rewrite <- (removed_slots_trackMask previous_mask cur),
          <- (added_slots_trackMask previous_mask cur),
          <- (modified_slots_trackMask previous_mask cur).
  unfold removed_slots, added_slots, modified_slots. reflexivity.
Qed.

(** Reading a local back after assignments to a machine given field by
    field. *)
Ltac fields_in H :=
  cbn [previous current preIdle oldTs oldTsValid sleepNs fastTrackNames
     generations outputSink outputSinkGen mixer mixBuffer mixBufferState
     format sampleRate fastTracksGen periodNs underrunNs overrunNs
     dumpState dummyDumpState ignoreNextOverrun coldGen dumpArea nameSupply
     trace set_previous set_current set_preIdle set_oldTs set_oldTsValid
     set_sleepNs set_fastTrackNames set_generations set_outputSink
     set_outputSinkGen set_mixer set_mixBuffer set_mixBufferState
     set_format set_sampleRate set_fastTracksGen set_periodNs
     set_underrunNs set_overrunNs set_dumpState set_dummyDumpState
     set_ignoreNextOverrun set_coldGen set_dumpArea set_nameSupply
     set_trace] in H.

Ltac fields :=
  cbn [previous current preIdle oldTs oldTsValid sleepNs fastTrackNames
     generations outputSink outputSinkGen mixer mixBuffer mixBufferState
     format sampleRate fastTracksGen periodNs underrunNs overrunNs
     dumpState dummyDumpState ignoreNextOverrun coldGen dumpArea nameSupply
     trace set_previous set_current set_preIdle set_oldTs set_oldTsValid
     set_sleepNs set_fastTrackNames set_generations set_outputSink
     set_outputSinkGen set_mixer set_mixBuffer set_mixBufferState
     set_format set_sampleRate set_fastTracksGen set_periodNs
     set_underrunNs set_overrunNs set_dumpState set_dummyDumpState
     set_ignoreNextOverrun set_coldGen set_dumpArea set_nameSupply
     set_trace].

Lemma run_assert {B} ndebug c (k : unit -> M B) m r :
  bind (ALOG_ASSERT ndebug c) k m = Ok r -> k tt m = Ok r.
Proof.
  unfold ALOG_ASSERT. destruct ndebug; [trivial|].
  destruct c; [trivial|discriminate].
Qed.

Lemma slots_3_to_6 :
  removed_slots 3 6 = [0%nat] /\ added_slots 3 6 = [2%nat] /\
  modified_slots 3 6 = [1%nat].
Proof. repeat split; vm_compute; reflexivity. Qed.

Ltac drive H :=
  unfold getTrackName, set_fastTrackName, set_generation in H;
  repeat (first [ rewrite run_assoc in H | rewrite run_modify in H
                | rewrite run_get in H | rewrite run_gets in H
                | rewrite run_ret in H | rewrite run_emit in H
                | apply run_assert in H
                | progress fields_in H
                | progress cbn [when negb non_null] in H ];
          cbv beta in H).

Lemma at_index_insert_ne (l : list Z) i j v :
  i <> j -> at_index (<[i := v]> l) j = at_index l j.
Proof. intros H. unfold at_index. now rewrite list_lookup_insert_ne. Qed.

Lemma fastTrackNames_update_dump f m :
  fastTrackNames (update_dump f m) = fastTrackNames m.
Proof. destruct m. unfold update_dump. cbn. now destruct dumpState0. Qed.

Lemma generations_update_dump f m :
  generations (update_dump f m) = generations m.
Proof. destruct m. unfold update_dump. cbn. now destruct dumpState0. Qed.

Lemma track_diff_swap ndebug cur (m : Machine) m' :
  mTrackMask cur = 6 ->
  mFastTracksGen cur <> fastTracksGen m ->
  mixer m = true ->
  mGeneration (fastTrack_at cur 1) = at_index (generations m) 1 ->
  track_diff_in_order ndebug cur 3 m = Ok (tt, m') ->
  let name := match nameSupply m with [] => -1 | n :: _ => n end in
  new_events m m'
  = [EvDeleteTrackName (at_index (fastTrackNames m) 0);
     EvGetTrackName name;
     EvSetBufferProvider name (mBufferProvider (fastTrack_at cur 2));
     EvSetMainBuffer name;
     EvEnable name] /\
  fastTrackNames m' !! 1%nat = fastTrackNames m !! 1%nat /\
  generations m' !! 1%nat = generations m !! 1%nat.
Proof.
  intros Hmask Hgen Hmixer Hslot1 H.
  unfold track_diff_in_order in H. rewrite Hmask in H.
  destruct slots_3_to_6 as (S1 & S2 & S3). rewrite S1, S2, S3 in H.
  apply Z.eqb_neq in Hgen.
  destruct m. fields_in Hgen. fields_in Hmixer. fields_in Hslot1. fields.
  subst mixer0.
  rewrite run_gets in H. fields_in H. rewrite Hgen in H.
  cbn [negb when for_each] in H.
  unfold removed_track, added_track, modified_track in H.
  destruct ndebug; drive H;
    rewrite !at_index_insert_ne in H by lia;
    rewrite <- Hslot1, Z.eqb_refl in H; drive H;
    unfold modify in H; injection H as <-;
    (split; [apply new_events_app; rewrite trace_update_dump; fields;
             rewrite <- !app_assoc; reflexivity|]);
    rewrite fastTrackNames_update_dump, generations_update_dump; fields;
    rewrite !list_lookup_insert_ne by lia; split; reflexivity.
Qed.

Lemma run_assert_release {B} c (k : unit -> M B) m :
  bind (ALOG_ASSERT true c) k m = k tt m.
Proof. reflexivity. Qed.

Ltac drive_goal :=
  unfold getTrackName, set_fastTrackName, set_generation;
  repeat (first [ rewrite run_assoc | rewrite run_modify
                | rewrite run_get | rewrite run_gets
                | rewrite run_ret | rewrite run_emit
                | rewrite run_assert_release
                | progress fields
                | progress cbn [when negb non_null] ];
          cbv beta).

Lemma track_diff_swap_returns cur (m : Machine) :
  mTrackMask cur = 6 ->
  mFastTracksGen cur <> fastTracksGen m ->
  mixer m = true ->
  mGeneration (fastTrack_at cur 1) = at_index (generations m) 1 ->
  exists m', track_diff_in_order true cur 3 m = Ok (tt, m').
Proof.
  intros Hmask Hgen Hmixer Hslot1.
  unfold track_diff_in_order. rewrite Hmask.
  destruct slots_3_to_6 as (S1 & S2 & S3). rewrite S1, S2, S3.
  apply Z.eqb_neq in Hgen.
  destruct m. fields_in Hgen. fields_in Hmixer. fields_in Hslot1.
  subst mixer0.
  rewrite run_gets. fields. rewrite Hgen.
  cbn [negb when for_each].
  unfold removed_track, added_track, modified_track.
  drive_goal.
  rewrite !at_index_insert_ne by lia.
  rewrite <- Hslot1, Z.eqb_refl. drive_goal.
  unfold modify. eexists. reflexivity.
Qed.

(** C2: a track diff is the three loops in the order removed, added,
    modified, where removed are the slots of the previous mask missing from
    the current one (the handle of each is deleted), added the slots of the
    current mask missing from the previous one (a handle is allocated, bound
    to the buffer provider and the mix buffer, and enabled) and modified the
    slots in both (acted on when the generation of the slot differs from the
    stored one).  In particular from mask 0b0011 to mask 0b0110, with an
    engine and slot 1 at its stored generation, the diff returns in a release
    build, and whenever it returns the handle of slot 0 is deleted, then a
    handle is allocated for slot 2, and the handle and the generation of
    slot 1 are as before. *)
Theorem track_diff_order ndebug cur previous_mask (m : Machine) :
  track_diff ndebug cur previous_mask m
    = track_diff_in_order ndebug cur previous_mask m /\
  (previous_mask = 3 -> mTrackMask cur = 6 ->
   mFastTracksGen cur <> fastTracksGen m ->
   mixer m = true ->
   mGeneration (fastTrack_at cur 1) = at_index (generations m) 1 ->
   (ndebug = true ->
    exists m', track_diff ndebug cur previous_mask m = Ok (tt, m')) /\
   forall m',
     track_diff ndebug cur previous_mask m = Ok (tt, m') ->
     let name := match nameSupply m with [] => -1 | n :: _ => n end in
     new_events m m'
     = [EvDeleteTrackName (at_index (fastTrackNames m) 0);
        EvGetTrackName name;
        EvSetBufferProvider name (mBufferProvider (fastTrack_at cur 2));
        EvSetMainBuffer name;
        EvEnable name] /\
     fastTrackNames m' !! 1%nat = fastTrackNames m !! 1%nat /\
     generations m' !! 1%nat = generations m !! 1%nat).
Proof.
  rewrite (track_diff_refines ndebug cur previous_mask).
  split; [reflexivity|].
  intros -> Hmask Hgen Hmixer Hslot1. split.
  - intros ->. now apply track_diff_swap_returns.
  - intros m' H. now apply (track_diff_swap ndebug cur m m').
Qed.

(** Two tracks in slots 0 and 1, then the track of slot 0 swapped for one in
    slot 2. *)
Definition track_table (tracks : list FastTrack) : list FastTrack :=
  tracks ++ replicate (kMaxFastTracks - length tracks) default_FastTrack.

Definition two_tracks : FastMixerState :=
  mkFastMixerState
    (track_table [mkFastTrack (Some 10%nat) None 1;
                  mkFastTrack (Some 11%nat) (Some 5%nat) 1])
    1 3 (Some 0%nat) 1 192 MIX_WRITE None 0 None.

Definition swapped_tracks : FastMixerState :=
  mkFastMixerState
    (track_table [mkFastTrack None None 2;
                  mkFastTrack (Some 11%nat) (Some 5%nat) 1;
                  mkFastTrack (Some 12%nat) None 1])
    2 6 (Some 0%nat) 1 192 MIX_WRITE None 0 None.

(** The worker after its first cycle on [two_tracks], the engine having
    handed out the names 0 and 1; it will next hand out 0 again. *)
Definition m_two_tracks : Machine :=
  Eval vm_compute in
    set_nameSupply [0]
      (after_cycle (fun _ => two_tracks)
         (mkEnv (Some 0%nat) 0 (fun _ => Format_PCM 48000 2) [0; 1]
                (fun _ => 0) 192 (Some (1, 0)))
         machine0).

Lemma track_diff_order_swap :
  exists m',
    track_diff true swapped_tracks 3 m_two_tracks = Ok (tt, m') /\
    new_events m_two_tracks m'
    = [EvDeleteTrackName 0; EvGetTrackName 0;
       EvSetBufferProvider 0 (Some 12%nat); EvSetMainBuffer 0; EvEnable 0] /\
    fastTrackNames m' !! 1%nat = Some 1 /\
    generations m' !! 1%nat = Some 1.
Proof.
  destruct (track_diff_order true swapped_tracks 3 m_two_tracks)
    as [_ Hswap].
  destruct Hswap as [Hret Hev];
    [reflexivity|reflexivity|vm_compute; congruence|reflexivity|reflexivity|].
  destruct (Hret eq_refl) as [m' Hm']. exists m'.
  split; [exact Hm'|]. exact (Hev m' Hm').
Defined.

(** ** What a cycle leaves alone *)

(** The state pointers and the copy they may point at. *)
Definition refs_kept (m m' : Machine) : Prop :=
  previous m' = previous m /\ current m' = current m /\
  preIdle m' = preIdle m.

#[local] Instance refs_kept_preorder : PreOrder refs_kept.
Proof.
  split; [intros m; repeat split|].
  intros a b c (H1 & H2 & H3) (H4 & H5 & H6). repeat split; congruence.
Qed.

(** The engine, the buffer, and the format they were made for. *)
Definition engine_kept (m m' : Machine) : Prop :=
  mixer m' = mixer m /\ format m' = format m /\ sampleRate m' = sampleRate m.

(** The buffer is there or not, as before. *)
Definition null_kept (m m' : Machine) : Prop :=
  non_null (mixBuffer m') = non_null (mixBuffer m).

#[local] Instance null_kept_preorder : PreOrder null_kept.
Proof.
  split; [intros m; reflexivity|].
  intros a b c H1 H2. unfold null_kept in *. congruence.
Qed.

Lemma null_kept_update_dump f m : null_kept m (update_dump f m).
Proof. destruct m. unfold update_dump, null_kept. cbn. now destruct dumpState0. Qed.

#[local] Instance engine_kept_preorder : PreOrder engine_kept.
Proof.
  split; [intros m; repeat split|].
  intros a b c (H1 & H2 & H3) (H5 & H6 & H7).
  repeat split; congruence.
Qed.

(** What has been applied of the states seen so far. *)
Definition applied_kept (m m' : Machine) : Prop :=
  dumpState m' = dumpState m /\
  generations m' = generations m /\
  fastTrackNames m' = fastTrackNames m /\
  fastTracksGen m' = fastTracksGen m /\
  outputSinkGen m' = outputSinkGen m /\
  outputSink m' = outputSink m /\
  coldGen m' = coldGen m.

#[local] Instance applied_kept_preorder : PreOrder applied_kept.
Proof.
  split; [intros m; repeat split|].
  intros a b c (H1 & H2 & H3 & H4 & H5 & H6 & H7)
               (G1 & G2 & G3 & G4 & G5 & G6 & G7).
  repeat split; congruence.
Qed.

Lemma refs_kept_update_dump f m : refs_kept m (update_dump f m).
Proof. destruct m. unfold update_dump. cbn. now destruct dumpState0. Qed.

Lemma engine_kept_update_dump f m : engine_kept m (update_dump f m).
Proof. destruct m. unfold update_dump. cbn. now destruct dumpState0. Qed.

Lemma applied_kept_update_dump f m : applied_kept m (update_dump f m).
Proof. destruct m. unfold update_dump. cbn. now destruct dumpState0. Qed.

Ltac refs_side :=
  intros m_; first [ apply refs_kept_update_dump | now destruct m_ ].
Ltac engine_side :=
  intros m_; first [ apply engine_kept_update_dump | now destruct m_ ].
Ltac null_side :=
  intros m_;
  first [ apply null_kept_update_dump
        | now destruct m_
        | destruct m_; unfold null_kept; cbn;
          match goal with
          | |- context [match ?b with _ => _ end] => now destruct b
          end ].
Ltac applied_side :=
  intros m_; first [ apply applied_kept_update_dump | now destruct m_ ].

Lemma do_sleep_kept ndebug :
  steps (rel_and refs_kept (rel_and engine_kept applied_kept))
        (do_sleep ndebug).
Proof.
  unfold_phases. steps_auto;
    (intros m_; split; [|split]; revert m_;
     [refs_side|engine_side|applied_side]).
Qed.

Lemma after_state_change_kept ndebug env command cur :
  steps (rel_and refs_kept (rel_and engine_kept applied_kept))
        (mix_step ndebug env command cur ;;;
         write_step env command cur ;;;
         timing env).
Proof.
  unfold_phases. steps_auto;
    (intros m_; split; [|split]; revert m_;
     [refs_side|engine_side|applied_side]).
Qed.

(** [poll_state] either finds nothing new, and only records the command in
    the dump area, or adopts the state that [poll] returned. *)
Lemma poll_state_cases ndebug sq env m command m' :
  poll_state ndebug sq env m = Ok (command, m') ->
  (command = mCommand (deref sq m (current m)) /\
   m' = update_dump (set_dCommand command) m /\
   (sq_poll env = None
    \/ exists k, sq_poll env = Some k /\ current m = RefQueue k)) \/
  (exists k, sq_poll env = Some k /\ current m <> RefQueue k /\
             current m' = RefQueue k).
Proof.
  unfold poll_state. rewrite !run_gets. intros H.
  apply bind_inv in H as (next & m0 & Hnext & H).
  assert (Hm0 : m0 = m /\
                (next = current m /\ sq_poll env = None
                 \/ exists k, next = RefQueue k /\ sq_poll env = Some k)).
  { destruct (sq_poll env) as [k|].
    - injection Hnext as <- <-. split; [reflexivity|right; now exists k].
    - apply bind_inv in Hnext as ([] & m1 & Ha & Hr).
      injection Hr as <- <-. split; [|now left].
      unfold ALOG_ASSERT in Ha. destruct ndebug; [now injection Ha|].
      destruct (_ && _); [now injection Ha|discriminate]. }
  destruct Hm0 as [-> Hnext'].
  rewrite run_get in H.
  apply bind_inv in H as ([] & m1 & Hchange & H).
  apply bind_inv in H as ([] & m2 & Hdump & Hret).
  injection Hret as <- <-. injection Hdump as <-.
  destruct (StateRef_eqb next (current m)) eqn:E; cbn [negb when] in Hchange.
  - injection Hchange as <-. apply StateRef_eqb_eq in E. subst next.
    left. split; [reflexivity|]. split; [reflexivity|].
    destruct Hnext' as [[_ Hn]|(k & Hk & Hp)]; [now left|].
    right. now exists k.
  - right. destruct Hnext' as [[-> _]|(k & -> & Hp)].
    { assert (F : StateRef_eqb (current m) (current m) = true)
        by (now apply StateRef_eqb_eq).
      congruence. }
    exists k. split; [exact Hp|]. split.
    + intros Hc. rewrite Hc in E.
      assert (F : StateRef_eqb (RefQueue k) (RefQueue k) = true)
        by (now apply StateRef_eqb_eq).
      congruence.
    + apply bind_inv in Hchange as ([] & m3 & H3 & Hchange).
      apply bind_inv in Hchange as ([] & m4 & H4 & H5).
      injection H5 as <-.
      destruct (current_kept_update_dump
                  (set_dCommand (mCommand (deref sq m (RefQueue k))))
                  (set_current (RefQueue k) m4)) as [-> _].
      now destruct m4.
Qed.

(** Where the [switch] sends each command. *)
Lemma dispatch_flow ndebug sq env command m flow m' :
  dispatch ndebug sq env command m = Ok (flow, m') ->
  match flow with
  | Work => m' = m /\ command <> INITIAL /\ command <> HOT_IDLE /\
            command <> COLD_IDLE /\ command <> EXIT
  | Continue => command = INITIAL \/ command = HOT_IDLE \/ command = COLD_IDLE
  | Return => command = EXIT
  end.
Proof.
  unfold dispatch.
  destruct (Z.eqb_spec command INITIAL) as [->|H1]; cbn [orb].
  { intros H. apply bind_inv in H as ([] & m1 & _ & Hr).
    injection Hr as <- _. now left. }
  destruct (Z.eqb_spec command HOT_IDLE) as [->|H2].
  { intros H. apply bind_inv in H as ([] & m1 & _ & Hr).
    injection Hr as <- _. right. now left. }
  destruct (Z.eqb_spec command COLD_IDLE) as [->|H3].
  { intros H. apply bind_inv in H as ([] & m1 & _ & Hr).
    injection Hr as <- _. right. now right. }
  destruct (Z.eqb_spec command EXIT) as [->|H4].
  { intros H. peel H. injection H as <- _. reflexivity. }
  destruct ((command =? MIX) || (command =? WRITE) || (command =? MIX_WRITE)).
  - intros H. injection H as <- <-. auto.
  - intros H. apply bind_inv in H as ([] & m1 & Hf & Hr).
    injection Hr as <- <-.
    unfold LOG_FATAL in Hf. destruct ndebug; [|discriminate].
    injection Hf as <-. auto.
Qed.

Lemma dispatch_refs_kept ndebug sq env command :
  steps (rel_and refs_kept (rel_and engine_kept null_kept))
        (dispatch ndebug sq env command).
Proof.
  unfold_phases. steps_auto;
    (intros m_; split; [|split]; revert m_;
     [refs_side|engine_side|null_side]).
Qed.

(** The state change ends with [previous] equal to [current]. *)
Lemma state_change_refs ndebug sq env m m' :
  state_change ndebug sq env m = Ok (tt, m') ->
  previous m' = current m /\ current m' = current m /\
  preIdle m' = preIdle m.
Proof.
  unfold state_change. rewrite run_get.
  destruct (StateRef_eqb (current m) (previous m)) eqn:E; cbn [negb when].
  - intros H. injection H as <-. apply StateRef_eqb_eq in E.
    repeat split. congruence.
  - intros H.
    apply bind_inv in H as ([] & m1 & H1 & H).
    apply bind_inv in H as (mask & m2 & H2 & H).
    apply bind_inv in H as ([] & m3 & H3 & H4).
    injection H4 as <-.
    by_steps refs_kept H1 refs_side.
    by_steps refs_kept H2 refs_side.
    by_steps refs_kept H3 refs_side.
    destruct H1 as (A1 & A2 & A3), H2 as (B1 & B2 & B3),
             H3 as (C1 & C2 & C3).
    destruct m3; cbn in *. repeat split; congruence.
Qed.

Lemma work_refs ndebug sq env command m m' :
  work ndebug sq env command m = Ok (tt, m') ->
  previous m' = current m /\ current m' = current m /\
  preIdle m' = preIdle m.
Proof.
  intros H. apply work_inv in H as (m1 & m2 & m3 & H1 & H2 & H3 & H4).
  apply state_change_refs in H1 as (A1 & A2 & A3).
  assert (K : refs_kept m1 m').
  { apply (after_state_change_kept ndebug env command
             (deref sq m1 (current m1)) m1 tt m').
    rewrite (bind_Ok _ _ _ _ _ H2). now rewrite (bind_Ok _ _ _ _ _ H3). }
  destruct K as (B1 & B2 & B3). repeat split; congruence.
Qed.

(** The invariant of the loop on its state pointers: [current] never
    points at the copy; a COLD_IDLE state has had its generation stored; and
    a state that calls for work has been made [previous]. *)
Definition pinned (sq : nat -> FastMixerState) (m : Machine) : Prop :=
  current m <> RefPreIdle /\
  (mCommand (deref sq m (current m)) = COLD_IDLE ->
   coldGen m = mColdGen (deref sq m (current m))) /\
  (mCommand (deref sq m (current m)) = INITIAL \/
   mCommand (deref sq m (current m)) = HOT_IDLE \/
   mCommand (deref sq m (current m)) = COLD_IDLE \/
   previous m = current m).

Lemma deref_not_preIdle sq m m' r :
  r <> RefPreIdle -> deref sq m' r = deref sq m r.
Proof. intros H. now destruct r. Qed.

Lemma dispatch_cold_idle_or_kept ndebug sq env command m flow m' :
  dispatch ndebug sq env command m = Ok (flow, m') ->
  refs_kept m m' /\
  (command = COLD_IDLE -> coldGen m' = mColdGen (deref sq m (current m))).
Proof.
  intros H. split.
  - now apply dispatch_refs_kept in H as [K _].
  - intros ->. now apply dispatch_cold_idle in H as (_ & _ & G & _).
Qed.

(** A cycle, phase by phase. *)
Lemma cycle_phases ndebug sq env m c m' :
  cycle ndebug sq env m = Ok (c, m') ->
  exists m2 command m3 flow m4,
    do_sleep ndebug (set_nameSupply (track_names env) m) = Ok (tt, m2) /\
    poll_state ndebug sq env m2 = Ok (command, m3) /\
    dispatch ndebug sq env command m3 = Ok (flow, m4) /\
    match flow with
    | Work => work ndebug sq env command m4 = Ok (tt, m') /\ c = true
    | Continue => m' = m4 /\ c = true
    | Return => m' = m4 /\ c = false
    end.
Proof.
  unfold cycle. rewrite run_modify. intros H.
  apply bind_inv in H as ([] & m2 & H2 & H).
  apply bind_inv in H as (command & m3 & H3 & H).
  apply bind_inv in H as (flow & m4 & H4 & H).
  exists m2, command, m3, flow, m4. repeat split; try assumption.
  destruct flow.
  - apply bind_inv in H as ([] & m5 & H5 & H6). injection H6 as <- <-.
    now split.
  - injection H as <- <-. now split.
  - injection H as <- <-. now split.
Qed.

Lemma sleep_kept ndebug env m m2 :
  do_sleep ndebug (set_nameSupply (track_names env) m) = Ok (tt, m2) ->
  refs_kept m m2 /\ engine_kept m m2 /\ applied_kept m m2 /\
  null_kept m m2 /\ dump_of m2 = dump_of m.
Proof.
  intros H.
  assert (K : rel_and refs_kept (rel_and engine_kept applied_kept)
                (set_nameSupply (track_names env) m) m2)
    by (now apply do_sleep_kept in H).
  assert (N : null_kept (set_nameSupply (track_names env) m) m2)
    by (by_steps null_kept H null_side; exact H).
  assert (D : rel_and same_binding (keeps (fun d => d))
                (set_nameSupply (track_names env) m) m2).
  { by_steps (rel_and same_binding (keeps (fun d => d))) H
      ltac:(intros m_; split; [revert m_; binding_side|revert m_; keeps_side]).
    exact H. }
  destruct K as [(A1 & A2 & A3) [(B1 & B2 & B3) C]].
  destruct D as [D1 D2].
  split; [now destruct m|]. split; [now destruct m|].
  split; [now destruct m|]. split; [now destruct m|].
  rewrite !dump_of_dump_at, D1, D2. now destruct m.
Qed.

Lemma cycle_pinned ndebug sq env m m' :
  pinned sq m ->
  cycle ndebug sq env m = Ok (true, m') ->
  pinned sq m'.
Proof.
  intros (I1 & I2 & I3) H.
  apply cycle_phases in H
    as (m2 & command & m3 & flow & m4 & H2 & H3 & H4 & Hflow).
  apply sleep_kept in H2 as ((_ & Hc2 & _) & _).
  pose proof (poll_state_command _ _ _ _ _ _ H3) as Hcmd.
  assert (Hc3 : current m3 <> RefPreIdle).
  { apply poll_state_cases in H3 as [(_ & -> & _)|(k & _ & _ & ->)];
      [|discriminate].
    destruct (current_kept_update_dump (set_dCommand command) m2) as [-> _].
    congruence. }
  pose proof (dispatch_flow _ _ _ _ _ _ _ H4) as Hfl.
  apply dispatch_cold_idle_or_kept in H4 as Hd.
  destruct flow.
  - destruct Hflow as [Hw _]. destruct Hfl as (-> & N1 & N2 & N3 & N4).
    apply work_refs in Hw as (W1 & W2 & W3).
    assert (E : deref sq m' (current m') = deref sq m3 (current m3))
      by (rewrite W2; now apply deref_same_preIdle).
    unfold pinned. rewrite E, <- Hcmd.
    split; [congruence|]. split; [intros; contradiction|].
    right. right. right. congruence.
  - destruct Hflow as [-> _]. destruct Hd as ((_ & D2 & D3) & Hcold).
    assert (E : deref sq m4 (current m4) = deref sq m3 (current m3))
      by (rewrite D2; now apply deref_same_preIdle).
    unfold pinned. rewrite E, <- Hcmd.
    split; [congruence|]. split; [exact Hcold|]. tauto.
  - destruct Hflow as [_ Hf]. discriminate.
Qed.

Lemma reachable_pinned ndebug sq areas envs m :
  run ndebug sq envs (init_machine areas) = Ok (Some m) ->
  pinned sq m.
Proof.
  apply (run_invariant ndebug sq (pinned sq)).
  - intros env m0 m' Inv H. exact (cycle_pinned _ _ _ _ _ Inv H).
  - split; [discriminate|]. split; [discriminate|]. now left.
Qed.

(** ** A poll that finds nothing new (lines 86-98) *)

Lemma dCommand_kept_after_poll ndebug sq env command :
  steps (rel_and same_binding (keeps dCommand))
        (flow <- dispatch ndebug sq env command ;;
         match flow with
         | Work => work ndebug sq env command ;;; ret true
         | Continue => ret true
         | Return => ret false
         end).
Proof.
  unfold_phases. steps_auto;
    (intros m_; split; [revert m_; binding_side|revert m_; keeps_side]).
Qed.

Lemma dispatch_applied_kept ndebug sq env command m flow m' :
  dispatch ndebug sq env command m = Ok (flow, m') ->
  (command = COLD_IDLE ->
   mColdGen (deref sq m (current m)) = coldGen m) ->
  applied_kept m m'.
Proof.
  intros H Hcold.
  destruct (Z.eqb_spec command COLD_IDLE) as [->|Hne].
  - specialize (Hcold eq_refl).
    change (dispatch ndebug sq env COLD_IDLE)
      with (cold_idle sq env ;;; ret (A := Flow) Continue) in H.
    apply bind_inv in H as ([] & m1 & H & Hret).
    injection Hret as _ <-.
    unfold cold_idle in H. rewrite run_get in H.
    apply Z.eqb_eq in Hcold. rewrite Hcold in H. cbn [negb] in H.
    injection H as <-. now destruct m.
  - unfold dispatch in H. apply Z.eqb_neq in Hne. rewrite Hne in H.
    by_steps applied_kept H applied_side. exact H.
Qed.

(** Nothing applied changes in a cycle whose poll finds nothing new. *)
(** [poll] has nothing new: it returns NULL, or the state that is already
    [current]. *)
Definition nothing_new_poll (env : Env) (m : Machine) : Prop :=
  sq_poll env = None \/
  exists k, sq_poll env = Some k /\ current m = RefQueue k.

Lemma poll_state_nothing_new ndebug sq env m command m' :
  nothing_new_poll env m ->
  poll_state ndebug sq env m = Ok (command, m') ->
  command = mCommand (deref sq m (current m)) /\
  m' = update_dump (set_dCommand command) m.
Proof.
  intros Hnew H.
  apply poll_state_cases in H as [(Hc & Hm & _)|(k & Hk & Hne & _)];
    [now split|].
  exfalso. destruct Hnew as [Hn|(k' & Hk' & Hcur)]; congruence.
Qed.

Lemma nothing_new_kept ndebug sq env m c m' :
  pinned sq m ->
  nothing_new_poll env m ->
  cycle ndebug sq env m = Ok (c, m') ->
  current m' = current m /\ previous m' = previous m /\
  applied_kept m m' /\
  dCommand (dump_of m') = mCommand (deref sq m (current m)).
Proof.
  intros (I1 & I2 & I3) Hnone H.
  assert (Hd : exists m3,
             dCommand (dump_of m3) = mCommand (deref sq m (current m)) /\
             rel_and same_binding (keeps dCommand) m3 m').
  { unfold cycle in H. rewrite run_modify in H.
    apply bind_inv in H as ([] & m2 & H2 & H).
    apply bind_inv in H as (command & m3 & H3 & H).
    apply sleep_kept in H2 as ((_ & Hc2 & Hp2) & _).
    apply dCommand_kept_after_poll in H. exists m3. split; [|exact H].
    apply poll_state_nothing_new in H3 as [-> ->];
      [|unfold nothing_new_poll in *; now rewrite Hc2].
    rewrite dump_of_update_dump. cbn. rewrite Hc2.
    f_equal. now apply deref_same_preIdle. }
  destruct Hd as (m3' & Hdc & [Hb Hk]).
  apply cycle_phases in H
    as (m2 & command & m3 & flow & m4 & H2 & H3 & H4 & Hflow).
  apply sleep_kept in H2 as ((P2 & C2 & R2) & _ & A2 & _).
  apply poll_state_nothing_new in H3 as [Hcmd ->];
    [|unfold nothing_new_poll in *; now rewrite C2].
  assert (E2 : deref sq m2 (current m2) = deref sq m (current m))
    by (rewrite C2; now apply deref_same_preIdle).
  rewrite E2 in Hcmd.
  set (m3 := update_dump (set_dCommand command) m2) in *.
  assert (R3 : refs_kept m2 m3) by apply refs_kept_update_dump.
  assert (A3 : applied_kept m2 m3) by apply applied_kept_update_dump.
  destruct R3 as (P3 & C3 & R3).
  assert (E3 : deref sq m3 (current m3) = deref sq m (current m)).
  { rewrite C3, C2. apply deref_same_preIdle. congruence. }
  assert (G3 : coldGen m3 = coldGen m).
  { destruct A3 as (_ & _ & _ & _ & _ & _ & G).
    destruct A2 as (_ & _ & _ & _ & _ & _ & G2). congruence. }
  pose proof (dispatch_flow _ _ _ _ _ _ _ H4) as Hfl.
  pose proof (dispatch_refs_kept _ _ _ _ _ _ _ H4) as [(P4 & C4 & R4) _].
  apply dispatch_applied_kept in H4 as A4;
    [|intros Hc; rewrite E3, G3; symmetry; apply I2; congruence].
  assert (A : applied_kept m m4)
    by (transitivity m2; [exact A2|]; transitivity m3; assumption).
  assert (Hdump : dCommand (dump_of m') = mCommand (deref sq m (current m))).
  { rewrite dump_of_dump_at, Hb, Hk, <- dump_of_dump_at. exact Hdc. }
  destruct flow.
  - destruct Hflow as [Hw _]. destruct Hfl as (-> & N1 & N2 & N3 & N4).
    assert (Hpc : previous m3 = current m3).
    { destruct I3 as [I|[I|[I|I]]]; try congruence. }
    apply work_inv in Hw as (w1 & w2 & w3 & W1 & W2 & W3 & W4).
    unfold state_change in W1. rewrite run_get in W1.
    assert (F : StateRef_eqb (current m3) (previous m3) = true)
      by (apply StateRef_eqb_eq; congruence).
    rewrite F in W1. cbn [negb when] in W1. injection W1 as <-.
    assert (K : rel_and refs_kept (rel_and engine_kept applied_kept) m3 m').
    { apply (after_state_change_kept ndebug env command
               (deref sq m3 (current m3)) m3 tt m').
      rewrite (bind_Ok _ _ _ _ _ W2). now rewrite (bind_Ok _ _ _ _ _ W3). }
    destruct K as [(K1 & K2 & K3) [_ K4]].
    split; [congruence|]. split; [congruence|].
    split; [transitivity m3; assumption|exact Hdump].
  - destruct Hflow as [-> _].
    split; [congruence|]. split; [congruence|]. split; assumption.
  - destruct Hflow as [-> _].
    split; [congruence|]. split; [congruence|]. split; assumption.
Qed.

(** ** Before any state is published (lines 36-70, 86-98) *)

Definition is_nanosleep (e : Event) : Prop :=
  match e with EvNanosleep _ => True | _ => False end.

(** The worker as long as [poll] has never returned a state. *)
Definition hot_idling (m : Machine) : Prop :=
  current m = RefInitial /\ previous m = RefInitial /\
  (sleepNs m = -1 \/ sleepNs m = FAST_HOT_IDLE_NS) /\
  mixer m = false /\ mixBuffer m = None /\ outputSink m = None /\
  Forall is_nanosleep (trace m).

Lemma run_assert_true {B} ndebug (k : unit -> M B) m :
  bind (ALOG_ASSERT ndebug true) k m = k tt m.
Proof. now destruct ndebug. Qed.

Lemma hot_idle_cycle ndebug sq env m :
  hot_idling m ->
  sq_poll env = None ->
  exists m',
    cycle ndebug sq env m = Ok (true, m') /\
    hot_idling m' /\ sleepNs m' = FAST_HOT_IDLE_NS /\
    dCommand (dump_of m') = INITIAL /\
    new_events m m'
    = if sleepNs m =? -1 then [] else [EvNanosleep FAST_HOT_IDLE_NS].
Proof.
  intros (Hc & Hp & Hs & Hm & Hb & Ho & Ht) Hnone.
  destruct m. fields_in Hc. fields_in Hp. fields_in Hs. fields_in Hm.
  fields_in Hb. fields_in Ho. fields_in Ht. subst.
  unfold cycle, do_sleep, poll_state, dispatch. rewrite Hnone.
  destruct Hs as [-> | ->].
  - drive_goal. change (0 <=? -1) with false. drive_goal.
    cbn [StateRef_eqb andb]. rewrite run_assert_true. drive_goal.
    cbn [StateRef_eqb deref initial mCommand]. drive_goal.
    change ((INITIAL =? INITIAL) || (INITIAL =? HOT_IDLE)) with true.
    cbv iota. drive_goal. unfold ret.
    eexists. split; [reflexivity|].
    destruct dumpState0; unfold hot_idling, update_dump, dump_of; cbn;
      rewrite ?Nat.eqb_refl; cbn;
      (split; [auto 10|]); (split; [reflexivity|]); (split; [reflexivity|]);
      apply drop_all.
  - drive_goal. change (0 <=? FAST_HOT_IDLE_NS) with true.
    change (0 <? FAST_HOT_IDLE_NS) with true.
    change (FAST_HOT_IDLE_NS <? 1000000000) with true. cbv iota.
    drive_goal. rewrite run_assert_true. drive_goal.
    cbn [StateRef_eqb andb]. rewrite run_assert_true. drive_goal.
    cbn [StateRef_eqb deref initial mCommand]. drive_goal.
    change ((INITIAL =? INITIAL) || (INITIAL =? HOT_IDLE)) with true.
    cbv iota. drive_goal. unfold ret.
    eexists. split; [reflexivity|].
    assert (Ht' : Forall is_nanosleep (trace0 ++ [EvNanosleep FAST_HOT_IDLE_NS]))
      by (apply Forall_app; split; [exact Ht|repeat constructor]).
    destruct dumpState0; unfold hot_idling, update_dump, dump_of; cbn;
      rewrite ?Nat.eqb_refl; cbn;
      (split; [auto 10|]); (split; [reflexivity|]); (split; [reflexivity|]);
      apply drop_app_length.
Qed.

Lemma hot_idle_run ndebug sq envs :
  Forall (fun env => sq_poll env = None) envs ->
  forall m, hot_idling m ->
  exists m', run ndebug sq envs m = Ok (Some m') /\ hot_idling m'.
Proof.
  induction 1 as [|env envs Hnone _ IH]; intros m Hm.
  - exists m. now split.
  - destruct (hot_idle_cycle ndebug sq env m Hm Hnone)
      as (m1 & Hrun & Hm1 & _).
    destruct (IH m1 Hm1) as (m' & Hrest & Hm').
    exists m'. split; [|exact Hm']. rewrite run_cons, Hrun. exact Hrest.
Qed.

(** C10: in a cycle whose poll has nothing new (it returns NULL, or the
    state that is [current] already), [current], [previous], the dump
    area in use and everything applied so far (the generations of the
    tracks, of the track table, of the sink and of the cold idle) are left
    as they are, and the command run is that of the current state, as
    recorded in the dump area.  And as long as no state has been published,
    every cycle returns and the worker stays on the built-in initial state,
    whose command is INITIAL: it has no engine, no buffer and no sink, and
    has called nothing but [nanosleep]. *)
Theorem nothing_new ndebug sq areas :
  (forall envs env (m : Machine) c m',
      run ndebug sq envs (init_machine areas) = Ok (Some m) ->
      nothing_new_poll env m ->
      cycle ndebug sq env m = Ok (c, m') ->
      current m' = current m /\ previous m' = previous m /\
      applied_kept m m' /\
      dCommand (dump_of m') = mCommand (deref sq m (current m))) /\
  (forall envs,
      Forall (fun env => sq_poll env = None) envs ->
      exists m,
        run ndebug sq envs (init_machine areas) = Ok (Some m) /\
        hot_idling m /\
        mCommand (deref sq m (current m)) = INITIAL).
Proof.
  split.
  - intros envs env m c m' Hreach Hnone H.
    apply reachable_pinned in Hreach.
    exact (nothing_new_kept _ _ _ _ _ _ Hreach Hnone H).
  - intros envs Hnone.
    destruct (hot_idle_run ndebug sq envs Hnone (init_machine areas))
      as (m & Hrun & Hm).
    { unfold hot_idling. cbn. repeat split; auto. }
    exists m. split; [exact Hrun|]. split; [exact Hm|].
    destruct Hm as (-> & _). reflexivity.
Qed.

(** Two polls with nothing published, in a debug build; then a third. *)
Definition nothing_yet : Env :=
  mkEnv None 0 (fun _ => Format_Invalid) [] (fun _ => 0) 0 None.

Lemma nothing_new_at_start :
  (exists m,
      run false mixing_192 [nothing_yet; nothing_yet] machine0 = Ok (Some m) /\
      hot_idling m /\
      mCommand (deref mixing_192 m (current m)) = INITIAL) /\
  (forall m c m',
      run false mixing_192 [nothing_yet; nothing_yet] machine0 = Ok (Some m) ->
      cycle false mixing_192 nothing_yet m = Ok (c, m') ->
      current m' = current m /\ previous m' = previous m /\
      applied_kept m m' /\
      dCommand (dump_of m') = mCommand (deref mixing_192 m (current m))).
Proof.
  destruct (nothing_new false mixing_192 no_dump_areas) as [Hkept Hidle].
  split.
  - apply (Hidle [nothing_yet; nothing_yet]). repeat constructor.
  - intros m c m' Hreach H.
    exact (Hkept [nothing_yet; nothing_yet] nothing_yet m c m' Hreach
                 (or_introl eq_refl) H).
Defined.

(** ** No engine without frames or sample rate (lines 181-200, 296-336) *)

(** The calls that make the engine or the buffer, mix, or write. *)
Definition is_engine_event (e : Event) : bool :=
  match e with
  | EvNewMixer _ _ _ | EvNewMixBuffer _ | EvProcess
  | EvSinkWrite _ _ _ _ => true
  | _ => false
  end.

Definition no_engine_event (e : Event) : Prop := is_engine_event e = false.

Definition engine_idle : Machine -> Machine -> Prop :=
  emits_only no_engine_event.

Lemma sleep_poll_dispatch_engine_idle ndebug sq env :
  steps engine_idle
    (modify (set_nameSupply (track_names env)) ;;;
     do_sleep ndebug ;;;
     command <- poll_state ndebug sq env ;;
     dispatch ndebug sq env command).
Proof. unfold_phases. steps_auto; emits_side. Qed.

Lemma check_sink_engine_idle ndebug env cur :
  steps engine_idle (check_sink ndebug env cur).
Proof. unfold_phases. steps_auto; emits_side. Qed.

Lemma track_diff_engine_idle ndebug cur mask :
  steps engine_idle (track_diff ndebug cur mask).
Proof. unfold_phases. steps_auto; emits_side. Qed.

Lemma timing_engine_idle env : steps engine_idle (timing env).
Proof. unfold_phases. steps_auto; emits_side. Qed.

(** The engine and the buffer themselves. *)
Definition engine_same (m m' : Machine) : Prop :=
  mixer m' = mixer m /\ mixBuffer m' = mixBuffer m.

#[local] Instance engine_same_preorder : PreOrder engine_same.
Proof.
  split; [intros x; now split|].
  intros a b c [A1 A2] [B1 B2]. split; congruence.
Qed.

(** The sample rate held is the one of the format held. *)
Definition rate_of_format (m : Machine) : Prop :=
  sampleRate m = wrap_u32 (Format_sampleRate (format m)).

Ltac refs_engine_side := intros m_; split; now destruct m_.

Lemma check_sink_rate ndebug env cur m m' :
  rate_of_format m ->
  check_sink ndebug env cur m = Ok (tt, m') ->
  rate_of_format m' /\ refs_kept m m' /\ engine_same m m'.
Proof.
  intros K1 H.
  assert (R : rel_and refs_kept engine_same m m').
  { pose proof H as H'.
    by_steps (rel_and refs_kept engine_same) H' refs_engine_side.
    exact H'. }
  split; [|exact R].
  unfold check_sink in H. rewrite run_gets in H.
  destruct (mOutputSinkGen cur =? outputSinkGen m); cbn [negb when] in H.
  - injection H as <-. exact K1.
  - rewrite !run_modify in H.
    destruct (mOutputSink cur) as [sink|].
    + rewrite run_emit, !run_modify in H.
      unfold ALOG_ASSERT in H.
      destruct ndebug;
        [|destruct (Format_channelCount (sink_format env sink) =? 2);
          [|discriminate]];
        injection H as <-; unfold rate_of_format; now destruct m.
    + rewrite run_modify in H. injection H as <-.
      unfold rate_of_format. now destruct m.
Qed.

(** The format and the sample rate held. *)
Definition format_same (m m' : Machine) : Prop :=
  format m' = format m /\ sampleRate m' = sampleRate m.

#[local] Instance format_same_preorder : PreOrder format_same.
Proof.
  split; [intros x; now split|].
  intros a b c [A1 A2] [B1 B2]. split; congruence.
Qed.

Ltac refs_format_side := intros m_; split; now destruct m_.

Lemma reallocate_engine ndebug cur prev pf m r m' :
  reallocate ndebug cur prev pf m = Ok (r, m') ->
  refs_kept m m' /\ format_same m m' /\
  if negb (Format_eqb (format m) pf)
     || negb (mFrameCount cur =? mFrameCount prev)
  then
    if (0 <? mFrameCount cur) && (0 <? sampleRate m)
    then mixer m' = true /\ non_null (mixBuffer m') = true
    else mixer m' = false /\ mixBuffer m' = None /\ engine_idle m m'
  else m' = m.
Proof.
  intros H.
  assert (R : rel_and refs_kept format_same m m').
  { pose proof H as H'.
    by_steps (rel_and refs_kept format_same) H' refs_format_side.
    exact H'. }
  destruct R as [R F]. split; [exact R|]. split; [exact F|].
  destruct (negb (Format_eqb (format m) pf)
            || negb (mFrameCount cur =? mFrameCount prev)) eqn:Hchg.
  - destruct ((0 <? mFrameCount cur) && (0 <? sampleRate m)) eqn:Hvalid.
    + apply andb_prop in Hvalid as [Hfc Hsr].
      apply Z.ltb_lt in Hfc, Hsr.
      destruct (reallocate_valid ndebug m cur prev pf Hchg Hfc Hsr)
        as (m1 & Hrun & Hm & Hb & _).
      rewrite Hrun in H. injection H as _ <-. now rewrite Hm, Hb.
    + unfold reallocate in H. rewrite run_gets, Hchg in H.
      unfold delete_mixer, delete_mixBuffer in H.
      destruct m. fields_in Hvalid.
      destruct mixer0, mixBuffer0, ndebug; drive H;
        rewrite Hvalid in H; drive H; injection H as _ <-;
        (split; [reflexivity|]); (split; [reflexivity|]);
        first
          [ exists []; split; [fields; now rewrite app_nil_r|constructor]
          | exists [EvDeleteMixer]; split;
            [fields; reflexivity|repeat constructor]
          | exists [EvDeleteMixBuffer]; split;
            [fields; reflexivity|repeat constructor]
          | exists [EvDeleteMixer; EvDeleteMixBuffer]; split;
            [fields; now rewrite <- app_assoc|repeat constructor] ].
  - unfold reallocate in H. rewrite run_gets, Hchg in H.
    now injection H as _ <-.
Qed.

Lemma Format_eqb_eq f g : Format_eqb f g = true -> f = g.
Proof.
  destruct f, g; cbn; try discriminate; [reflexivity|].
  intros H. apply andb_prop in H as [H1 H2].
  apply Z.eqb_eq in H1, H2. congruence.
Qed.

(** The invariant of the loop on the engine: the sample rate is the one of
    the format; an engine exists only for a positive sample rate and a
    positive frame count of the state that [previous] points at; and the
    buffer exists exactly when the engine does. *)
Definition engine_inv (sq : nat -> FastMixerState) (m : Machine) : Prop :=
  rate_of_format m /\
  (mixer m = true ->
   0 < sampleRate m /\ 0 < mFrameCount (deref sq m (previous m))) /\
  non_null (mixBuffer m) = mixer m.

Ltac track_diff_side :=
  intros m_; split; [|split; [|split]]; revert m_;
  [refs_side|engine_side|null_side|emits_side].

Lemma track_diff_engine ndebug cur mask :
  steps (rel_and refs_kept
           (rel_and engine_kept (rel_and null_kept engine_idle)))
        (track_diff ndebug cur mask).
Proof. unfold_phases. steps_auto; track_diff_side. Qed.

Lemma state_change_engine ndebug sq env m m' :
  engine_inv sq m ->
  state_change ndebug sq env m = Ok (tt, m') ->
  engine_inv sq m' /\
  (mixer m' = true -> 0 < mFrameCount (deref sq m (current m))) /\
  (mixer m' = false -> engine_idle m m').
Proof.
  intros (K1 & K2 & K3). unfold state_change. rewrite run_get.
  destruct (StateRef_eqb (current m) (previous m)) eqn:E; cbn [negb when].
  - intros H. injection H as <-. apply StateRef_eqb_eq in E.
    split; [exact (conj K1 (conj K2 K3))|]. split; [|reflexivity].
    intros Hm. rewrite E. now apply K2.
  - intros H.
    apply bind_inv in H as ([] & ma & H1 & H).
    apply bind_inv in H as (mask & mb & H2 & H).
    apply bind_inv in H as ([] & mc & H3 & H4).
    injection H4 as <-.
    pose proof (check_sink_engine_idle _ _ _ _ _ _ H1) as I1.
    apply check_sink_rate in H1 as (K1a & (P1 & C1 & R1) & M1 & B1);
      [|exact K1].
    apply reallocate_engine in H2 as ((P2 & C2 & R2) & [F2 S2] & Hre).
    apply track_diff_engine in H3
      as ((P3 & C3 & R3) & (M3 & F3 & S3) & N3 & I3).
    unfold null_kept in N3.
    set (cur := deref sq m (current m)) in *.
    set (prev := deref sq m (previous m)) in *.
    assert (Em : mixer (set_previous (current mc) mc) = mixer mb)
      by (destruct mc; cbn in *; congruence).
    assert (Eb : non_null (mixBuffer (set_previous (current mc) mc))
                 = non_null (mixBuffer mb))
      by (destruct mc; cbn in *; congruence).
    assert (Ef : format (set_previous (current mc) mc) = format ma)
      by (destruct mc; cbn in *; congruence).
    assert (Es : sampleRate (set_previous (current mc) mc) = sampleRate ma)
      by (destruct mc; cbn in *; congruence).
    assert (Ed : deref sq (set_previous (current mc) mc)
                       (previous (set_previous (current mc) mc)) = cur).
    { subst cur.
      replace (previous (set_previous (current mc) mc)) with (current m)
        by (destruct mc; cbn in *; congruence).
      apply deref_same_preIdle. destruct mc; cbn in *; congruence. }
    assert (Ei : engine_idle mc (set_previous (current mc) mc))
      by (apply emits_only_same_trace; intros x; now destruct x).
    unfold engine_inv, rate_of_format. rewrite Em, Eb, Ef, Es, Ed.
    destruct (negb (Format_eqb (format ma) (format m))
              || negb (mFrameCount cur =? mFrameCount prev)) eqn:Hchg.
    + destruct ((0 <? mFrameCount cur) && (0 <? sampleRate ma)) eqn:Hv.
      * destruct Hre as [Hm Hb]. rewrite Hm, Hb.
        apply andb_prop in Hv as [Hfc Hsr]. apply Z.ltb_lt in Hfc, Hsr.
        split; [split; [exact K1a|split; [auto|reflexivity]]|].
        split; [auto|discriminate].
      * destruct Hre as (Hm & Hb & Hi). rewrite Hm, Hb.
        split; [split; [exact K1a|split; [discriminate|reflexivity]]|].
        split; [discriminate|]. intros _.
        transitivity ma; [exact I1|]. transitivity mb; [exact Hi|].
        transitivity mc; assumption.
    + subst mb. apply orb_false_elim in Hchg as [Hf Hfc].
      apply negb_false_iff in Hf, Hfc.
      apply Format_eqb_eq in Hf. apply Z.eqb_eq in Hfc.
      assert (Hsr : sampleRate ma = sampleRate m)
        by (unfold rate_of_format in *; congruence).
      rewrite M1, Hsr, Hfc.
      split; [split; [rewrite Hf; exact K1|split; [exact K2|]]|].
      { rewrite B1. exact K3. }
      split; [intros Hm; now apply K2|].
      intros _. transitivity ma; [exact I1|]. transitivity mc; assumption.
Qed.

Lemma write_step_null env command cur m m' :
  write_step env command cur m = Ok (tt, m') -> null_kept m m'.
Proof.
  intros H. unfold null_kept.
  destruct (has_flag command WRITE) eqn:Hflag;
    [destruct (outputSink m) as [sink|] eqn:Hsink;
       [destruct (mixBuffer m) as [b|] eqn:Hbuf|]|].
  - destruct (write_step_attempt env command cur m sink b Hflag Hsink Hbuf)
      as (m1 & Hrun & _ & _ & _ & Hb & _).
    rewrite Hrun in H. injection H as <-. now rewrite Hb.
  - rewrite write_step_skipped in H by auto. injection H as <-.
    now rewrite Hbuf.
  - rewrite write_step_skipped in H by auto. now injection H as <-.
  - rewrite write_step_skipped in H by auto. now injection H as <-.
Qed.

Ltac refs_engine_kept_side :=
  intros m_; split; revert m_; [refs_side|engine_side].

Lemma non_null_false {A} (p : option A) : non_null p = false -> p = None.
Proof. now destruct p. Qed.

Lemma work_engine ndebug sq env command m m' :
  engine_inv sq m ->
  work ndebug sq env command m = Ok (tt, m') ->
  engine_inv sq m' /\
  (mFrameCount (deref sq m (current m)) = 0 \/ sampleRate m' = 0 ->
   mixer m' = false /\ mixBuffer m' = None /\ engine_idle m m').
Proof.
  intros Inv H.
  apply work_inv in H as (m1 & m2 & m3 & H1 & H2 & H3 & H4).
  apply state_change_engine in H1 as ((K1 & K2 & K3) & Hfc & Hidle);
    [|exact Inv].
  pose proof H2 as N2. by_steps null_kept N2 null_side.
  pose proof (write_step_null _ _ _ _ _ H3) as N3.
  pose proof H4 as N4. by_steps null_kept N4 null_side.
  pose proof H2 as R2.
  by_steps (rel_and refs_kept engine_kept) R2 refs_engine_kept_side.
  pose proof H3 as R3.
  by_steps (rel_and refs_kept engine_kept) R3 refs_engine_kept_side.
  pose proof H4 as R4.
  by_steps (rel_and refs_kept engine_kept) R4 refs_engine_kept_side.
  assert (R : rel_and refs_kept engine_kept m1 m')
    by (transitivity m2; [exact R2|]; transitivity m3; assumption).
  assert (N : null_kept m1 m')
    by (transitivity m2; [exact N2|]; transitivity m3; assumption).
  destruct R as [(P & C & Rp) (M & F & S)]. unfold null_kept in N.
  assert (Ed : deref sq m' (previous m') = deref sq m1 (previous m1))
    by (rewrite P; now apply deref_same_preIdle).
  split.
  - unfold engine_inv, rate_of_format. rewrite M, F, S, N, Ed.
    exact (conj K1 (conj K2 K3)).
  - intros Hzero.
    assert (Hm1 : mixer m1 = false).
    { destruct (mixer m1) eqn:Em; [|reflexivity]. exfalso.
      destruct (K2 eq_refl) as [Hsr _]. specialize (Hfc eq_refl).
      rewrite S in Hzero. lia. }
    assert (Hb1 : mixBuffer m1 = None)
      by (apply non_null_false; congruence).
    split; [congruence|]. split.
    { apply non_null_false. rewrite N, Hb1. reflexivity. }
    transitivity m1; [now apply Hidle|].
    rewrite mix_step_skipped in H2
      by (rewrite Hm1; apply andb_false_r).
    injection H2 as <-.
    assert (Hb2 : mixBuffer (if MixBufferState_eqb (mixBufferState m1) MIXED
                             then set_mixBufferState UNDEFINED m1 else m1)
                  = None)
      by (destruct (MixBufferState_eqb _ _); [now destruct m1|exact Hb1]).
    rewrite write_step_skipped in H3 by auto. injection H3 as <-.
    apply timing_engine_idle in H4.
    etransitivity; [|exact H4].
    destruct (MixBufferState_eqb _ _); [|reflexivity].
    apply (emits_only_same_trace _ (set_mixBufferState UNDEFINED)).
    intros x. now destruct x.
Qed.

(** No published state carries INITIAL, the command of the built-in state. *)
Definition wf_queue (sq : nat -> FastMixerState) : Prop :=
  forall k, mCommand (sq k) <> INITIAL.

(** The invariant of the loop. *)
Definition loop_inv (sq : nat -> FastMixerState) (m : Machine) : Prop :=
  pinned sq m /\ engine_inv sq m /\
  (current m = RefInitial -> mixer m = false).

Ltac engine_null_side :=
  intros m_; split; revert m_; [engine_side|null_side].

Lemma poll_state_engine ndebug sq env m command m' :
  wf_queue sq ->
  loop_inv sq m ->
  poll_state ndebug sq env m = Ok (command, m') ->
  engine_inv sq m' /\ (current m' = RefInitial -> mixer m' = false).
Proof.
  intros Hwf ((I1 & I2 & I3) & (K1 & K2 & K3) & K5) H.
  pose proof H as E. by_steps (rel_and engine_kept null_kept) E engine_null_side.
  destruct E as [(M & F & S) N]. unfold null_kept in N.
  unfold engine_inv, rate_of_format. rewrite M, F, S, N.
  assert (Hprev : mixer m = true ->
                  0 < mFrameCount (deref sq m' (previous m')) /\
                  (current m' = RefInitial -> False)).
  { intros Hm. destruct (K2 Hm) as [_ Hfc].
    assert (Hold : has_flag (mCommand (deref sq m (current m))) IDLE = false ->
                   0 < mFrameCount (deref sq m (current m))).
    { intros Hidle.
      destruct I3 as [I|[I|[I|I]]].
      - exfalso. destruct (current m) as [| |j] eqn:Ec.
        + specialize (K5 eq_refl). congruence.
        + contradiction.
        + cbn in I. now apply (Hwf j).
      - rewrite I in Hidle. discriminate.
      - rewrite I in Hidle. discriminate.
      - now rewrite <- I. }
    apply poll_state_cases in H as Hcases.
    destruct Hcases as [(_ & -> & _)|(k & Hk & Hne & Hcur)].
    - destruct (refs_kept_update_dump (set_dCommand command) m)
        as (-> & -> & Hp).
      split; [|intros Hc; specialize (K5 Hc); congruence].
      now rewrite (deref_same_preIdle sq m _ _ Hp).
    - split; [|rewrite Hcur; discriminate].
      destruct (poll_state_adopts ndebug sq env m k Hk Hne)
        as (m1 & Hrun & _ & Hcase).
      rewrite Hrun in H. injection H as _ <-. cbv zeta in Hcase.
      destruct (has_flag (mCommand (deref sq m (current m))) IDLE) eqn:Eold.
      + destruct Hcase as (-> & Hp & _).
        now rewrite (deref_same_preIdle sq m _ _ Hp).
      + destruct (has_flag (mCommand (sq k)) IDLE).
        * destruct Hcase as (_ & _ & -> & _). now apply Hold.
        * destruct Hcase as (-> & Hp & _).
          rewrite (deref_same_preIdle sq m _ _ Hp). now apply Hold. }
  split.
  - split; [exact K1|]. split; [|exact K3].
    intros Hm. split; [now apply K2|now apply Hprev].
  - intros Hc. destruct (mixer m) eqn:Em; [|reflexivity].
    exfalso. now apply (Hprev eq_refl).
Qed.

Lemma pinned_kept sq m m' :
  refs_kept m m' -> coldGen m' = coldGen m -> pinned sq m -> pinned sq m'.
Proof.
  intros (P & C & R) G (I1 & I2 & I3). unfold pinned.
  rewrite C, P, G, (deref_same_preIdle sq m m' _ R). now repeat split.
Qed.

Lemma engine_inv_kept sq m m' :
  refs_kept m m' -> engine_kept m m' -> null_kept m m' ->
  engine_inv sq m -> engine_inv sq m'.
Proof.
  intros (P & C & R) (M & F & S) N K. unfold engine_inv, rate_of_format.
  unfold null_kept in N.
  rewrite P, M, F, S, N, (deref_same_preIdle sq m m' _ R). exact K.
Qed.

(** What a cycle does when the state it ends on has no frames, or the
    worker holds no sample rate: nothing is made, mixed or written, and if
    the command called for work neither engine nor buffer is left. *)
Definition engine_off (sq : nat -> FastMixerState) (m m' : Machine) : Prop :=
  Forall no_engine_event (new_events m m') /\
  (mCommand (deref sq m' (current m')) <> INITIAL ->
   mCommand (deref sq m' (current m')) <> HOT_IDLE ->
   mCommand (deref sq m' (current m')) <> COLD_IDLE ->
   mCommand (deref sq m' (current m')) <> EXIT ->
   mixer m' = false /\ mixBuffer m' = None).

Lemma cycle_engine ndebug sq env m c m' :
  wf_queue sq ->
  loop_inv sq m ->
  cycle ndebug sq env m = Ok (c, m') ->
  (c = true -> loop_inv sq m') /\
  (mFrameCount (deref sq m' (current m')) = 0 \/ sampleRate m' = 0 ->
   engine_off sq m m').
Proof.
  intros Hwf (Ip & Ie & I5) H.
  assert (Hpin : c = true -> pinned sq m')
    by (intros ->; exact (cycle_pinned _ _ _ _ _ Ip H)).
  apply cycle_phases in H
    as (m2 & command & m3 & flow & m4 & H2 & H3 & H4 & Hflow).
  assert (Hpre : engine_idle m m4).
  { apply (sleep_poll_dispatch_engine_idle ndebug sq env m flow m4).
    rewrite run_modify, (bind_Ok _ _ _ _ _ H2).
    now rewrite (bind_Ok _ _ _ _ _ H3). }
  apply sleep_kept in H2 as (R2 & E2 & A2 & N2 & _).
  assert (L2 : loop_inv sq m2).
  { split; [|split].
    - apply (pinned_kept sq m m2 R2); [apply A2|exact Ip].
    - now apply (engine_inv_kept sq m m2).
    - destruct R2 as (_ & -> & _). destruct E2 as (-> & _). exact I5. }
  pose proof (poll_state_command _ _ _ _ _ _ H3) as Hcmd.
  apply (poll_state_engine _ _ _ _ _ _ Hwf L2) in H3 as [K3 K5].
  pose proof (dispatch_flow _ _ _ _ _ _ _ H4) as Hfl.
  apply dispatch_refs_kept in H4 as (R4 & E4 & N4).
  assert (K4 : engine_inv sq m4) by now apply (engine_inv_kept sq m3 m4).
  assert (C4 : current m4 = current m3) by apply R4.
  assert (D4 : deref sq m4 (current m4) = deref sq m3 (current m3))
    by (rewrite C4; apply deref_same_preIdle; apply R4).
  assert (M4 : mixer m4 = mixer m3) by apply E4.
  destruct flow.
  - destruct Hflow as [Hw _]. destruct Hfl as (_ & N1 & _).
    pose proof (work_refs _ _ _ _ _ _ Hw) as (W1 & W2 & W3).
    apply work_engine in Hw as [Kw Hoff]; [|exact K4].
    assert (Dw : deref sq m' (current m') = deref sq m4 (current m4))
      by (rewrite W2; now apply deref_same_preIdle).
    split.
    + intros Hc. split; [now apply Hpin|]. split; [exact Kw|].
      intros Hi. exfalso. apply N1. rewrite Hcmd, <- D4, <- Dw, Hi.
      reflexivity.
    + intros Hzero. rewrite Dw in Hzero.
      destruct (Hoff Hzero) as (Hm & Hb & Hi).
      split; [|now intros].
      assert (Ht : engine_idle m m') by (transitivity m4; assumption).
      destruct Ht as (evs & T & Fa). now rewrite (new_events_app m m' evs T).
  - destruct Hflow as [-> _]. split.
    + intros Hc. split; [now apply Hpin|]. split; [exact K4|].
      rewrite C4, M4. exact K5.
    + intros _. split.
      * destruct Hpre as (evs & T & Fa).
        now rewrite (new_events_app m m4 evs T).
      * rewrite D4, <- Hcmd. intros; tauto.
  - destruct Hflow as [-> Hc]. split; [congruence|].
    intros _. split.
    + destruct Hpre as (evs & T & Fa).
      now rewrite (new_events_app m m4 evs T).
    + rewrite D4, <- Hcmd. intros; congruence.
Qed.

Lemma reachable_loop_inv ndebug sq areas envs m :
  wf_queue sq ->
  run ndebug sq envs (init_machine areas) = Ok (Some m) ->
  loop_inv sq m.
Proof.
  intros Hwf. apply (run_invariant ndebug sq (loop_inv sq)).
  - intros env m0 m' Inv H.
    now apply (cycle_engine _ _ _ _ _ _ Hwf Inv H).
  - split; [|split].
    + split; [discriminate|]. split; [discriminate|]. now left.
    + split; [reflexivity|]. split; [discriminate|reflexivity].
    + reflexivity.
Qed.

(** A worker that mixes snapshot 0 is handed snapshot 1, which carries the
    INITIAL command and no frames, then snapshot 2, which asks for a mix and
    a write of no frames. *)
Definition initial_published (k : nat) : FastMixerState :=
  match k with
  | O => snapshot MIX_WRITE 192 (Some 0%nat) 1
  | 1%nat => snapshot INITIAL 0 (Some 0%nat) 1
  | _ => snapshot MIX_WRITE 0 (Some 0%nat) 1
  end.

(** C9 fails on the code when a snapshot with the INITIAL command is
    published.  INITIAL lacks the IDLE bit, so the poll makes such a
    snapshot [previous] although the [switch] treats it as idle and never
    applies it; the frame count of snapshot 2, which is 0, is then that of
    [previous], nothing is released, and the engine made for snapshot 0 runs
    [process()] and the sink is written with a frame count of 0. *)
Lemma frameless_state_mixed_after_initial :
  exists m m',
    run true initial_published
        [answers (Some 0%nat) 48000 192 (Some (1, 0));
         answers (Some 1%nat) 48000 192 (Some (1, 4000000))]
        machine0 = Ok (Some m) /\
    cycle true initial_published
          (answers (Some 2%nat) 48000 0 (Some (1, 8000000))) m
      = Ok (true, m') /\
    mFrameCount (deref initial_published m' (current m')) = 0 /\
    mCommand (deref initial_published m' (current m')) = MIX_WRITE /\
    new_events m m'
    = [EvNanosleep 1000000; EvProcess; EvSinkWrite 0 MixOutput 0 3;
       EvClockGettime] /\
    mixer m' = true.
Proof.
  do 2 eexists. split; [vm_compute; reflexivity|].
  split; [vm_compute; reflexivity|].
  repeat split; vm_compute; reflexivity.
Qed.

(** The same states published with HOT_IDLE in place of INITIAL: the worker
    keeps a copy of snapshot 0 as [previous], the frame count of snapshot 2
    differs from it, engine and buffer are released, and neither
    [process()] nor [write()] is called. *)
Definition hot_idle_published (k : nat) : FastMixerState :=
  match k with
  | O => snapshot MIX_WRITE 192 (Some 0%nat) 1
  | 1%nat => snapshot HOT_IDLE 0 (Some 0%nat) 1
  | _ => snapshot MIX_WRITE 0 (Some 0%nat) 1
  end.

Lemma frameless_state_released_after_hot_idle :
  exists m m',
    run true hot_idle_published
        [answers (Some 0%nat) 48000 192 (Some (1, 0));
         answers (Some 1%nat) 48000 192 (Some (1, 4000000))]
        machine0 = Ok (Some m) /\
    cycle true hot_idle_published
          (answers (Some 2%nat) 48000 0 (Some (1, 8000000))) m
      = Ok (true, m') /\
    new_events m m'
    = [EvNanosleep 1000000; EvDeleteMixer; EvDeleteMixBuffer;
       EvClockGettime] /\
    mixer m' = false /\ mixBuffer m' = None.
Proof.
  do 2 eexists. split; [vm_compute; reflexivity|].
  split; [vm_compute; reflexivity|].
  repeat split; vm_compute; reflexivity.
Qed.

(** X25: provided no published snapshot carries the INITIAL command, in
    every cycle of the loop that ends on a state whose frame count is zero,
    or with a sample rate of zero held by the worker (the one read from the
    sink when its generation last changed), the worker makes no engine and
    no buffer and calls neither [process()] nor [write()]; and when the
    command calls for work, no engine and no buffer are left. *)
Theorem no_engine_without_frames ndebug sq areas envs env (m : Machine) c m' :
  wf_queue sq ->
  run ndebug sq envs (init_machine areas) = Ok (Some m) ->
  cycle ndebug sq env m = Ok (c, m') ->
  mFrameCount (deref sq m' (current m')) = 0 \/ sampleRate m' = 0 ->
  engine_off sq m m'.
Proof.
  intros Hwf Hreach H Hzero.
  apply (reachable_loop_inv _ _ _ _ _ Hwf) in Hreach.
  now apply (cycle_engine _ _ _ _ _ _ Hwf Hreach H).
Qed.

(** From 192 frames to none: the engine and the buffer are released. *)
Definition frames_then_none (k : nat) : FastMixerState :=
  match k with
  | O => snapshot MIX_WRITE 192 (Some 0%nat) 1
  | _ => snapshot MIX_WRITE 0 (Some 0%nat) 1
  end.

Definition m_no_frames : Machine :=
  Eval vm_compute in
    after_cycle frames_then_none
      (answers (Some 1%nat) 48000 0 (Some (1, 4000000)))
      (after_cycle frames_then_none
         (answers (Some 0%nat) 48000 192 (Some (1, 0))) machine0).

Lemma no_engine_after_frames_removed :
  engine_off frames_then_none
    (after_cycle frames_then_none
       (answers (Some 0%nat) 48000 192 (Some (1, 0))) machine0)
    m_no_frames.
Proof.
  apply (no_engine_without_frames true frames_then_none no_dump_areas
           [answers (Some 0%nat) 48000 192 (Some (1, 0))]
           (answers (Some 1%nat) 48000 0 (Some (1, 4000000)))
           _ true).
  - intros [|k]; cbn; discriminate.
  - vm_compute. reflexivity.
  - vm_compute. reflexivity.
  - left. vm_compute. reflexivity.
Defined.

(** ** A cycle always ends *)

(** [c] never stops for want of fuel. *)
Definition fueled {A} (c : M A) : Prop := forall m, c m <> OutOfFuel.

(** [c] returns from every machine. *)
Definition returns {A} (c : M A) : Prop :=
  forall m, exists a m', c m = Ok (a, m').

Lemma returns_fueled {A} (c : M A) : returns c -> fueled c.
Proof. intros H m. destruct (H m) as (a & m' & ->). discriminate. Qed.

Lemma returns_ret {A} (a : A) : returns (ret a).
Proof. intros m. now exists a, m. Qed.

Lemma returns_get : returns get.
Proof. intros m. now exists m, m. Qed.

Lemma returns_gets {A} (f : Machine -> A) : returns (gets f).
Proof. intros m. now exists (f m), m. Qed.

Lemma returns_modify f : returns (modify f).
Proof. intros m. now exists tt, (f m). Qed.

Lemma returns_bind {A B} (c : M A) (k : A -> M B) :
  returns c -> (forall a, returns (k a)) -> returns (bind c k).
Proof.
  intros Hc Hk m. destruct (Hc m) as (a & m' & H).
  rewrite (bind_Ok _ _ _ _ _ H). apply Hk.
Qed.

Lemma returns_when b c : returns c -> returns (when b c).
Proof. intros Hc. destruct b; [exact Hc|apply returns_ret]. Qed.

Lemma returns_ALOG_ASSERT c : returns (ALOG_ASSERT true c).
Proof. apply returns_ret. Qed.

Lemma returns_LOG_FATAL : returns (LOG_FATAL true).
Proof. apply returns_ret. Qed.

Lemma returns_for_each slots body :
  (forall i, returns (body i)) -> returns (for_each slots body).
Proof.
  intros Hbody. induction slots as [|i rest IH]; cbn [for_each].
  - apply returns_ret.
  - apply returns_bind; [apply Hbody|intros _; exact IH].
Qed.

Lemma returns_bit_loop mask body :
  0 <= mask < 2 ^ 32 ->
  (forall i, returns (body i)) -> returns (bit_loop 32 mask body).
Proof.
  intros Hm Hbody. rewrite (bit_loop_32 mask body Hm).
  now apply returns_for_each.
Qed.

Lemma fueled_fatal {A} : fueled (@fatal A).
Proof. intros m H. discriminate. Qed.

Lemma fueled_bind {A B} (c : M A) (k : A -> M B) :
  fueled c -> (forall a, fueled (k a)) -> fueled (bind c k).
Proof.
  intros Hc Hk m. unfold bind. specialize (Hc m).
  destruct (c m) as [[a m']| |]; [apply Hk|discriminate|now contradict Hc].
Qed.

Lemma fueled_when b c : fueled c -> fueled (when b c).
Proof.
  intros Hc. destruct b; [exact Hc|apply returns_fueled, returns_ret].
Qed.

Lemma fueled_ALOG_ASSERT ndebug c : fueled (ALOG_ASSERT ndebug c).
Proof.
  unfold ALOG_ASSERT. destruct ndebug; [apply returns_fueled, returns_ret|].
  destruct c; [apply returns_fueled, returns_ret|apply fueled_fatal].
Qed.

Lemma fueled_LOG_FATAL ndebug : fueled (LOG_FATAL ndebug).
Proof.
  unfold LOG_FATAL.
  destruct ndebug; [apply returns_fueled, returns_ret|apply fueled_fatal].
Qed.

Lemma fueled_for_each slots body :
  (forall i, fueled (body i)) -> fueled (for_each slots body).
Proof.
  intros Hbody. induction slots as [|i rest IH]; cbn [for_each].
  - apply returns_fueled, returns_ret.
  - apply fueled_bind; [apply Hbody|intros _; exact IH].
Qed.

Lemma fueled_bit_loop mask body :
  0 <= mask < 2 ^ 32 ->
  (forall i, fueled (body i)) -> fueled (bit_loop 32 mask body).
Proof.
  intros Hm Hbody. rewrite (bit_loop_32 mask body Hm).
  now apply fueled_for_each.
Qed.

(** The masks the loops run over fit in 32 bits. *)
Ltac mask_range :=
  first [ apply trackMask_range
        | apply land_range_l, trackMask_range
        | apply land_range_r, wrap_u32_range ].

Ltac returns_auto :=
  repeat first
    [ match goal with
      | |- forall x, returns (@?c x) => intros ?
      | |- returns (if ?b then _ else _) => destruct b
      | |- returns (match ?o with _ => _ end) => destruct o
      end
    | apply returns_ret | apply returns_get | apply returns_gets
    | apply returns_modify
    | apply returns_ALOG_ASSERT | apply returns_LOG_FATAL
    | apply returns_bind
    | apply returns_when
    | apply returns_bit_loop; [mask_range|] ].

Ltac fueled_auto :=
  repeat first
    [ match goal with
      | |- forall x, fueled (@?c x) => intros ?
      | |- fueled (if ?b then _ else _) => destruct b
      | |- fueled (match ?o with _ => _ end) => destruct o
      end
    | apply fueled_fatal
    | apply fueled_ALOG_ASSERT | apply fueled_LOG_FATAL
    | apply fueled_bind
    | apply fueled_when
    | apply fueled_bit_loop; [mask_range|]
    | apply returns_fueled;
      first [ apply returns_ret | apply returns_get | apply returns_gets
            | apply returns_modify ] ].

(** No cycle runs out of fuel, in either build: the 32 rounds given to each
    loop over a mask are enough. *)
Lemma cycle_fueled ndebug sq env : fueled (cycle ndebug sq env).
Proof. unfold_phases. fueled_auto. Qed.

Lemma run_fueled ndebug sq envs : forall m, run ndebug sq envs m <> OutOfFuel.
Proof.
  induction envs as [|env envs IH]; intros m; [discriminate|].
  rewrite run_cons. pose proof (cycle_fueled ndebug sq env m) as Hc.
  destruct (cycle ndebug sq env m) as [[[] m1]| |];
    [apply IH|discriminate|discriminate|now contradict Hc].
Qed.

(** In a release build the sleep, the poll and the work of a cycle return
    whatever the state. *)
Lemma do_sleep_returns : returns (do_sleep true).
Proof. unfold_phases. returns_auto. Qed.

Lemma poll_state_returns sq env : returns (poll_state true sq env).
Proof. unfold_phases. returns_auto. Qed.

Lemma work_returns sq env command : returns (work true sq env command).
Proof. unfold_phases. returns_auto. Qed.

Lemma dispatch_returns sq env command :
  command <> COLD_IDLE -> returns (dispatch true sq env command).
Proof.
  intros Hc. apply Z.eqb_neq in Hc. unfold dispatch. rewrite Hc.
  unfold_phases. returns_auto.
Qed.

Lemma cold_idle_returns sq env m :
  mColdFutexAddr (deref sq m (current m)) <> None ->
  exists m', cold_idle sq env m = Ok (tt, m').
Proof.
  intros Haddr. unfold cold_idle. rewrite run_get.
  destruct (negb _); [|now eexists].
  destruct (mColdFutexAddr _) as [a|]; [|contradiction].
  assert (R : returns
                (emit (EvAtomicDec a) ;;;
                 when (atomic_dec_old env <=? 0)
                   (emit (EvFutexWait a (to_int (atomic_dec_old env - 1)))) ;;;
                 modify (set_sleepNs (-1)) ;;;
                 modify (set_coldGen (mColdGen (deref sq m (current m))))))
    by (unfold_phases; returns_auto).
  destruct (R m) as ([] & m' & H). now exists m'.
Qed.

(** The state that the poll of a cycle leaves in [current]. *)
Definition polled (sq : nat -> FastMixerState) (env : Env) (m : Machine)
  : FastMixerState :=
  match sq_poll env with
  | Some k => sq k
  | None => deref sq m (current m)
  end.

Lemma poll_state_polled ndebug sq env m command m' :
  current m <> RefPreIdle ->
  poll_state ndebug sq env m = Ok (command, m') ->
  command = mCommand (polled sq env m) /\
  deref sq m' (current m') = polled sq env m.
Proof.
  intros Hcur H. pose proof H as Hcases.
  apply poll_state_cases in Hcases
    as [(-> & -> & Hsame)|(k & Hk & Hne & Hcur')].
  - destruct (refs_kept_update_dump
                (set_dCommand (mCommand (deref sq m (current m)))) m)
      as (_ & -> & _).
    rewrite (deref_not_preIdle sq m (update_dump _ m) _ Hcur).
    unfold polled.
    destruct Hsame as [->|(k & -> & ->)]; split; reflexivity.
  - destruct (poll_state_adopts ndebug sq env m k Hk Hne)
      as (m1 & Hrun & _ & _).
    rewrite Hrun in H. injection H as <- <-.
    unfold polled. rewrite Hk, Hcur'. split; reflexivity.
Qed.

(** A cycle of a release build returns, unless the state it polls is a
    COLD_IDLE one without the address of a futex. *)
Lemma cycle_release_returns sq env m :
  current m <> RefPreIdle ->
  (mCommand (polled sq env m) = COLD_IDLE ->
   mColdFutexAddr (polled sq env m) <> None) ->
  exists c m', cycle true sq env m = Ok (c, m').
Proof.
  intros Hcur Haddr. unfold cycle. rewrite run_modify.
  destruct (do_sleep_returns (set_nameSupply (track_names env) m))
    as ([] & m1 & H1).
  rewrite (bind_Ok _ _ _ _ _ H1).
  assert (K1 : refs_kept m m1).
  { pose proof H1 as K. by_steps refs_kept K refs_side.
    destruct K as (A & B & C). destruct m. exact (conj A (conj B C)). }
  destruct K1 as (_ & C1 & P1).
  destruct (poll_state_returns sq env m1) as (command & m2 & H2).
  rewrite (bind_Ok _ _ _ _ _ H2).
  assert (Hcur1 : current m1 <> RefPreIdle) by congruence.
  destruct (poll_state_polled _ _ _ _ _ _ Hcur1 H2) as [Hcmd Hder].
  assert (Hp : polled sq env m1 = polled sq env m).
  { unfold polled. destruct (sq_poll env); [reflexivity|].
    rewrite C1. now apply deref_not_preIdle. }
  rewrite Hp in Hcmd, Hder.
  assert (D : exists flow m3, dispatch true sq env command m2 = Ok (flow, m3)).
  { destruct (Z.eq_dec command COLD_IDLE) as [E|E].
    - rewrite E.
      change (dispatch true sq env COLD_IDLE)
        with (cold_idle sq env ;;; ret Continue).
      destruct (cold_idle_returns sq env m2) as (m3 & H3).
      { rewrite Hder. apply Haddr. congruence. }
      exists Continue, m3. now rewrite (bind_Ok _ _ _ _ _ H3).
    - apply (dispatch_returns sq env command E). }
  destruct D as (flow & m3 & H3). rewrite (bind_Ok _ _ _ _ _ H3).
  destruct flow.
  - destruct (work_returns sq env command m3) as ([] & m4 & H4).
    exists true, m4. now rewrite (bind_Ok _ _ _ _ _ H4).
  - now exists true, m3.
  - now exists false, m3.
Qed.

(** The loop of a release build answers every cycle it is given, the thread
    having ended or not, when each COLD_IDLE snapshot of the queue carries
    the address of a futex. *)
Lemma run_release_returns sq areas envs :
  (forall k, mCommand (sq k) = COLD_IDLE -> mColdFutexAddr (sq k) <> None) ->
  exists r, run true sq envs (init_machine areas) = Ok r.
Proof.
  intros Hq.
  assert (G : forall m, pinned sq m -> exists r, run true sq envs m = Ok r).
  { induction envs as [|env envs IH]; intros m Inv; [now eexists|].
    rewrite run_cons.
    destruct (cycle_release_returns sq env m) as (c & m' & H).
    - apply Inv.
    - unfold polled. destruct (sq_poll env) as [k|]; [apply Hq|].
      destruct Inv as (Hcur & _).
      destruct (current m) as [| |j]; cbn [deref];
        [discriminate|contradiction|apply Hq].
    - rewrite H. destruct c; [|now eexists].
      apply IH. exact (cycle_pinned _ _ _ _ _ Inv H). }
  apply G. split; [discriminate|]. split; [discriminate|]. now left.
Qed.

(** * Further properties of the worker loop *)

(** ** The interval between two clock readings (lines 345-350) *)

(** X1: the seconds and nanoseconds of the measured interval are normalised:
    with both readings carrying a nanosecond field below one second, the
    nanosecond part of the interval lies in [0, 1 s), seconds and nanoseconds
    add up to the time elapsed, and the seconds are negative exactly when
    the clock went backwards. *)
Lemma interval_normalised newTs oldTs' :
  0 <= snd newTs < 1000000000 ->
  0 <= snd oldTs' < 1000000000 ->
  0 <= snd (interval newTs oldTs') < 1000000000 /\
  fst (interval newTs oldTs') * 1000000000 + snd (interval newTs oldTs')
  = delta_ns newTs oldTs' /\
  (fst (interval newTs oldTs') < 0 <-> delta_ns newTs oldTs' < 0).
Proof.
  intros Hn Ho. unfold interval, delta_ns.
  destruct (Z.ltb_spec (snd newTs - snd oldTs') 0); cbn [fst snd]; lia.
Qed.

Lemma interval_with_borrow :
  0 <= snd (interval (5, 100) (3, 999999900)) < 1000000000 /\
  fst (interval (5, 100) (3, 999999900)) * 1000000000
  + snd (interval (5, 100) (3, 999999900))
  = delta_ns (5, 100) (3, 999999900) /\
  (fst (interval (5, 100) (3, 999999900)) < 0
   <-> delta_ns (5, 100) (3, 999999900) < 0).
Proof. apply interval_normalised; cbn; lia. Defined.

(** ** Volumes, then [process()] (lines 296-315) *)

(** What the loop over [volumeTracks] asks of the volume provider of slot
    [i] and tells the engine: nothing without a provider, else the packed
    gains are read once and passed on as their low and high halves. *)
Definition volume_calls (env : Env) (cur : FastMixerState) (names : list Z)
  (i : nat) : list Event :=
  match mVolumeProvider (fastTrack_at cur i) with
  | Some vp =>
      [EvGetVolumeLR vp;
       EvSetVolume0 (at_index names i) (volume_lr env vp mod 65536);
       EvSetVolume1 (at_index names i) (volume_lr env vp / 65536)]
  | None => []
  end.

Lemma for_each_trace (body : nat -> M unit) (calls : nat -> list Event)
  (I : Machine -> Prop) :
  (forall i m m',
      I m -> body i m = Ok (tt, m') -> I m' /\ trace m' = trace m ++ calls i) ->
  forall slots m m',
    I m -> for_each slots body m = Ok (tt, m') ->
    I m' /\ trace m' = trace m ++ flat_map calls slots.
Proof.
  intros Hbody slots.
  induction slots as [|i rest IH]; intros m m' Hm H; cbn [for_each] in H.
  - injection H as <-. split; [exact Hm|]. cbn. now rewrite app_nil_r.
  - apply bind_inv in H as ([] & m1 & H1 & H).
    destruct (Hbody i m m1 Hm H1) as [Hm1 T1].
    destruct (IH m1 m' Hm1 H) as [Hm' T].
    split; [exact Hm'|]. cbn [flat_map]. now rewrite T, T1, app_assoc.
Qed.

Lemma update_volume_trace ndebug env cur i m m' :
  update_volume ndebug env cur i m = Ok (tt, m') ->
  fastTrackNames m' = fastTrackNames m /\
  mixBuffer m' = mixBuffer m /\
  trace m' = trace m ++ volume_calls env cur (fastTrackNames m) i.
Proof.
  unfold update_volume, volume_calls. rewrite run_gets. intros H.
  apply run_assert in H.
  destruct (mVolumeProvider (fastTrack_at cur i)) as [vp|].
  - mrun_in H. unfold modify in H. injection H as <-.
    change 65535 with (Z.ones 16). rewrite Z.land_ones by lia.
    rewrite Z.shiftr_div_pow2 by lia. change (2 ^ 16) with 65536.
    destruct m. fields. split; [reflexivity|]. split; [reflexivity|].
    now rewrite <- !app_assoc.
  - injection H as <-. split; [reflexivity|]. split; [reflexivity|].
    now rewrite app_nil_r.
Qed.

Lemma mix_step_returns env command cur :
  returns (mix_step true env command cur).
Proof. unfold_phases. returns_auto. Qed.

(** X2: when the command has the MIX bit and there is an engine, the mix
    step returns in a release build, and whenever it returns it has made
    these calls and no other: for each slot of the track mask, in ascending order, the calls
    of [volume_calls] with the handle stored for the slot, then [process()]
    once; the buffer is then marked MIXED. *)
Lemma mix_step_calls ndebug env command cur (m : Machine) :
  has_flag command MIX = true ->
  mixer m = true ->
  (ndebug = true ->
   exists m', mix_step ndebug env command cur m = Ok (tt, m')) /\
  forall m',
    mix_step ndebug env command cur m = Ok (tt, m') ->
    new_events m m'
    = flat_map (volume_calls env cur (fastTrackNames m))
               (set_bits (trackMask cur)) ++ [EvProcess] /\
    mixBufferState m' = MIXED /\
    mixBuffer m' = match mixBuffer m with
                   | Some _ => Some MixOutput
                   | None => None
                   end.
Proof.
  intros Hmix Hmixer. split.
  { intros ->. destruct (mix_step_returns env command cur m) as ([] & m' & H).
    now exists m'. }
  intros m' H. unfold mix_step in H. rewrite run_get in H.
  rewrite Hmix, Hmixer in H. cbn [andb] in H.
  apply run_assert in H.
  apply bind_inv in H as ([] & m1 & H1 & H).
  rewrite (bit_loop_32 _ _ (trackMask_range cur)) in H1.
  destruct (for_each_trace (update_volume ndebug env cur)
              (volume_calls env cur (fastTrackNames m))
              (fun x => fastTrackNames x = fastTrackNames m
                        /\ mixBuffer x = mixBuffer m))
    with (slots := set_bits (trackMask cur)) (m := m) (m' := m1)
    as [[_ Hb] T1].
  - intros i x x' [Hx Hbx] Hi.
    apply update_volume_trace in Hi as (N & B & T).
    rewrite Hx in T. split; [|exact T]. split; congruence.
  - now split.
  - exact H1.
  - mrun_in H. unfold modify in H. injection H as <-.
    destruct m1. fields_in T1. fields_in Hb. fields.
    split; [|split; [reflexivity|now rewrite Hb]].
    apply new_events_app. fields. now rewrite T1, <- app_assoc.
Qed.

(** Slot 1 of [two_tracks] has a volume provider; it answers unity gain on
    both channels. *)
Definition unity_gains : Env :=
  mkEnv None 0 (fun _ => Format_PCM 48000 2) [] (fun _ => 268439552) 192
        (Some (1, 4000000)).

Lemma mix_step_calls_two_tracks :
  (true = true ->
   exists m',
     mix_step true unity_gains MIX_WRITE two_tracks m_two_tracks
     = Ok (tt, m')) /\
  forall m',
    mix_step true unity_gains MIX_WRITE two_tracks m_two_tracks
    = Ok (tt, m') ->
    new_events m_two_tracks m'
    = flat_map (volume_calls unity_gains two_tracks
                  (fastTrackNames m_two_tracks))
               (set_bits (trackMask two_tracks)) ++ [EvProcess] /\
    mixBufferState m' = MIXED /\
    mixBuffer m' = match mixBuffer m_two_tracks with
                   | Some _ => Some MixOutput
                   | None => None
                   end.
Proof.
  apply (mix_step_calls true unity_gains MIX_WRITE two_tracks m_two_tracks);
    reflexivity.
Defined.

(** ** The sleep at the top of a cycle (lines 73-84) *)

(** The call that [sleepNs] selects: [nanosleep] when positive,
    [sched_yield] when zero, none when negative. *)
Definition sleep_calls (s : Z) : list Event :=
  if 0 <? s then [EvNanosleep s]
  else if s =? 0 then [EvSchedYield]
  else [].

Definition is_sleep_call (e : Event) : bool :=
  match e with
  | EvNanosleep _ | EvSchedYield => true
  | _ => false
  end.

Definition not_sleep_call (e : Event) : Prop := is_sleep_call e = false.

Lemma do_sleep_trace ndebug m m' :
  do_sleep ndebug m = Ok (tt, m') ->
  trace m' = trace m ++ sleep_calls (sleepNs m) /\
  sleepNs m' = FAST_DEFAULT_NS /\
  (ndebug = false -> sleepNs m < 1000000000).
Proof.
  unfold do_sleep, sleep_calls. rewrite run_gets.
  destruct (Z.leb_spec 0 (sleepNs m)) as [Hle|Hlt]; cbn [when].
  - destruct (Z.ltb_spec 0 (sleepNs m)) as [Hpos|Hzero].
    + intros H. rewrite run_assoc in H.
      assert (Hlim : ndebug = false -> sleepNs m < 1000000000).
      { intros ->. unfold ALOG_ASSERT in H. cbn [negb] in H.
        destruct (Z.ltb_spec (sleepNs m) 1000000000); [assumption|].
        discriminate. }
      apply run_assert in H. mrun_in H. unfold modify in H.
      injection H as <-. destruct m. fields. fields_in Hlim. auto.
    + intros H. mrun_in H. unfold modify in H. injection H as <-.
      assert (E : sleepNs m = 0) by lia. rewrite E. cbn [Z.eqb].
      destruct m. fields. fields_in E. split; [reflexivity|].
      split; [reflexivity|]. intros _. lia.
  - intros H. mrun_in H. unfold modify in H. injection H as <-.
    destruct (Z.ltb_spec 0 (sleepNs m)); [lia|].
    destruct (Z.eqb_spec (sleepNs m) 0); [lia|].
    destruct m. fields. fields_in Hlt. rewrite app_nil_r.
    split; [reflexivity|]. split; [reflexivity|]. intros _. lia.
Qed.

Lemma after_sleep_no_sleep_call ndebug sq env :
  steps (emits_only not_sleep_call)
        (command <- poll_state ndebug sq env ;;
         flow <- dispatch ndebug sq env command ;;
         match flow with
         | Continue => ret true
         | Return => ret false
         | Work => work ndebug sq env command ;;; ret true
         end).
Proof. unfold_phases. steps_auto; emits_side. Qed.

(** X3: a cycle makes at most one sleep call, and makes it before any other
    call: [nanosleep] for [sleepNs] nanoseconds when [sleepNs] is positive at
    the top of the cycle, [sched_yield] when it is zero, no call (busy wait)
    when it is negative.  A debug build gets through the sleep only with
    [sleepNs] below one second. *)
Lemma cycle_sleeps_once ndebug sq env (m : Machine) c m' :
  cycle ndebug sq env m = Ok (c, m') ->
  (exists rest,
      new_events m m' = sleep_calls (sleepNs m) ++ rest /\
      Forall not_sleep_call rest) /\
  (ndebug = false -> sleepNs m < 1000000000).
Proof.
  unfold cycle. rewrite run_modify. intros H.
  apply bind_inv in H as ([] & m2 & H2 & H).
  apply do_sleep_trace in H2 as (T2 & _ & Hlim).
  apply after_sleep_no_sleep_call in H as (rest & T & F).
  split; [|intros Hd; specialize (Hlim Hd); now destruct m].
  exists rest. split; [|exact F].
  apply new_events_app. rewrite T, T2. destruct m. fields.
  now rewrite app_assoc.
Qed.

Lemma cycle_sleeps_once_at_192 :
  (exists rest,
      new_events m192_first m192_underrun
      = sleep_calls (sleepNs m192_first) ++ rest /\
      Forall not_sleep_call rest) /\
  (true = false -> sleepNs m192_first < 1000000000).
Proof.
  apply (cycle_sleeps_once true mixing_192 (tick 1 8000000)
           m192_first true m192_underrun).
  vm_compute. reflexivity.
Defined.

(** ** The end of the loop (lines 146-149) *)

Definition no_event (e : Event) : Prop := False.

Lemma no_event_nil (m m' : Machine) :
  emits_only no_event m m' -> trace m' = trace m.
Proof.
  intros (evs & T & F). destruct evs as [|e evs].
  - now rewrite app_nil_r in T.
  - inversion F as [|? ? He _]. destruct He.
Qed.

Lemma poll_state_silent ndebug sq env :
  steps (rel_and (emits_only no_event) (rel_and engine_kept null_kept))
        (poll_state ndebug sq env).
Proof.
  unfold_phases. steps_auto;
    (intros m_; split; [revert m_; emits_side|split; revert m_];
     [engine_side|null_side]).
Qed.

Lemma sleep_buffer_kept ndebug :
  steps (fun m m' => mixBuffer m' = mixBuffer m) (do_sleep ndebug).
Proof.
  assert (P : PreOrder (fun m m' : Machine => mixBuffer m' = mixBuffer m)).
  { split; [intros m; reflexivity|intros a b c H1 H2; congruence]. }
  unfold_phases. steps_auto; intros m_; now destruct m_.
Qed.

(** The calls of [delete mixer; delete[] mixBuffer]: the engine and the
    buffer that exist. *)
Definition delete_calls (m : Machine) : list Event :=
  (if mixer m then [EvDeleteMixer] else [])
  ++ (if non_null (mixBuffer m) then [EvDeleteMixBuffer] else []).

Lemma dispatch_exit ndebug sq env m flow m' :
  dispatch ndebug sq env EXIT m = Ok (flow, m') ->
  flow = Return /\ trace m' = trace m ++ delete_calls m.
Proof.
  change (dispatch ndebug sq env EXIT)
    with (delete_mixer ;;; delete_mixBuffer ;;; ret Return).
  unfold delete_mixer, delete_mixBuffer, delete_calls.
  intros H. rewrite run_assoc, run_gets in H.
  destruct (mixer m); cbn [when] in H.
  - rewrite run_emit in H. rewrite run_assoc, run_gets in H.
    fields_in H. destruct m. fields_in H. fields.
    destruct (non_null mixBuffer0); cbn [when] in H.
    + rewrite run_emit in H. injection H as <- <-. fields.
      split; [reflexivity|]. now rewrite <- app_assoc.
    + rewrite run_ret in H. injection H as <- <-. fields.
      split; [reflexivity|]. now rewrite app_nil_r.
  - rewrite run_ret in H. rewrite run_assoc, run_gets in H.
    destruct (non_null (mixBuffer m)); cbn [when] in H.
    + rewrite run_emit in H. injection H as <- <-.
      split; [reflexivity|]. now destruct m.
    + rewrite run_ret in H. injection H as <- <-.
      split; [reflexivity|]. now rewrite app_nil_r.
Qed.

(** X4: the loop ends on EXIT and on nothing else: a cycle returns [false]
    exactly when the command of the state it ends on is EXIT, and it then
    has made, besides the sleep, only the [delete] of the engine and of the
    buffer, each if it exists: no mixing, no write, no clock reading. *)
Lemma loop_ends_on_exit ndebug sq env (m : Machine) c m' :
  cycle ndebug sq env m = Ok (c, m') ->
  (c = false <-> mCommand (deref sq m' (current m')) = EXIT) /\
  (c = false ->
   new_events m m' = sleep_calls (sleepNs m) ++ delete_calls m).
Proof.
  intros H.
  apply cycle_phases in H
    as (m2 & command & m3 & flow & m4 & H2 & H3 & H4 & Hflow).
  pose proof (poll_state_command _ _ _ _ _ _ H3) as Hc.
  pose proof (dispatch_flow _ _ _ _ _ _ _ H4) as Hf.
  pose proof (dispatch_refs_kept _ _ _ _ _ _ _ H4) as [(_ & C4 & P4) _].
  assert (E4 : deref sq m4 (current m4) = deref sq m3 (current m3))
    by (rewrite C4; now apply deref_same_preIdle).
  destruct flow.
  - destruct Hflow as [Hw ->]. destruct Hf as (-> & _ & _ & _ & Hne).
    apply work_refs in Hw as (_ & Cw & Pw).
    assert (Ew : deref sq m' (current m') = deref sq m3 (current m3))
      by (rewrite Cw; now apply deref_same_preIdle).
    rewrite Ew, <- Hc. split; [|discriminate]. split; [discriminate|].
    intros E. contradiction.
  - destruct Hflow as [-> ->]. rewrite E4, <- Hc.
    split; [|discriminate]. split; [discriminate|].
    intros E. rewrite E in Hf. destruct Hf as [F|[F|F]]; discriminate.
  - destruct Hflow as [-> ->]. rewrite E4, <- Hc, Hf.
    split; [split; reflexivity|]. intros _.
    rewrite Hf in H4. apply dispatch_exit in H4 as [_ T4].
    pose proof H2 as S2. apply do_sleep_trace in S2 as (T2 & _ & _).
    pose proof H2 as B2. apply sleep_buffer_kept in B2.
    apply sleep_kept in H2 as (_ & (M2 & _) & _).
    apply poll_state_silent in H3 as (T3 & (M3 & _) & N3).
    apply no_event_nil in T3.
    apply new_events_app. rewrite T4, T3, T2.
    unfold delete_calls, null_kept in *. rewrite M3, M2, N3, B2.
    destruct m. fields. now rewrite <- app_assoc.
Qed.

(** A worker that has been mixing 192 frames is told to exit. *)
Definition mix_then_exit (k : nat) : FastMixerState :=
  match k with
  | O => snapshot MIX_WRITE 192 (Some 0%nat) 1
  | _ => snapshot EXIT 192 (Some 0%nat) 1
  end.

Definition m192_exited : Machine :=
  Eval vm_compute in
    after_cycle mix_then_exit (answers (Some 1%nat) 48000 192 None)
                m192_first.

Lemma loop_ends_on_exit_after_mixing :
  (false = false
   <-> mCommand (deref mix_then_exit m192_exited (current m192_exited))
       = EXIT) /\
  (false = false ->
   new_events m192_first m192_exited
   = sleep_calls (sleepNs m192_first) ++ delete_calls m192_first).
Proof.
  apply (loop_ends_on_exit true mix_then_exit
           (answers (Some 1%nat) 48000 192 None) m192_first).
  vm_compute. reflexivity.
Defined.

(** ** The dump area the worker writes (lines 98, 124) *)

(** [next->mDumpState != NULL ? next->mDumpState : &dummyDumpState] *)
Definition dump_ref (d : option nat) : DumpRef :=
  match d with
  | Some k => RefDump k
  | None => RefDummy
  end.

(** The worker writes to the dump area that its current state names. *)
Definition bound_to_current (sq : nat -> FastMixerState) (m : Machine) : Prop :=
  dumpState m = dump_ref (mDumpState (deref sq m (current m))).

Lemma poll_state_binds ndebug sq (env : Env) (m : Machine) k :
  sq_poll env = Some k ->
  current m <> RefQueue k ->
  exists m',
    poll_state ndebug sq env m = Ok (mCommand (sq k), m') /\
    dumpState m' = dump_ref (mDumpState (sq k)).
Proof.
  intros Hpoll Hnew.
  assert (Hne : StateRef_eqb (RefQueue k) (current m) = false)
    by (apply StateRef_eqb_neq; congruence).
  destruct m; cbn in *.
  unfold poll_state. msimpl. rewrite Hpoll. msimpl. rewrite Hne. msimpl.
  destruct current0 as [| |j]; cbn [deref];
    match goal with
    | |- context [has_flag (mCommand ?s) IDLE] =>
        destruct (has_flag (mCommand s) IDLE) eqn:Eold
    end; msimpl;
    try (destruct (has_flag (mCommand (sq k)) IDLE) eqn:Enew; msimpl);
    (eexists; split; [reflexivity|]); cbn;
    destruct (mDumpState (sq k)); reflexivity.
Qed.

Lemma poll_state_records ndebug sq env m command m' :
  poll_state ndebug sq env m = Ok (command, m') ->
  exists m1,
    m' = update_dump (set_dCommand command) m1 /\
    keeps (fun d => d) m m1.
Proof.
  unfold poll_state. rewrite !run_gets. intros H.
  apply bind_inv in H as (next & m0 & Hnext & H).
  assert (Hm0 : m0 = m).
  { destruct (sq_poll env) as [k|].
    - now injection Hnext as _ <-.
    - apply bind_inv in Hnext as ([] & m1 & Ha & Hr).
      injection Hr as _ <-.
      unfold ALOG_ASSERT in Ha. destruct ndebug; [now injection Ha|].
      destruct (_ && _); [now injection Ha|discriminate]. }
  subst m0. rewrite run_get in H.
  apply bind_inv in H as ([] & m1 & Hchange & H).
  apply bind_inv in H as ([] & m2 & Hdump & Hret).
  injection Hret as <- <-. injection Hdump as <-.
  exists m1. split; [reflexivity|].
  by_steps (keeps (fun d : FastMixerDumpState => d)) Hchange keeps_side.
  exact Hchange.
Qed.

Lemma after_poll_binding ndebug sq env command :
  steps (rel_and same_binding current_kept)
        (flow <- dispatch ndebug sq env command ;;
         match flow with
         | Work => work ndebug sq env command ;;; ret true
         | Continue => ret true
         | Return => ret false
         end).
Proof.
  unfold_phases. steps_auto;
    (intros m_; split; [revert m_; binding_side|revert m_; current_side]).
Qed.

Lemma sleep_binding ndebug :
  steps (rel_and same_binding current_kept) (do_sleep ndebug).
Proof.
  unfold_phases. steps_auto;
    (intros m_; split; [revert m_; binding_side|revert m_; current_side]).
Qed.

Lemma cycle_split ndebug sq env m c m' :
  cycle ndebug sq env m = Ok (c, m') ->
  exists m2 command m3,
    do_sleep ndebug (set_nameSupply (track_names env) m) = Ok (tt, m2) /\
    poll_state ndebug sq env m2 = Ok (command, m3) /\
    (flow <- dispatch ndebug sq env command ;;
     match flow with
     | Work => work ndebug sq env command ;;; ret true
     | Continue => ret true
     | Return => ret false
     end) m3 = Ok (c, m').
Proof.
  unfold cycle. rewrite run_modify. intros H.
  apply bind_inv in H as ([] & m2 & H2 & H).
  apply bind_inv in H as (command & m3 & H3 & H).
  now exists m2, command, m3.
Qed.

Lemma cycle_bound ndebug sq env m c m' :
  bound_to_current sq m ->
  cycle ndebug sq env m = Ok (c, m') ->
  bound_to_current sq m' /\
  dCommand (dump_of m') = mCommand (deref sq m' (current m')).
Proof.
  intros Inv H. apply cycle_split in H as (m2 & command & m3 & H2 & H3 & H).
  apply sleep_binding in H2 as [B2 [C2 P2]].
  pose proof (dCommand_kept_after_poll _ _ _ _ _ _ _ H) as [_ D].
  apply after_poll_binding in H as [B [C P]].
  unfold same_binding in *.
  assert (E : deref sq m' (current m') = deref sq m3 (current m3))
    by (rewrite C; now apply deref_same_preIdle).
  pose proof (poll_state_command _ _ _ _ _ _ H3) as Hc.
  assert (Hd3 : dCommand (dump_of m3) = command).
  { apply poll_state_records in H3 as (m1 & -> & _).
    now rewrite dump_of_update_dump. }
  split.
  - unfold bound_to_current. rewrite B, E.
    pose proof H3 as Hcases.
    apply poll_state_cases in Hcases
      as [(_ & -> & _)|(k & Hk & Hne & Hcur)].
    + rewrite dumpState_update_dump.
      destruct (refs_kept_update_dump (set_dCommand command) m2)
        as (_ & -> & R).
      rewrite (deref_same_preIdle sq m2 _ _ R).
      rewrite B2, C2, (deref_same_preIdle sq _ m2 _ P2).
      unfold bound_to_current in Inv. now destruct m.
    + destruct (poll_state_binds ndebug sq env m2 k Hk Hne)
        as (m3' & Hrun & Hb).
      rewrite Hrun in H3. injection H3 as _ <-.
      now rewrite Hb, Hcur.
  - rewrite !dump_of_dump_at, B, (D (dumpState m3)), <- dump_of_dump_at.
    now rewrite E, <- Hc.
Qed.

(** X5: at the end of every cycle of the loop the worker is bound to the
    dump area that its current state names, or to its own dummy area when
    the state names none, and that area holds the command of the current
    state. *)
Lemma dump_area_follows_state ndebug sq areas envs env (m : Machine) c m' :
  run ndebug sq envs (init_machine areas) = Ok (Some m) ->
  cycle ndebug sq env m = Ok (c, m') ->
  dumpState m' = dump_ref (mDumpState (deref sq m' (current m'))) /\
  dCommand (dump_of m') = mCommand (deref sq m' (current m')).
Proof.
  intros Hreach H.
  assert (Inv : bound_to_current sq m).
  { revert Hreach. apply (run_invariant ndebug sq (bound_to_current sq)).
    - intros env0 m0 m1 I0 H0. now apply (cycle_bound _ _ _ _ _ _ I0 H0).
    - reflexivity. }
  exact (cycle_bound _ _ _ _ _ _ Inv H).
Qed.

(** X6: a cycle writes to no dump area but the one it ends bound to: every
    other area, the worker's own dummy area included, is as it was before
    the cycle. *)
Lemma other_dump_areas_untouched ndebug sq env (m : Machine) c m' :
  cycle ndebug sq env m = Ok (c, m') ->
  forall r, r <> dumpState m' -> dump_at m' r = dump_at m r.
Proof.
  intros H r Hr.
  apply cycle_split in H as (m2 & command & m3 & H2 & H3 & H).
  assert (K2 : keeps (fun d : FastMixerDumpState => d)
                 (set_nameSupply (track_names env) m) m2).
  { by_steps (keeps (fun d : FastMixerDumpState => d)) H2 keeps_side.
    exact H2. }
  apply poll_state_records in H3 as (m1 & -> & K1).
  assert (K : others_kept (update_dump (set_dCommand command) m1) m').
  { assert (S : steps others_kept
                  (flow <- dispatch ndebug sq env command ;;
                   match flow with
                   | Work => work ndebug sq env command ;;; ret true
                   | Continue => ret true
                   | Return => ret false
                   end))
      by (unfold_phases; steps_auto; others_side).
    now apply S in H. }
  destruct K as [B K]. rewrite K by congruence.
  destruct (others_kept_update_dump (set_dCommand command) m1) as [B1 K3].
  rewrite K3 by congruence.
  rewrite (K1 r), (K2 r). now destruct m, r.
Qed.

(** A working state that names dump area 3. *)
Definition dumping (k : nat) : FastMixerState :=
  mkFastMixerState (replicate kMaxFastTracks default_FastTrack)
                   0 0 (Some 0%nat) 1 192 MIX_WRITE None 0 (Some 3%nat).

Definition m_dumping : Machine :=
  Eval vm_compute in after_cycle dumping (tick 1 0) machine0.

Lemma dump_area_follows_state_first_cycle :
  dumpState m_dumping
  = dump_ref (mDumpState (deref dumping m_dumping (current m_dumping))) /\
  dCommand (dump_of m_dumping)
  = mCommand (deref dumping m_dumping (current m_dumping)).
Proof.
  apply (dump_area_follows_state true dumping no_dump_areas []
           (tick 1 0) machine0 true);
    vm_compute; reflexivity.
Defined.

Lemma other_dump_areas_untouched_first_cycle :
  dumpState m_dumping = RefDump 3 /\
  dump_at m_dumping RefDummy = dump_at machine0 RefDummy /\
  dump_at m_dumping (RefDump 2) = dump_at machine0 (RefDump 2).
Proof.
  split; [reflexivity|].
  split;
    apply (other_dump_areas_untouched true dumping (tick 1 0) machine0 true);
    vm_compute; congruence.
Defined.

(** ** Idle cycles (lines 126-145) *)

(** What the worker holds of the configuration it has applied. *)
Definition configuration (m : Machine) :=
  (fastTrackNames m, generations m, fastTracksGen m, outputSink m,
   outputSinkGen m, mixer m, mixBuffer m, mixBufferState m, format m,
   sampleRate m, periodNs m, underrunNs m, overrunNs m).

Definition config_kept (m m' : Machine) : Prop :=
  configuration m' = configuration m.

#[local] Instance config_kept_preorder : PreOrder config_kept.
Proof.
  split; [intros m; reflexivity|].
  intros a b c H1 H2. unfold config_kept in *. congruence.
Qed.

Lemma config_kept_update_dump f m : config_kept m (update_dump f m).
Proof.
  destruct m. unfold update_dump, config_kept. cbn. now destruct dumpState0.
Qed.

(** The counters of a dump area, its command apart. *)
Definition counters (d : FastMixerDumpState) :=
  (mWriteSequence d, mFramesWritten d, mNumTracks d, mWriteErrors d,
   mUnderruns d, mOverruns d).

Definition is_idle_call (e : Event) : bool :=
  is_sleep_call e || is_futex_op e.

Definition idle_call (e : Event) : Prop := is_idle_call e = true.

Definition idle_only : Machine -> Machine -> Prop :=
  rel_and (emits_only idle_call) (rel_and config_kept (keeps counters)).

Ltac idle_side :=
  intros m_; split;
  [ revert m_; emits_side
  | split;
    [ first [ apply config_kept_update_dump | now destruct m_ ]
    | revert m_; keeps_side ] ].

Lemma sleep_poll_idle_only ndebug sq env :
  steps idle_only
        (modify (set_nameSupply (track_names env)) ;;;
         do_sleep ndebug ;;;
         poll_state ndebug sq env).
Proof. unfold_phases. steps_auto; idle_side. Qed.

Lemma cold_idle_idle_only sq env : steps idle_only (cold_idle sq env).
Proof. unfold_phases. steps_auto; idle_side. Qed.

Lemma hot_idle_idle_only :
  steps idle_only (modify (set_sleepNs FAST_HOT_IDLE_NS) ;;; ret Continue).
Proof. steps_auto; idle_side. Qed.

Lemma cycle_until_dispatch ndebug sq env m c m' :
  cycle ndebug sq env m = Ok (c, m') ->
  exists m3 flow m4,
    (modify (set_nameSupply (track_names env)) ;;;
     do_sleep ndebug ;;;
     poll_state ndebug sq env) m
    = Ok (mCommand (deref sq m' (current m')), m3) /\
    dispatch ndebug sq env (mCommand (deref sq m' (current m'))) m3
    = Ok (flow, m4) /\
    match flow with
    | Work => work ndebug sq env (mCommand (deref sq m' (current m'))) m4
              = Ok (tt, m') /\ c = true
    | Continue => m' = m4 /\ c = true
    | Return => m' = m4 /\ c = false
    end.
Proof.
  intros H.
  apply cycle_phases in H
    as (m2 & command & m3 & flow & m4 & H2 & H3 & H4 & Hflow).
  pose proof (poll_state_command _ _ _ _ _ _ H3) as Hc.
  pose proof (dispatch_refs_kept _ _ _ _ _ _ _ H4) as [(_ & C4 & P4) _].
  assert (E4 : deref sq m4 (current m4) = deref sq m3 (current m3))
    by (rewrite C4; now apply deref_same_preIdle).
  assert (E : deref sq m' (current m') = deref sq m3 (current m3)).
  { destruct flow.
    - destruct Hflow as [Hw _].
      apply work_refs in Hw as (_ & Cw & Pw).
      rewrite Cw, <- E4. now apply deref_same_preIdle.
    - now destruct Hflow as [-> _].
    - now destruct Hflow as [-> _]. }
  rewrite E, <- Hc. exists m3, flow, m4. split; [|now split].
  rewrite run_modify. now rewrite (bind_Ok _ _ _ _ _ H2).
Qed.

Lemma sleep_poll_trace ndebug sq env m command m3 :
  (modify (set_nameSupply (track_names env)) ;;;
   do_sleep ndebug ;;;
   poll_state ndebug sq env) m = Ok (command, m3) ->
  trace m3 = trace m ++ sleep_calls (sleepNs m).
Proof.
  rewrite run_modify. intros H.
  apply bind_inv in H as ([] & m2 & H2 & H3).
  apply do_sleep_trace in H2 as (T2 & _ & _).
  apply poll_state_silent in H3 as (T3 & _).
  apply no_event_nil in T3. rewrite T3, T2. now destruct m.
Qed.

(** X7: a cycle that ends on a state whose command is INITIAL, HOT_IDLE or
    COLD_IDLE goes on to the next cycle, calls nothing but the sleep and the
    futex, and leaves the applied configuration (engine, buffer, sink,
    format, timing constants, track handles and generations) and every
    counter of every dump area as they were.  When the command is not
    COLD_IDLE the sleep is its only call and the next sleep is 1 ms. *)
Lemma idle_cycle_quiet ndebug sq env (m : Machine) c m' :
  cycle ndebug sq env m = Ok (c, m') ->
  mCommand (deref sq m' (current m')) = INITIAL \/
  mCommand (deref sq m' (current m')) = HOT_IDLE \/
  mCommand (deref sq m' (current m')) = COLD_IDLE ->
  c = true /\
  Forall idle_call (new_events m m') /\
  configuration m' = configuration m /\
  (forall r, counters (dump_at m' r) = counters (dump_at m r)) /\
  (mCommand (deref sq m' (current m')) <> COLD_IDLE ->
   new_events m m' = sleep_calls (sleepNs m) /\
   sleepNs m' = FAST_HOT_IDLE_NS).
Proof.
  intros H Hcmd.
  apply cycle_until_dispatch in H as (m3 & flow & m4 & H3 & H4 & Hflow).
  pose proof (dispatch_flow _ _ _ _ _ _ _ H4) as Hf.
  destruct flow.
  { exfalso. destruct Hf as (_ & F1 & F2 & F3 & _).
    destruct Hcmd as [E|[E|E]]; contradiction. }
  2:{ exfalso. rewrite Hf in Hcmd.
      destruct Hcmd as [E|[E|E]]; discriminate. }
  destruct Hflow as [-> ->]. clear Hf.
  pose proof (sleep_poll_trace _ _ _ _ _ _ H3) as Tsleep.
  apply sleep_poll_idle_only in H3 as (T3 & K3 & D3).
  assert (K4 : idle_only m3 m4 /\
               (mCommand (deref sq m4 (current m4)) <> COLD_IDLE ->
                trace m4 = trace m3 /\ sleepNs m4 = FAST_HOT_IDLE_NS)).
  { destruct Hcmd as [E|[E|E]]; rewrite E in H4 |- *.
    - change (dispatch ndebug sq env INITIAL)
        with (modify (set_sleepNs FAST_HOT_IDLE_NS) ;;; ret Continue) in H4.
      split; [now apply hot_idle_idle_only in H4|].
      injection H4 as <-. intros _. now destruct m3.
    - change (dispatch ndebug sq env HOT_IDLE)
        with (modify (set_sleepNs FAST_HOT_IDLE_NS) ;;; ret Continue) in H4.
      split; [now apply hot_idle_idle_only in H4|].
      injection H4 as <-. intros _. now destruct m3.
    - change (dispatch ndebug sq env COLD_IDLE)
        with (cold_idle sq env ;;; ret (A := Flow) Continue) in H4.
      apply bind_inv in H4 as ([] & m5 & H5 & Hr). injection Hr as <-.
      split; [now apply cold_idle_idle_only in H5|]. intros F. congruence. }
  destruct K4 as [(T4 & K4 & D4) Hhot].
  split; [reflexivity|].
  assert (T : emits_only idle_call m m4) by (etransitivity; eassumption).
  destruct T as (evs & T & F).
  split; [now rewrite (new_events_app m m4 evs T)|].
  split; [unfold config_kept in *; congruence|].
  split; [intros r; now rewrite (D4 r), (D3 r)|].
  intros Hne. destruct (Hhot Hne) as [T5 S5]. split; [|exact S5].
  apply new_events_app. now rewrite T5.
Qed.

Definition m192_idle : Machine :=
  Eval vm_compute in
    after_cycle mix_then_idle (answers (Some 1%nat) 48000 192 None)
                m192_first.

Lemma idle_cycle_quiet_after_mixing :
  true = true /\
  Forall idle_call (new_events m192_first m192_idle) /\
  configuration m192_idle = configuration m192_first /\
  (forall r, counters (dump_at m192_idle r)
             = counters (dump_at m192_first r)) /\
  (mCommand (deref mix_then_idle m192_idle (current m192_idle)) <> COLD_IDLE ->
   new_events m192_first m192_idle = sleep_calls (sleepNs m192_first) /\
   sleepNs m192_idle = FAST_HOT_IDLE_NS).
Proof.
  apply (idle_cycle_quiet true mix_then_idle
           (answers (Some 1%nat) 48000 192 None) m192_first true m192_idle).
  - vm_compute. reflexivity.
  - right. left. vm_compute. reflexivity.
Defined.

(** ** The next sleep (lines 84, 129, 140-143, 354-391) *)

Lemma periodNs_update_dump f m : periodNs (update_dump f m) = periodNs m.
Proof. destruct m. unfold update_dump. cbn. now destruct dumpState0. Qed.

Lemma overrunNs_update_dump f m : overrunNs (update_dump f m) = overrunNs m.
Proof. destruct m. unfold update_dump. cbn. now destruct dumpState0. Qed.

Lemma sleepNs_update_dump f m : sleepNs (update_dump f m) = sleepNs m.
Proof. destruct m. unfold update_dump. cbn. now destruct dumpState0. Qed.

Lemma timing_sleep env m m' :
  timing env m = Ok (tt, m') ->
  periodNs m' = periodNs m /\ overrunNs m' = overrunNs m /\
  (sleepNs m' = -1 \/ sleepNs m' = periodNs m \/
   sleepNs m' = to_long (periodNs m - overrunNs m)).
Proof.
  unfold timing. rewrite run_emit.
  destruct (clock env) as [newTs|].
  - rewrite run_get. fields. destruct (oldTsValid m).
    + destruct (interval newTs (oldTs m)) as [sec nsec].
      unfold classify. rewrite run_assoc, run_get. fields.
      destruct ((0 <? sec) || (underrunNs m <? nsec)).
      * intros H. mrun_in H. unfold modify in H. injection H as <-.
        fields. rewrite periodNs_update_dump, overrunNs_update_dump.
        destruct m. fields. auto.
      * destruct (nsec <? overrunNs m).
        -- destruct (ignoreNextOverrun m);
             intros H; mrun_in H; unfold modify in H; injection H as <-;
             fields; rewrite ?periodNs_update_dump, ?overrunNs_update_dump;
             destruct m; fields; auto.
        -- intros H. mrun_in H. unfold modify in H. injection H as <-.
           destruct m. fields. auto.
    + intros H. mrun_in H. unfold modify in H. injection H as <-.
      destruct m. fields. auto.
  - intros H. mrun_in H. unfold modify in H. injection H as <-.
    destruct m. fields. auto.
Qed.

Lemma dispatch_continue_sleep ndebug sq env command m m' :
  dispatch ndebug sq env command m = Ok (Continue, m') ->
  sleepNs m' = FAST_HOT_IDLE_NS \/ sleepNs m' = -1.
Proof.
  intros H. pose proof (dispatch_flow _ _ _ _ _ _ _ H) as [E|[E|E]];
    rewrite E in H.
  - change (dispatch ndebug sq env INITIAL)
      with (modify (set_sleepNs FAST_HOT_IDLE_NS) ;;; ret Continue) in H.
    injection H as <-. left. now destruct m.
  - change (dispatch ndebug sq env HOT_IDLE)
      with (modify (set_sleepNs FAST_HOT_IDLE_NS) ;;; ret Continue) in H.
    injection H as <-. left. now destruct m.
  - change (dispatch ndebug sq env COLD_IDLE)
      with (cold_idle sq env ;;; ret (A := Flow) Continue) in H.
    apply bind_inv in H as ([] & m1 & H & Hr). injection Hr as <-.
    unfold cold_idle in H. rewrite run_get in H.
    destruct (negb _).
    + destruct (mColdFutexAddr _) as [addr|]; [|discriminate].
      rewrite run_emit in H.
      destruct (atomic_dec_old env <=? 0); cbn [when] in H;
        mrun_in H; unfold modify in H; injection H as <-;
        right; now destruct m.
    + injection H as <-. left. now destruct m.
Qed.

(** X8: every cycle that goes on to the next one has chosen its sleep: the
    default of nearly one second assigned at the top of the cycle never
    stays.  The next sleep is 1 ms (hot idle), a busy wait, the period, or
    the period less the overrun threshold. *)
Lemma next_sleep_chosen ndebug sq env (m : Machine) m' :
  cycle ndebug sq env m = Ok (true, m') ->
  sleepNs m' = FAST_HOT_IDLE_NS \/ sleepNs m' = -1 \/
  sleepNs m' = periodNs m' \/
  sleepNs m' = to_long (periodNs m' - overrunNs m').
Proof.
  intros H.
  apply cycle_phases in H
    as (m2 & command & m3 & flow & m4 & H2 & H3 & H4 & Hflow).
  destruct flow.
  - destruct Hflow as [Hw _].
    apply work_inv in Hw as (m5 & m6 & m7 & _ & _ & _ & Ht).
    apply timing_sleep in Ht as (-> & -> & [S|[S|S]]); auto.
  - destruct Hflow as [-> _].
    apply dispatch_continue_sleep in H4 as [S|S]; auto.
  - destruct Hflow as [_ F]. discriminate.
Qed.

Lemma next_sleep_chosen_at_192 :
  sleepNs m192_underrun = FAST_HOT_IDLE_NS \/ sleepNs m192_underrun = -1 \/
  sleepNs m192_underrun = periodNs m192_underrun \/
  sleepNs m192_underrun
  = to_long (periodNs m192_underrun - overrunNs m192_underrun).
Proof.
  apply (next_sleep_chosen true mixing_192 (tick 1 8000000) m192_first).
  vm_compute. reflexivity.
Defined.

(** ** Time that is not measured (lines 113, 341-391) *)

Definition timing_counters (d : FastMixerDumpState) : Z * Z :=
  (mUnderruns d, mOverruns d).

(** Once [oldTsValid] is false it stays so. *)
Definition stays_invalid (m m' : Machine) : Prop :=
  oldTsValid m = false -> oldTsValid m' = false.

#[local] Instance stays_invalid_preorder : PreOrder stays_invalid.
Proof.
  split; [intros m H; exact H|].
  intros a b c H1 H2 H. apply H2, H1, H.
Qed.

Lemma oldTsValid_update_dump f m :
  oldTsValid (update_dump f m) = oldTsValid m.
Proof. destruct m. unfold update_dump. cbn. now destruct dumpState0. Qed.

Definition unmeasured : Machine -> Machine -> Prop :=
  rel_and (keeps timing_counters) stays_invalid.

Ltac unmeasured_side :=
  intros m_; split;
  [ revert m_; keeps_side
  | unfold stays_invalid;
    first [ now rewrite oldTsValid_update_dump
          | destruct m_; cbn; auto ] ].

Lemma sleep_poll_unmeasured ndebug sq env :
  steps unmeasured
        (modify (set_nameSupply (track_names env)) ;;;
         do_sleep ndebug ;;;
         poll_state ndebug sq env).
Proof. unfold_phases. steps_auto; unmeasured_side. Qed.

Lemma dispatch_unmeasured ndebug sq env command :
  steps unmeasured (dispatch ndebug sq env command).
Proof. unfold_phases. steps_auto; unmeasured_side. Qed.

Lemma state_change_unmeasured ndebug sq env :
  steps unmeasured (state_change ndebug sq env).
Proof. unfold_phases. steps_auto; unmeasured_side. Qed.

Lemma mix_step_unmeasured ndebug env command cur :
  steps unmeasured (mix_step ndebug env command cur).
Proof. unfold_phases. steps_auto; unmeasured_side. Qed.

Lemma write_step_unmeasured env command cur :
  steps unmeasured (write_step env command cur).
Proof. unfold_phases. steps_auto; unmeasured_side. Qed.

Lemma timing_unmeasured env m m' :
  oldTsValid m = false ->
  timing env m = Ok (tt, m') ->
  keeps timing_counters m m'.
Proof.
  intros Hv. unfold timing. rewrite run_emit.
  destruct (clock env) as [newTs|].
  - rewrite run_get. fields. rewrite Hv.
    intros H. mrun_in H. unfold modify in H. injection H as <-.
    intros r. now destruct m, r.
  - intros H. mrun_in H. unfold modify in H. injection H as <-.
    intros r. now destruct m, r.
Qed.

(** X9: time that was not measured is not classified.  A cycle that starts
    with [oldTsValid] false (as at the start of the loop, after the entry
    into idle and after a failed clock reading) counts neither an underrun
    nor an overrun in any dump area, however long ago the last cycle was;
    and if it ends on an idle state (INITIAL, HOT_IDLE or COLD_IDLE),
    [oldTsValid] is still false for the next cycle. *)
Lemma unmeasured_time_not_counted ndebug sq env (m : Machine) c m' :
  oldTsValid m = false ->
  cycle ndebug sq env m = Ok (c, m') ->
  (forall r, mUnderruns (dump_at m' r) = mUnderruns (dump_at m r) /\
             mOverruns (dump_at m' r) = mOverruns (dump_at m r)) /\
  (mCommand (deref sq m' (current m')) = INITIAL \/
   mCommand (deref sq m' (current m')) = HOT_IDLE \/
   mCommand (deref sq m' (current m')) = COLD_IDLE ->
   oldTsValid m' = false).
Proof.
  intros Hv H.
  apply cycle_until_dispatch in H as (m3 & flow & m4 & H3 & H4 & Hflow).
  pose proof (dispatch_flow _ _ _ _ _ _ _ H4) as Hf.
  apply sleep_poll_unmeasured in H3 as [K3 V3].
  apply dispatch_unmeasured in H4 as [K4 V4].
  assert (V : oldTsValid m4 = false) by (apply V4, V3, Hv).
  assert (K : keeps timing_counters m m4) by (etransitivity; eassumption).
  assert (G : keeps timing_counters m m' /\
              (flow <> Work -> oldTsValid m' = false)).
  { destruct flow.
    - destruct Hflow as [Hw _].
      apply work_inv in Hw as (m5 & m6 & m7 & H5 & H6 & H7 & Ht).
      apply state_change_unmeasured in H5 as [K5 V5].
      apply mix_step_unmeasured in H6 as [K6 V6].
      apply write_step_unmeasured in H7 as [K7 V7].
      assert (V' : oldTsValid m7 = false) by (apply V7, V6, V5, V).
      apply (timing_unmeasured _ _ _ V') in Ht.
      split; [|congruence].
      transitivity m4; [exact K|]. transitivity m5; [exact K5|].
      transitivity m6; [exact K6|]. transitivity m7; assumption.
    - destruct Hflow as [-> _]. now split.
    - destruct Hflow as [-> _]. now split. }
  destruct G as [G1 G2]. split.
  - intros r. specialize (G1 r). unfold timing_counters in G1.
    now injection G1.
  - intros Hcmd. apply G2. intros ->.
    destruct Hf as (_ & F1 & F2 & F3 & _).
    destruct Hcmd as [E|[E|E]]; contradiction.
Qed.

(** The worker resumes mixing 99 s after it went idle. *)
Definition m192_resumed : Machine :=
  Eval vm_compute in
    after_cycle mix_then_idle (answers (Some 0%nat) 48000 192 (Some (100, 0)))
                m192_idle.

Lemma unmeasured_time_not_counted_on_resume :
  (forall r, mUnderruns (dump_at m192_resumed r)
             = mUnderruns (dump_at m192_idle r) /\
             mOverruns (dump_at m192_resumed r)
             = mOverruns (dump_at m192_idle r)) /\
  (mCommand (deref mix_then_idle m192_resumed (current m192_resumed))
   = INITIAL \/
   mCommand (deref mix_then_idle m192_resumed (current m192_resumed))
   = HOT_IDLE \/
   mCommand (deref mix_then_idle m192_resumed (current m192_resumed))
   = COLD_IDLE ->
   oldTsValid m192_resumed = false).
Proof.
  apply (unmeasured_time_not_counted true mix_then_idle
           (answers (Some 0%nat) 48000 192 (Some (100, 0)))
           m192_idle true m192_resumed).
  - vm_compute. reflexivity.
  - vm_compute. reflexivity.
Defined.

(** ** What a track diff leaves in [generations] (lines 214-287) *)

Definition gens_kept (m m' : Machine) : Prop :=
  generations m' = generations m.

#[local] Instance gens_kept_preorder : PreOrder gens_kept.
Proof.
  split; [intros m; reflexivity|].
  intros a b c H1 H2. unfold gens_kept in *. congruence.
Qed.

Ltac gens_side :=
  intros m_; unfold gens_kept;
  first [ apply generations_update_dump | now destruct m_ ].

(** [generations[i] = g] and nothing else of [generations]. *)
Definition slot_set (i : nat) (g : Z) (m m' : Machine) : Prop :=
  length (generations m') = length (generations m) /\
  at_index (generations m') i = g /\
  forall j, j <> i -> at_index (generations m') j = at_index (generations m) j.

Lemma at_index_insert (l : list Z) i v :
  (i < length l)%nat -> at_index (<[i := v]> l) i = v.
Proof.
  intros H. unfold at_index.
  rewrite list_lookup_insert_eq by exact H. reflexivity.
Qed.

Lemma set_generation_slot i g m m' :
  (i < length (generations m))%nat ->
  set_generation i g m = Ok (tt, m') -> slot_set i g m m'.
Proof.
  intros Hi H. unfold set_generation, modify in H. injection H as <-.
  destruct m. fields. fields_in Hi. split; [apply length_insert|].
  split; [now apply at_index_insert|].
  intros j Hj. apply at_index_insert_ne. congruence.
Qed.

Lemma removed_track_slot ndebug cur i m m' :
  (i < length (generations m))%nat ->
  removed_track ndebug cur i m = Ok (tt, m') ->
  slot_set i (mGeneration (fastTrack_at cur i)) m m'.
Proof.
  intros Hi H. unfold removed_track in H. rewrite run_get in H.
  apply bind_inv in H as ([] & m1 & H1 & H).
  apply bind_inv in H as ([] & m2 & H2 & H).
  by_steps gens_kept H1 gens_side. by_steps gens_kept H2 gens_side.
  unfold gens_kept in *.
  apply set_generation_slot in H; [|congruence].
  unfold slot_set in *. now rewrite H2, H1 in H.
Qed.

Lemma added_track_slot ndebug cur i m m' :
  (i < length (generations m))%nat ->
  added_track ndebug cur i m = Ok (tt, m') ->
  slot_set i (mGeneration (fastTrack_at cur i)) m m'.
Proof.
  intros Hi H. unfold added_track in H. rewrite run_get in H.
  apply run_assert in H.
  apply bind_inv in H as ([] & m1 & H1 & H).
  by_steps gens_kept H1 gens_side. unfold gens_kept in *.
  apply set_generation_slot in H; [|congruence].
  unfold slot_set in *. now rewrite H1 in H.
Qed.

Lemma modified_track_slot ndebug cur i m m' :
  (i < length (generations m))%nat ->
  modified_track ndebug cur i m = Ok (tt, m') ->
  slot_set i (mGeneration (fastTrack_at cur i)) m m'.
Proof.
  intros Hi H. unfold modified_track in H. rewrite run_get in H.
  destruct (Z.eqb_spec (mGeneration (fastTrack_at cur i))
                       (at_index (generations m) i)) as [E|E];
    cbn [negb when] in H.
  - injection H as <-. split; [reflexivity|]. split; [now symmetry|].
    reflexivity.
  - apply run_assert in H.
    apply bind_inv in H as ([] & m1 & H1 & H).
    by_steps gens_kept H1 gens_side. unfold gens_kept in *.
    apply set_generation_slot in H; [|congruence].
    unfold slot_set in *. now rewrite H1 in H.
Qed.

(** [i] is one of [slots]. *)
Definition among (slots : list nat) (i : nat) : bool :=
  existsb (Nat.eqb i) slots.

Lemma for_each_slots body (g : nat -> Z) :
  (forall i m m',
      (i < length (generations m))%nat ->
      body i m = Ok (tt, m') -> slot_set i (g i) m m') ->
  forall slots m m',
    (forall i, In i slots -> (i < length (generations m))%nat) ->
    for_each slots body m = Ok (tt, m') ->
    length (generations m') = length (generations m) /\
    forall j, at_index (generations m') j
              = if among slots j then g j else at_index (generations m) j.
Proof.
  intros Hbody slots.
  induction slots as [|i rest IH]; intros m m' Hin H; cbn [for_each] in H.
  - injection H as <-. split; reflexivity.
  - apply bind_inv in H as ([] & m1 & H1 & H).
    destruct (Hbody i m m1 (Hin i (or_introl eq_refl)) H1) as (L1 & S1 & O1).
    destruct (IH m1 m') as [L G]; [|exact H|].
    { intros j Hj. rewrite L1. apply Hin. now right. }
    split; [congruence|]. intros j. rewrite G. unfold among. cbn [existsb].
    destruct (existsb (Nat.eqb j) rest); [now rewrite orb_true_r|].
    rewrite orb_false_r.
    destruct (Nat.eqb_spec j i) as [->|Hne]; [exact S1|now apply O1].
Qed.

Lemma among_filter (p : nat -> bool) j :
  among (List.filter p (seq 0 32)) j = (j <? 32)%nat && p j.
Proof.
  unfold among.
  destruct (existsb (Nat.eqb j) (List.filter p (seq 0 32))) eqn:E.
  - apply existsb_exists in E as (x & Hx & Hj).
    apply Nat.eqb_eq in Hj. subst x.
    apply filter_In in Hx as [Hs Hp]. apply in_seq in Hs.
    rewrite Hp. symmetry. rewrite andb_true_r. apply Nat.ltb_lt. lia.
  - destruct (Nat.ltb_spec j 32) as [Hlt|Hge]; [|reflexivity].
    destruct (p j) eqn:Hp; [|reflexivity].
    exfalso. assert (F : existsb (Nat.eqb j) (List.filter p (seq 0 32)) = true).
    { apply existsb_exists. exists j. split; [|apply Nat.eqb_refl].
      apply filter_In. split; [apply in_seq; lia|exact Hp]. }
    congruence.
Qed.

(** The three loops of a diff over given lists of slots. *)
Definition diff_over (ndebug : bool) (cur : FastMixerState)
  (removed added modified : list nat) : M unit :=
  g <- gets fastTracksGen ;;
  when (negb (mFastTracksGen cur =? g))
    (b <- gets mixBuffer ;;
     ALOG_ASSERT ndebug (non_null b) ;;;
     for_each removed (removed_track ndebug cur) ;;;
     for_each added (added_track ndebug cur) ;;;
     for_each modified (modified_track ndebug cur) ;;;
     modify (set_fastTracksGen (mFastTracksGen cur)) ;;;
     modify (update_dump (set_mNumTracks (popcount (trackMask cur))))).

Lemma diff_over_applies ndebug cur removed added modified m m' :
  mFastTracksGen cur <> fastTracksGen m ->
  (forall i, In i removed \/ In i added \/ In i modified ->
             (i < length (generations m))%nat) ->
  diff_over ndebug cur removed added modified m = Ok (tt, m') ->
  fastTracksGen m' = mFastTracksGen cur /\
  mNumTracks (dump_of m') = popcount (trackMask cur) /\
  length (generations m') = length (generations m) /\
  forall i,
    at_index (generations m') i
    = if among removed i || among added i || among modified i
      then mGeneration (fastTrack_at cur i)
      else at_index (generations m) i.
Proof.
  intros Hgen Hin H.
  unfold diff_over in H. rewrite run_gets in H.
  apply Z.eqb_neq in Hgen. rewrite Hgen in H. cbn [negb when] in H.
  rewrite run_gets in H. apply run_assert in H.
  apply bind_inv in H as ([] & m1 & H1 & H).
  apply bind_inv in H as ([] & m2 & H2 & H).
  apply bind_inv in H as ([] & m3 & H3 & H).
  mrun_in H. unfold modify in H. injection H as <-.
  set (g := fun i => mGeneration (fastTrack_at cur i)).
  apply (for_each_slots _ g (removed_track_slot ndebug cur)) in H1
    as [L1 G1]; [|intros i Hi; apply Hin; now left].
  apply (for_each_slots _ g (added_track_slot ndebug cur)) in H2
    as [L2 G2]; [|intros i Hi; rewrite L1; apply Hin; right; now left].
  apply (for_each_slots _ g (modified_track_slot ndebug cur)) in H3
    as [L3 G3]; [|intros i Hi; rewrite L2, L1; apply Hin; right; now right].
  rewrite dump_of_update_dump, generations_update_dump.
  assert (F : fastTracksGen
                (update_dump (set_mNumTracks (popcount (trackMask cur)))
                   (set_fastTracksGen (mFastTracksGen cur) m3))
              = mFastTracksGen cur).
  { destruct m3. unfold update_dump. cbn. now destruct dumpState0. }
  split; [exact F|]. split; [reflexivity|].
  assert (E : generations (set_fastTracksGen (mFastTracksGen cur) m3)
              = generations m3) by now destruct m3.
  rewrite E. split; [congruence|].
  intros i. rewrite G3, G2, G1. unfold g.
  destruct (among removed i), (among added i), (among modified i);
    reflexivity.
Qed.

Lemma track_diff_in_order_over ndebug cur previous_mask :
  track_diff_in_order ndebug cur previous_mask
  = diff_over ndebug cur
      (removed_slots previous_mask (mTrackMask cur))
      (added_slots previous_mask (mTrackMask cur))
      (modified_slots previous_mask (mTrackMask cur)).
Proof. unfold track_diff_in_order, diff_over. reflexivity. Qed.

Lemma among_slots previous_mask current_mask i :
  (i < 32)%nat ->
  among (removed_slots previous_mask current_mask) i
  || among (added_slots previous_mask current_mask) i
  || among (modified_slots previous_mask current_mask) i
  = in_mask previous_mask i || in_mask current_mask i.
Proof.
  intros Hi. unfold removed_slots, added_slots, modified_slots.
  rewrite !among_filter. apply Nat.ltb_lt in Hi. rewrite Hi. cbn [andb].
  destruct (in_mask previous_mask i), (in_mask current_mask i); reflexivity.
Qed.

Lemma slots_in_range previous_mask current_mask i :
  In i (removed_slots previous_mask current_mask) \/
  In i (added_slots previous_mask current_mask) \/
  In i (modified_slots previous_mask current_mask) ->
  (i < 32)%nat.
Proof.
  unfold removed_slots, added_slots, modified_slots.
  intros [H|[H|H]]; apply filter_In in H as [H _]; apply in_seq in H; lia.
Qed.

(** X10: a track diff that runs (the state's track generation differs from
    the stored one) ends with the stored track generation equal to the
    state's, the number of tracks of the dump area equal to the population
    count of the current mask, and in [generations] the generation that the
    current state gives for every slot of the previous or of the current
    mask; the other slots keep theirs. *)
Lemma track_diff_applies ndebug cur previous_mask (m : Machine) m' :
  mFastTracksGen cur <> fastTracksGen m ->
  length (generations m) = 32%nat ->
  track_diff ndebug cur previous_mask m = Ok (tt, m') ->
  fastTracksGen m' = mFastTracksGen cur /\
  mNumTracks (dump_of m') = popcount (trackMask cur) /\
  length (generations m') = 32%nat /\
  forall i,
    (i < 32)%nat ->
    at_index (generations m') i
    = if in_mask previous_mask i || in_mask (mTrackMask cur) i
      then mGeneration (fastTrack_at cur i)
      else at_index (generations m) i.
Proof.
  intros Hgen Hlen H.
  rewrite track_diff_refines, track_diff_in_order_over in H.
  apply diff_over_applies in H as (F & N & L & G); [|exact Hgen|].
  - split; [exact F|]. split; [exact N|]. split; [congruence|].
    intros i Hi. rewrite G. now rewrite among_slots.
  - intros i Hi. rewrite Hlen. exact (slots_in_range _ _ _ Hi).
Qed.

Lemma track_diff_applies_swap :
  exists m',
    track_diff true swapped_tracks 3 m_two_tracks = Ok (tt, m') /\
    fastTracksGen m' = mFastTracksGen swapped_tracks /\
    mNumTracks (dump_of m') = popcount (trackMask swapped_tracks) /\
    length (generations m') = 32%nat /\
    forall i,
      (i < 32)%nat ->
      at_index (generations m') i
      = if in_mask 3 i || in_mask (mTrackMask swapped_tracks) i
        then mGeneration (fastTrack_at swapped_tracks i)
        else at_index (generations m_two_tracks) i.
Proof.
  destruct (track_diff true swapped_tracks 3 m_two_tracks)
    as [[[] m']| |] eqn:E; [|vm_compute in E; discriminate..].
  exists m'. split; [reflexivity|].
  apply (track_diff_applies true swapped_tracks 3 m_two_tracks m');
    [vm_compute; congruence|reflexivity|exact E].
Defined.

(** ** The state that [previous] designates (lines 95-119, 291) *)

(** The state whose configuration the worker has applied: the one that
    [previous] designates, by pointer or through the copy [preIdle]. *)
Definition last_applied (sq : nat -> FastMixerState) (m : Machine)
  : FastMixerState :=
  deref sq m (previous m).

(** As long as no state has been adopted, [previous] is the built-in state
    as well. *)
Definition anchored (sq : nat -> FastMixerState) (m : Machine) : Prop :=
  pinned sq m /\ (current m = RefInitial -> previous m = RefInitial).

Lemma has_flag_idle c :
  has_flag c IDLE = false -> c <> HOT_IDLE /\ c <> COLD_IDLE.
Proof. intros H. split; intros ->; discriminate. Qed.

Lemma anchored_current sq m :
  wf_queue sq -> anchored sq m ->
  has_flag (mCommand (deref sq m (current m))) IDLE = false ->
  deref sq m (current m) = last_applied sq m.
Proof.
  intros Hwf ((I1 & _ & I3) & I4) Hidle. unfold last_applied.
  apply has_flag_idle in Hidle as [N1 N2].
  destruct I3 as [I|[I|[I|I]]]; try contradiction; [|now rewrite I].
  destruct (current m) as [| |j] eqn:Ec.
  - now rewrite (I4 eq_refl).
  - contradiction.
  - cbn in I. now apply Hwf in I.
Qed.

Lemma poll_state_anchored ndebug sq env m command m' :
  wf_queue sq -> anchored sq m ->
  poll_state ndebug sq env m = Ok (command, m') ->
  last_applied sq m' = last_applied sq m /\
  (current m' = RefInitial -> previous m' = RefInitial) /\
  current m' <> RefPreIdle.
Proof.
  intros Hwf Inv H. pose proof Inv as ((I1 & _ & _) & I4).
  pose proof H as Hcases.
  apply poll_state_cases in Hcases
    as [(_ & -> & _)|(k & Hk & Hne & Hcur)].
  - destruct (refs_kept_update_dump (set_dCommand command) m)
      as (P & C & R).
    unfold last_applied. rewrite P, C, (deref_same_preIdle sq m _ _ R).
    now split.
  - split; [|rewrite Hcur; split; discriminate].
    destruct (poll_state_adopts ndebug sq env m k Hk Hne)
      as (m1 & Hrun & _ & Hcase).
    rewrite Hrun in H. injection H as _ <-. cbv zeta in Hcase.
    unfold last_applied.
    destruct (has_flag (mCommand (deref sq m (current m))) IDLE) eqn:Eold.
    + destruct Hcase as (-> & Hp & _).
      now rewrite (deref_same_preIdle sq m _ _ Hp).
    + pose proof (anchored_current sq m Hwf Inv Eold) as Hlast.
      unfold last_applied in Hlast.
      destruct (has_flag (mCommand (sq k)) IDLE).
      * destruct Hcase as (_ & _ & -> & _). exact Hlast.
      * destruct Hcase as (-> & Hp & _).
        now rewrite (deref_same_preIdle sq m _ _ Hp).
Qed.

Lemma dispatch_continue_idle_only ndebug sq env command m m' :
  dispatch ndebug sq env command m = Ok (Continue, m') -> idle_only m m'.
Proof.
  intros H. pose proof (dispatch_flow _ _ _ _ _ _ _ H) as [E|[E|E]];
    rewrite E in H.
  - now apply hot_idle_idle_only in H.
  - now apply hot_idle_idle_only in H.
  - change (dispatch ndebug sq env COLD_IDLE)
      with (cold_idle sq env ;;; ret (A := Flow) Continue) in H.
    apply bind_inv in H as ([] & m1 & H & Hr). injection Hr as <-.
    now apply cold_idle_idle_only in H.
Qed.

Lemma sleep_anchored ndebug sq env m m2 :
  anchored sq m ->
  do_sleep ndebug (set_nameSupply (track_names env) m) = Ok (tt, m2) ->
  anchored sq m2 /\ last_applied sq m2 = last_applied sq m.
Proof.
  intros [I I4] H.
  apply sleep_kept in H as (R & _ & A & _).
  destruct A as (_ & _ & _ & _ & _ & _ & G).
  split; [split|].
  - exact (pinned_kept sq m m2 R G I).
  - destruct R as (P & C & _). intros Hc. rewrite P. apply I4. congruence.
  - destruct R as (P & C & R). unfold last_applied.
    now rewrite P, (deref_same_preIdle sq m m2 _ R).
Qed.

Lemma cycle_anchored ndebug sq env m m' :
  wf_queue sq -> anchored sq m ->
  cycle ndebug sq env m = Ok (true, m') ->
  anchored sq m'.
Proof.
  intros Hwf Inv H. split; [exact (cycle_pinned _ _ _ _ _ (proj1 Inv) H)|].
  apply cycle_phases in H
    as (m2 & command & m3 & flow & m4 & H2 & H3 & H4 & Hflow).
  apply (sleep_anchored _ _ _ _ _ Inv) in H2 as [Inv2 _].
  apply (poll_state_anchored _ _ _ _ _ _ Hwf Inv2) in H3 as (_ & A3 & _).
  pose proof (dispatch_refs_kept _ _ _ _ _ _ _ H4) as [(P4 & C4 & _) _].
  destruct flow.
  - destruct Hflow as [Hw _]. apply work_refs in Hw as (Pw & Cw & _).
    intros Hc. congruence.
  - destruct Hflow as [-> _]. intros Hc. rewrite P4. apply A3. congruence.
  - destruct Hflow as [_ F]. discriminate.
Qed.

Lemma reachable_anchored ndebug sq areas envs m :
  wf_queue sq ->
  run ndebug sq envs (init_machine areas) = Ok (Some m) ->
  anchored sq m.
Proof.
  intros Hwf. apply (run_invariant ndebug sq (anchored sq)).
  - intros env m0 m' Inv H. exact (cycle_anchored _ _ _ _ _ Hwf Inv H).
  - split; [|reflexivity].
    split; [discriminate|]. split; [discriminate|]. now left.
Qed.

(** X11: the state that [previous] designates changes only when a state
    change is handled by a working cycle.  Provided no published snapshot
    carries the INITIAL command, a cycle of the loop that ends on a state
    whose command is INITIAL, HOT_IDLE or COLD_IDLE leaves [previous]
    designating a state equal to the one it designated before, whatever was
    adopted in between; and a cycle that goes on after any other command
    ends with [previous] equal to [current]. *)
Lemma previous_survives_idle ndebug sq areas envs env (m : Machine) c m' :
  wf_queue sq ->
  run ndebug sq envs (init_machine areas) = Ok (Some m) ->
  cycle ndebug sq env m = Ok (c, m') ->
  (mCommand (deref sq m' (current m')) = INITIAL \/
   mCommand (deref sq m' (current m')) = HOT_IDLE \/
   mCommand (deref sq m' (current m')) = COLD_IDLE ->
   last_applied sq m' = last_applied sq m) /\
  (mCommand (deref sq m' (current m')) <> INITIAL ->
   mCommand (deref sq m' (current m')) <> HOT_IDLE ->
   mCommand (deref sq m' (current m')) <> COLD_IDLE ->
   c = true -> previous m' = current m').
Proof.
  intros Hwf Hreach H.
  apply (reachable_anchored _ _ _ _ _ Hwf) in Hreach.
  apply cycle_until_dispatch in H as (m3 & flow & m4 & H3 & H4 & Hflow).
  rewrite run_modify in H3. apply bind_inv in H3 as ([] & m2 & H2 & H3).
  apply (sleep_anchored _ _ _ _ _ Hreach) in H2 as [Inv2 L2].
  apply (poll_state_anchored _ _ _ _ _ _ Hwf Inv2) in H3 as (L3 & _ & _).
  pose proof (dispatch_flow _ _ _ _ _ _ _ H4) as Hf.
  pose proof (dispatch_refs_kept _ _ _ _ _ _ _ H4) as [(P4 & C4 & R4) _].
  assert (L4 : last_applied sq m4 = last_applied sq m).
  { unfold last_applied in *.
    now rewrite P4, (deref_same_preIdle sq m3 m4 _ R4), L3. }
  destruct flow.
  - destruct Hflow as [Hw _]. destruct Hf as (_ & N1 & N2 & N3 & _).
    apply work_refs in Hw as (Pw & Cw & _). split.
    + intros [E|[E|E]]; contradiction.
    + intros _ _ _ _. congruence.
  - destruct Hflow as [-> _]. split; [intros _; exact L4|].
    intros N1 N2 N3. destruct Hf as [E|[E|E]]; contradiction.
  - destruct Hflow as [-> ->]. split; [|discriminate].
    rewrite Hf. intros [E|[E|E]]; discriminate.
Qed.

(** After ten hot-idle cycles, [previous] still designates the state that
    was being mixed. *)
Definition m192_idle_long : Machine :=
  Eval vm_compute in
    match run true mix_then_idle
              (answers (Some 0%nat) 48000 192 (Some (1, 0))
               :: repeat (answers (Some 1%nat) 48000 192 None) 9)
              machine0 with
    | Ok (Some m) => m
    | _ => machine0
    end.

Lemma previous_survives_idle_ten_cycles :
  (mCommand (deref mix_then_idle m192_idle_long (current m192_idle_long))
   = INITIAL \/
   mCommand (deref mix_then_idle m192_idle_long (current m192_idle_long))
   = HOT_IDLE \/
   mCommand (deref mix_then_idle m192_idle_long (current m192_idle_long))
   = COLD_IDLE ->
   last_applied mix_then_idle m192_idle_long
   = snapshot MIX_WRITE 192 (Some 0%nat) 1) /\
  (mCommand (deref mix_then_idle m192_idle_long (current m192_idle_long))
   <> INITIAL ->
   mCommand (deref mix_then_idle m192_idle_long (current m192_idle_long))
   <> HOT_IDLE ->
   mCommand (deref mix_then_idle m192_idle_long (current m192_idle_long))
   <> COLD_IDLE ->
   true = true -> previous m192_idle_long = current m192_idle_long).
Proof.
  apply (previous_survives_idle true mix_then_idle no_dump_areas
           (answers (Some 0%nat) 48000 192 (Some (1, 0))
            :: repeat (answers (Some 1%nat) 48000 192 None) 8)
           (answers (Some 1%nat) 48000 192 None)
           (match run true mix_then_idle
                      (answers (Some 0%nat) 48000 192 (Some (1, 0))
                       :: repeat (answers (Some 1%nat) 48000 192 None) 8)
                      machine0 with
            | Ok (Some m) => m
            | _ => machine0
            end)
           true m192_idle_long).
  - intros [|k]; cbn; discriminate.
  - vm_compute. reflexivity.
  - vm_compute. reflexivity.
Defined.

(** ** The buffer in place at each use (lines 181-212, 320-331) *)

(** Calls that allocate, free, clear or hand over the mix buffer. *)
Definition is_buffer_op (e : Event) : bool :=
  match e with
  | EvNewMixBuffer _ | EvDeleteMixBuffer | EvMemset _
  | EvSinkWrite _ _ _ _ => true
  | _ => false
  end.

Definition no_buffer_op (e : Event) : Prop := is_buffer_op e = false.

(** The length in samples of the buffer in place after a call, from the
    length before it ([None]: no buffer). *)
Definition alloc_step (len : option Z) (e : Event) : option Z :=
  match e with
  | EvNewMixBuffer l => Some l
  | EvDeleteMixBuffer => None
  | _ => len
  end.

Definition alloc_after (len : option Z) (evs : list Event) : option Z :=
  fold_left alloc_step evs len.

(** A use fits the buffer in place: [write(mixBuffer, frameCount)] finds a
    buffer made by [new short[frameCount * 2]] for that frame count, and
    [memset] clears the bytes of the buffer in place. *)
Definition use_fits (len : option Z) (e : Event) : Prop :=
  match e with
  | EvSinkWrite _ _ frameCount _ => len = Some (wrap_u32 (frameCount * 2))
  | EvMemset bytes => exists l, len = Some l /\ bytes = wrap_u32 (l * 2)
  | _ => True
  end.

Fixpoint uses_fit (len : option Z) (evs : list Event) : Prop :=
  match evs with
  | [] => True
  | e :: rest => use_fits len e /\ uses_fit (alloc_step len e) rest
  end.

Lemma alloc_after_app len a b :
  alloc_after len (a ++ b) = alloc_after (alloc_after len a) b.
Proof. apply fold_left_app. Qed.

Lemma uses_fit_app len a b :
  uses_fit len (a ++ b) <-> uses_fit len a /\ uses_fit (alloc_after len a) b.
Proof.
  revert len. induction a as [|e a IH]; intros len; cbn.
  - tauto.
  - rewrite IH. unfold alloc_after. tauto.
Qed.

Lemma no_buffer_op_alloc len evs :
  Forall no_buffer_op evs ->
  alloc_after len evs = len /\ uses_fit len evs.
Proof.
  induction 1 as [|e evs He _ IH]; [now split|].
  assert (E : alloc_step len e = len /\ use_fits len e)
    by (destruct e; try discriminate; now split).
  destruct E as [E1 E2]. cbn. unfold alloc_after in *. cbn.
  rewrite E1. tauto.
Qed.

(** The worker holds the generations of the state it has applied, every
    use of the buffer so far has fitted the buffer in place, and the buffer
    in place is the one made for the frame count of that state. *)
Definition settled (sq : nat -> FastMixerState) (m : Machine) : Prop :=
  outputSinkGen m = mOutputSinkGen (last_applied sq m) /\
  fastTracksGen m = mFastTracksGen (last_applied sq m) /\
  uses_fit None (trace m) /\
  alloc_after None (trace m)
  = if non_null (mixBuffer m)
    then Some (wrap_u32 (mFrameCount (last_applied sq m) * 2))
    else None.

(** Nothing of what [settled] reads changes, and no call is made on the
    buffer. *)
Definition gens_held (m m' : Machine) : Prop :=
  outputSinkGen m' = outputSinkGen m /\ fastTracksGen m' = fastTracksGen m /\
  non_null (mixBuffer m') = non_null (mixBuffer m).

#[local] Instance gens_held_preorder : PreOrder gens_held.
Proof.
  split; [intros m; now repeat split|].
  intros a b c (A1 & A2 & A3) (B1 & B2 & B3). repeat split; congruence.
Qed.

Lemma gens_held_update_dump f m : gens_held m (update_dump f m).
Proof.
  destruct m. unfold update_dump, gens_held. cbn. now destruct dumpState0.
Qed.

Definition steady : Machine -> Machine -> Prop :=
  rel_and (emits_only no_buffer_op) gens_held.

Ltac steady_side :=
  intros m_; split;
  [ revert m_; emits_side
  | first [ apply gens_held_update_dump
          | now destruct m_
          | destruct m_; unfold gens_held; cbn;
            match goal with
            | |- context [match ?b with _ => _ end] => now destruct b
            end ] ].

Lemma steady_settled sq m m' :
  steady m m' -> last_applied sq m' = last_applied sq m ->
  settled sq m -> settled sq m'.
Proof.
  intros [(evs & T & F) (G1 & G2 & G3)] L (S1 & S2 & S3 & S4).
  apply (no_buffer_op_alloc (alloc_after None (trace m))) in F as [A U].
  unfold settled. rewrite L, G1, G2, G3, T, alloc_after_app, A.
  split; [exact S1|]. split; [exact S2|]. split; [|exact S4].
  apply uses_fit_app. now split.
Qed.

Lemma idle_only_steady m m' : idle_only m m' -> steady m m'.
Proof.
  intros ((evs & T & F) & K & _). split.
  - exists evs. split; [exact T|].
    revert F. apply List.Forall_impl.
    intros e. unfold idle_call, no_buffer_op. now destruct e.
  - unfold config_kept, configuration in K.
    injection K as _ _ G _ O _ B _ _ _ _ _ _.
    repeat split; congruence.
Qed.

Lemma mix_step_steady ndebug env command cur :
  steps steady (mix_step ndebug env command cur).
Proof. unfold_phases. steps_auto; steady_side. Qed.

Lemma timing_steady env : steps steady (timing env).
Proof. unfold_phases. steps_auto; steady_side. Qed.

(** [f] reads the same before and after. *)
Definition held {X} (f : Machine -> X) (m m' : Machine) : Prop := f m' = f m.

#[local] Instance held_preorder {X} (f : Machine -> X) : PreOrder (held f).
Proof.
  split; [intros m; reflexivity|].
  intros a b c H1 H2. unfold held in *. congruence.
Qed.

Ltac held_side :=
  intros m_; unfold held;
  first [ now destruct m_
        | destruct m_; unfold update_dump; cbn;
          match goal with d : DumpRef |- _ => now destruct d end ].

Ltac calm_side :=
  intros m_; split; revert m_; [emits_side|held_side].

Lemma check_sink_calm ndebug env cur :
  steps (rel_and (emits_only no_buffer_op)
                 (held (fun m => (fastTracksGen m, mixBuffer m))))
        (check_sink ndebug env cur).
Proof. unfold_phases. steps_auto; calm_side. Qed.

Lemma check_sink_gen ndebug env cur m m' :
  check_sink ndebug env cur m = Ok (tt, m') ->
  outputSinkGen m' = mOutputSinkGen cur.
Proof.
  unfold check_sink. rewrite run_gets.
  destruct (Z.eqb_spec (mOutputSinkGen cur) (outputSinkGen m)) as [E|E];
    cbn [negb when].
  - intros H. injection H as <-. now symmetry.
  - rewrite !run_modify. intros H.
    by_steps (held outputSinkGen) H held_side.
    unfold held in H. rewrite H. now destruct m.
Qed.

Lemma track_diff_calm ndebug cur mask :
  steps (rel_and (emits_only no_buffer_op)
                 (held (fun m => (outputSinkGen m, mixBuffer m))))
        (track_diff ndebug cur mask).
Proof. unfold_phases. steps_auto; calm_side. Qed.

Lemma track_diff_gen ndebug cur mask m m' :
  track_diff ndebug cur mask m = Ok (tt, m') ->
  fastTracksGen m' = mFastTracksGen cur.
Proof.
  unfold track_diff. rewrite run_gets.
  destruct (Z.eqb_spec (mFastTracksGen cur) (fastTracksGen m)) as [E|E];
    cbn [negb when].
  - intros H. injection H as <-. now symmetry.
  - rewrite run_gets. intros H. apply run_assert in H.
    apply bind_inv in H as ([] & m1 & _ & H).
    apply bind_inv in H as ([] & m2 & _ & H).
    apply bind_inv in H as ([] & m3 & _ & H).
    mrun_in H. unfold modify in H. injection H as <-.
    destruct m3. unfold update_dump. cbn. now destruct dumpState0.
Qed.

(** What a reallocation calls: the [delete]s, then the two [new]s when the
    frame count and the sample rate are positive. *)
Definition new_calls (frameCount sr : Z) : list Event :=
  if (0 <? frameCount) && (0 <? sr)
  then [EvNewMixer frameCount sr kMaxFastTracks;
        EvNewMixBuffer (wrap_u32 (frameCount * 2))]
  else [].

Lemma reallocate_trace ndebug cur prev pf m r m' :
  negb (Format_eqb (format m) pf)
  || negb (mFrameCount cur =? mFrameCount prev) = true ->
  reallocate ndebug cur prev pf m = Ok (r, m') ->
  trace m' = trace m ++ delete_calls m
                     ++ new_calls (mFrameCount cur) (sampleRate m) /\
  non_null (mixBuffer m')
  = (0 <? mFrameCount cur) && (0 <? sampleRate m) /\
  outputSinkGen m' = outputSinkGen m /\
  fastTracksGen m' = to_int (mFastTracksGen cur - 1).
Proof.
  intros Hchg H. unfold reallocate in H. rewrite run_gets, Hchg in H.
  unfold delete_mixer, delete_mixBuffer in H.
  unfold delete_calls, new_calls.
  destruct m. fields. clear Hchg.
  destruct mixer0, mixBuffer0, ndebug; drive H;
    destruct ((0 <? mFrameCount cur) && (0 <? sampleRate0));
    drive H; injection H as _ <-; fields; cbn [non_null app];
    rewrite <- ?app_assoc, ?app_nil_r; repeat split.
Qed.

Lemma reallocate_same ndebug cur prev pf m r m' :
  negb (Format_eqb (format m) pf)
  || negb (mFrameCount cur =? mFrameCount prev) = false ->
  reallocate ndebug cur prev pf m = Ok (r, m') ->
  m' = m /\ mFrameCount cur = mFrameCount prev.
Proof.
  intros Hchg H. unfold reallocate in H. rewrite run_gets, Hchg in H.
  injection H as _ <-. split; [reflexivity|].
  apply orb_false_elim in Hchg as [_ Hfc].
  apply negb_false_iff in Hfc. now apply Z.eqb_eq.
Qed.

Lemma delete_new_alloc len m frameCount sr :
  (non_null (mixBuffer m) = false -> len = None) ->
  uses_fit len (delete_calls m ++ new_calls frameCount sr) /\
  alloc_after len (delete_calls m ++ new_calls frameCount sr)
  = if (0 <? frameCount) && (0 <? sr)
    then Some (wrap_u32 (frameCount * 2))
    else None.
Proof.
  intros Hlen. unfold delete_calls, new_calls.
  destruct (non_null (mixBuffer m)); [|rewrite (Hlen eq_refl)];
    destruct (mixer m), ((0 <? frameCount) && (0 <? sr));
    cbn; repeat split; auto.
Qed.

(** [settled] with the state applied given apart. *)
Definition fits_for (s : FastMixerState) (m : Machine) : Prop :=
  uses_fit None (trace m) /\
  alloc_after None (trace m)
  = if non_null (mixBuffer m)
    then Some (wrap_u32 (mFrameCount s * 2))
    else None.

Lemma calm_fits s m m' :
  emits_only no_buffer_op m m' ->
  non_null (mixBuffer m') = non_null (mixBuffer m) ->
  fits_for s m -> fits_for s m'.
Proof.
  intros (evs & T & F) B [U A].
  apply (no_buffer_op_alloc (alloc_after None (trace m))) in F as [A' U'].
  unfold fits_for. rewrite B, T, alloc_after_app, A'.
  split; [|exact A]. apply uses_fit_app. now split.
Qed.

Lemma reallocate_fits ndebug cur prev pf m r m' :
  reallocate ndebug cur prev pf m = Ok (r, m') ->
  fits_for prev m -> fits_for cur m'.
Proof.
  intros H [U A].
  destruct (negb (Format_eqb (format m) pf)
            || negb (mFrameCount cur =? mFrameCount prev)) eqn:Hchg.
  - apply (reallocate_trace _ _ _ _ _ _ _ Hchg) in H as (T & B & _).
    destruct (delete_new_alloc (alloc_after None (trace m)) m
                (mFrameCount cur) (sampleRate m)) as [U' A'].
    { intros Hb. now rewrite Hb in A. }
    unfold fits_for. rewrite B, T, alloc_after_app, A'.
    split; [|reflexivity]. apply uses_fit_app. now split.
  - apply (reallocate_same _ _ _ _ _ _ _ Hchg) in H as [-> E].
    unfold fits_for. rewrite E. now split.
Qed.

Lemma reallocate_sink_gen ndebug cur prev pf :
  steps (held outputSinkGen) (reallocate ndebug cur prev pf).
Proof. unfold_phases. steps_auto; held_side. Qed.

Lemma state_change_settled ndebug sq env m m' :
  settled sq m ->
  state_change ndebug sq env m = Ok (tt, m') ->
  settled sq m'.
Proof.
  intros (S1 & S2 & S3 & S4) H.
  pose proof (state_change_refs _ _ _ _ _ H) as (P & C & R).
  assert (L : last_applied sq m' = deref sq m (current m)).
  { unfold last_applied. rewrite P. now apply deref_same_preIdle. }
  unfold state_change in H. rewrite run_get in H.
  destruct (StateRef_eqb (current m) (previous m)) eqn:E;
    cbn [negb when] in H.
  { injection H as <-. now repeat split. }
  apply bind_inv in H as ([] & m1 & H1 & H).
  apply bind_inv in H as (mask & m2 & H2 & H).
  apply bind_inv in H as ([] & m3 & H3 & H4).
  unfold modify in H4. injection H4 as <-.
  pose proof (check_sink_gen _ _ _ _ _ H1) as G1.
  apply check_sink_calm in H1 as [T1 K1].
  pose proof (reallocate_sink_gen _ _ _ _ _ _ _ H2) as G2.
  pose proof (track_diff_gen _ _ _ _ _ H3) as G3.
  apply track_diff_calm in H3 as [T3 K3].
  unfold held in K1, K3, G2. cbv beta in K1, K3.
  injection K1 as K1a K1b. injection K3 as K3a K3b.
  assert (F1 : fits_for (last_applied sq m) m1).
  { apply (calm_fits _ m m1 T1); [now rewrite K1b|now split]. }
  apply (reallocate_fits _ _ _ _ _ _ _ H2) in F1.
  apply (calm_fits _ m2 m3 T3) in F1; [|now rewrite K3b].
  destruct F1 as [U A].
  unfold settled. rewrite L.
  assert (E1 : outputSinkGen (set_previous (current m3) m3)
               = outputSinkGen m3) by now destruct m3.
  assert (E2 : fastTracksGen (set_previous (current m3) m3)
               = fastTracksGen m3) by now destruct m3.
  assert (E3 : trace (set_previous (current m3) m3) = trace m3)
    by now destruct m3.
  assert (E4 : mixBuffer (set_previous (current m3) m3) = mixBuffer m3)
    by now destruct m3.
  rewrite E1, E2, E3, E4.
  split; [congruence|]. split; [exact G3|]. now split.
Qed.

Lemma wrap_u32_twice a : wrap_u32 (wrap_u32 a * 2) = wrap_u32 (a * 2).
Proof. unfold wrap_u32. apply Z.mul_mod_idemp_l. lia. Qed.

Lemma write_step_fits env command cur m m' :
  write_step env command cur m = Ok (tt, m') ->
  fits_for cur m -> fits_for cur m'.
Proof.
  intros H F.
  destruct (has_flag command WRITE) eqn:Hw;
    [|rewrite write_step_skipped in H by (now left);
      injection H as <-; exact F].
  destruct (outputSink m) as [sink|] eqn:Hs;
    [|rewrite write_step_skipped in H by (right; now left);
      injection H as <-; exact F].
  destruct (mixBuffer m) as [b|] eqn:Hb;
    [|rewrite write_step_skipped in H by (right; now right);
      injection H as <-; exact F].
  destruct (write_step_attempt env command cur m sink b Hw Hs Hb)
    as (m1 & Hrun & _ & T & _ & B & _).
  rewrite Hrun in H. injection H as <-.
  destruct F as [U A]. rewrite Hb in A. cbn [non_null] in A.
  unfold fits_for.
  rewrite B, T, !alloc_after_app. cbn [non_null]. split.
  - apply uses_fit_app. split; [exact U|]. rewrite A.
    destruct (MixBufferState_eqb (mixBufferState m) UNDEFINED); cbn.
    + split; [|now split]. exists (wrap_u32 (mFrameCount cur * 2)).
      split; [reflexivity|]. now rewrite wrap_u32_twice.
    + now split.
  - rewrite A.
    now destruct (MixBufferState_eqb (mixBufferState m) UNDEFINED).
Qed.

Lemma write_step_gens env command cur :
  steps (held (fun m => (outputSinkGen m, fastTracksGen m)))
        (write_step env command cur).
Proof. unfold_phases. steps_auto; held_side. Qed.

Lemma work_settled ndebug sq env command m m' :
  settled sq m ->
  work ndebug sq env command m = Ok (tt, m') ->
  settled sq m'.
Proof.
  intros S H.
  apply work_inv in H as (m1 & m2 & m3 & H1 & H2 & H3 & H4).
  pose proof (state_change_refs _ _ _ _ _ H1) as (P1 & C1 & _).
  apply (state_change_settled _ _ _ _ _ S) in H1.
  assert (R2 : refs_kept m1 m2) by (by_steps refs_kept H2 refs_side; exact H2).
  assert (R3 : refs_kept m2 m3) by (by_steps refs_kept H3 refs_side; exact H3).
  assert (R4 : refs_kept m3 m') by (by_steps refs_kept H4 refs_side; exact H4).
  assert (Hl : forall a b, refs_kept a b ->
                           last_applied sq b = last_applied sq a).
  { intros a b (P & _ & R). unfold last_applied.
    rewrite P. now apply deref_same_preIdle. }
  assert (S2 : settled sq m2).
  { apply (steady_settled sq m1 m2); [|now apply Hl|exact H1].
    now apply mix_step_steady in H2. }
  assert (S3 : settled sq m3).
  { destruct S2 as (A1 & A2 & A3 & A4).
    assert (Hcur : deref sq m1 (current m1) = last_applied sq m2).
    { rewrite (Hl _ _ R2). unfold last_applied. now rewrite P1, C1. }
    rewrite Hcur in H3.
    pose proof (write_step_gens _ _ _ _ _ _ H3) as G. unfold held in G.
    cbv beta in G. injection G as G1 G2.
    apply write_step_fits in H3; [|now split].
    destruct H3 as [U A]. unfold settled.
    rewrite (Hl _ _ R3), G1, G2. now repeat split. }
  apply (steady_settled sq m3 m'); [|now apply Hl|exact S3].
  now apply timing_steady in H4.
Qed.

Lemma before_dispatch_settled ndebug sq env m command m3 :
  wf_queue sq -> anchored sq m -> settled sq m ->
  (modify (set_nameSupply (track_names env)) ;;;
   do_sleep ndebug ;;;
   poll_state ndebug sq env) m = Ok (command, m3) ->
  settled sq m3 /\ last_applied sq m3 = last_applied sq m.
Proof.
  intros Hwf Inv S H.
  pose proof (sleep_poll_idle_only _ _ _ _ _ _ H) as K.
  rewrite run_modify in H. apply bind_inv in H as ([] & m2 & H2 & H3).
  apply (sleep_anchored _ _ _ _ _ Inv) in H2 as [Inv2 L2].
  apply (poll_state_anchored _ _ _ _ _ _ Hwf Inv2) in H3 as (L3 & _ & _).
  assert (L : last_applied sq m3 = last_applied sq m) by congruence.
  split; [|exact L].
  apply (steady_settled sq m m3); [now apply idle_only_steady|exact L|exact S].
Qed.

Lemma cycle_settled ndebug sq env m m' :
  wf_queue sq -> anchored sq m -> settled sq m ->
  cycle ndebug sq env m = Ok (true, m') ->
  settled sq m'.
Proof.
  intros Hwf Inv S H.
  apply cycle_until_dispatch in H as (m3 & flow & m4 & H3 & H4 & Hflow).
  apply (before_dispatch_settled _ _ _ _ _ _ Hwf Inv S) in H3 as [S3 _].
  pose proof (dispatch_flow _ _ _ _ _ _ _ H4) as Hf.
  destruct flow.
  - destruct Hflow as [Hw _]. destruct Hf as (-> & _).
    exact (work_settled _ _ _ _ _ _ S3 Hw).
  - destruct Hflow as [-> _].
    pose proof (dispatch_refs_kept _ _ _ _ _ _ _ H4) as [(P4 & _ & R4) _].
    apply dispatch_continue_idle_only in H4.
    apply (steady_settled sq m3 m4); [now apply idle_only_steady| |exact S3].
    unfold last_applied. rewrite P4. now apply deref_same_preIdle.
  - destruct Hflow as [_ F]. discriminate.
Qed.

Lemma reachable_settled ndebug sq areas envs m :
  wf_queue sq ->
  run ndebug sq envs (init_machine areas) = Ok (Some m) ->
  anchored sq m /\ settled sq m.
Proof.
  intros Hwf.
  apply (run_invariant ndebug sq (fun x => anchored sq x /\ settled sq x)).
  - intros env m0 m' [Inv S] H. split.
    + exact (cycle_anchored _ _ _ _ _ Hwf Inv H).
    + exact (cycle_settled _ _ _ _ _ Hwf Inv S H).
  - split.
    + split; [|reflexivity].
      split; [discriminate|]. split; [discriminate|]. now left.
    + now repeat split.
Qed.

(** X12: provided no published snapshot carries the INITIAL command, at
    the top of every cycle of the loop each [write] and each [memset] made
    so far found in place a buffer made by [new short[frameCount * 2]] for
    the very frame count written ([memset] clearing the bytes of the buffer
    in place), and a buffer is in place exactly when [mixBuffer] is not
    NULL, made for the frame count of the state that [previous]
    designates. *)
Lemma buffer_fits_every_use ndebug sq areas envs (m : Machine) :
  wf_queue sq ->
  run ndebug sq envs (init_machine areas) = Ok (Some m) ->
  uses_fit None (trace m) /\
  alloc_after None (trace m)
  = if non_null (mixBuffer m)
    then Some (wrap_u32 (mFrameCount (last_applied sq m) * 2))
    else None.
Proof.
  intros Hwf Hreach.
  apply (reachable_settled _ _ _ _ _ Hwf) in Hreach as [_ (_ & _ & U & A)].
  now split.
Qed.

Lemma buffer_fits_every_use_at_192 :
  uses_fit None (trace m192_underrun) /\
  alloc_after None (trace m192_underrun)
  = if non_null (mixBuffer m192_underrun)
    then Some (wrap_u32
                 (mFrameCount (last_applied mixing_192 m192_underrun) * 2))
    else None.
Proof.
  apply (buffer_fits_every_use true mixing_192 no_dump_areas
           [tick 1 0; tick 1 8000000]).
  - intros k. cbn. discriminate.
  - vm_compute. reflexivity.
Defined.

(** The condition on the queue is needed: a published snapshot with the
    INITIAL command and 384 frames, between a state mixed at 192 frames and
    a state to mix at 384 frames, becomes [previous] without having been
    applied; the state change then finds the frame count unchanged, and the
    sink is handed 384 frames from the buffer made for 192. *)
Definition initial_resized (k : nat) : FastMixerState :=
  match k with
  | O => snapshot MIX_WRITE 192 (Some 0%nat) 1
  | S O => snapshot INITIAL 384 (Some 0%nat) 1
  | _ => snapshot MIX_WRITE 384 (Some 0%nat) 1
  end.

Lemma write_beyond_buffer_after_published_initial :
  exists m,
    run true initial_resized
        [answers (Some 0%nat) 48000 192 (Some (1, 0));
         answers (Some 1%nat) 48000 192 None;
         answers (Some 2%nat) 48000 384 (Some (1, 8000000))]
        machine0 = Ok (Some m) /\
    trace m
    = [EvSinkFormat 0; EvNewMixer 192 48000 32; EvNewMixBuffer 384;
       EvProcess; EvSinkWrite 0 MixOutput 192 1; EvClockGettime;
       EvNanosleep 4000000; EvNanosleep 1000000; EvProcess;
       EvSinkWrite 0 MixOutput 384 3; EvClockGettime] /\
    ~ uses_fit None (trace m).
Proof.
  eexists. split; [vm_compute; reflexivity|].
  split; [reflexivity|].
  cbn. intros (_ & _ & _ & _ & _ & _ & _ & _ & _ & F & _).
  vm_compute in F. discriminate.
Qed.

(** ** A state change that changes nothing (lines 160-293) *)

(** Calls that set up the engine, the buffer, the sink and the tracks. *)
Definition is_setup_call (e : Event) : bool :=
  match e with
  | EvDeleteMixer | EvDeleteMixBuffer | EvNewMixer _ _ _ | EvNewMixBuffer _
  | EvSinkFormat _ | EvDeleteTrackName _ | EvGetTrackName _
  | EvSetBufferProvider _ _ | EvSetMainBuffer _ | EvEnable _ => true
  | _ => false
  end.

Definition no_setup_call (e : Event) : Prop := is_setup_call e = false.

(** What the worker holds of the set-up it has made. *)
Definition setup (m : Machine) :=
  (fastTrackNames m, generations m, fastTracksGen m, outputSink m,
   outputSinkGen m, mixer m, format m, sampleRate m, periodNs m,
   underrunNs m, overrunNs m).

Definition unchanged : Machine -> Machine -> Prop :=
  rel_and (emits_only no_setup_call) (held setup).

Ltac unchanged_side :=
  intros m_; split; revert m_; [emits_side|held_side].

Lemma after_state_change_unchanged ndebug env command cur :
  steps unchanged
        (mix_step ndebug env command cur ;;;
         write_step env command cur ;;;
         timing env).
Proof. unfold_phases. steps_auto; unchanged_side. Qed.

Lemma idle_only_unchanged m m' : idle_only m m' -> unchanged m m'.
Proof.
  intros ((evs & T & F) & K & _). split.
  - exists evs. split; [exact T|].
    revert F. apply List.Forall_impl.
    intros e. unfold idle_call, no_setup_call. now destruct e.
  - unfold config_kept, configuration in K. unfold held, setup.
    injection K as -> -> -> -> -> -> _ _ -> -> -> -> ->. reflexivity.
Qed.

Lemma Format_eqb_refl f : Format_eqb f f = true.
Proof. destruct f; cbn; [reflexivity|]. now rewrite !Z.eqb_refl. Qed.

Lemma state_change_unchanged ndebug sq env m m' :
  outputSinkGen m = mOutputSinkGen (deref sq m (current m)) ->
  mFrameCount (deref sq m (current m)) = mFrameCount (last_applied sq m) ->
  fastTracksGen m = mFastTracksGen (deref sq m (current m)) ->
  state_change ndebug sq env m = Ok (tt, m') ->
  trace m' = trace m /\ setup m' = setup m.
Proof.
  intros G1 G2 G3. unfold state_change. rewrite run_get.
  destruct (StateRef_eqb (current m) (previous m)); cbn [negb when].
  { intros H. injection H as <-. now split. }
  unfold check_sink. rewrite run_assoc, run_gets.
  rewrite <- G1, Z.eqb_refl. cbn [negb when]. rewrite run_ret.
  unfold reallocate. rewrite run_assoc, run_gets.
  unfold last_applied in G2.
  rewrite Format_eqb_refl, G2, Z.eqb_refl. cbn [negb orb].
  rewrite run_ret.
  unfold track_diff. rewrite run_assoc, run_gets.
  rewrite <- G3, Z.eqb_refl. cbn [negb when]. rewrite run_ret.
  intros H. unfold modify in H. injection H as <-.
  destruct m. now split.
Qed.

(** X13: a state change to a state that carries the sink generation, the
    frame count and the track generation of the state last applied sets
    nothing up again.  Provided no published snapshot carries the INITIAL
    command, a cycle of the loop that goes on, and ends on a state with
    these three values equal to those of the state that [previous]
    designated at the top of the cycle, makes no call that sets up the
    engine, the buffer, the sink or a track, and leaves the handles, the
    generations, the engine, the format and the timing constants as they
    were: so it is on resuming from idle with an unchanged configuration. *)
Lemma unchanged_state_sets_nothing_up
  ndebug sq areas envs env (m : Machine) m' :
  wf_queue sq ->
  run ndebug sq envs (init_machine areas) = Ok (Some m) ->
  cycle ndebug sq env m = Ok (true, m') ->
  mOutputSinkGen (deref sq m' (current m'))
  = mOutputSinkGen (last_applied sq m) ->
  mFrameCount (deref sq m' (current m'))
  = mFrameCount (last_applied sq m) ->
  mFastTracksGen (deref sq m' (current m'))
  = mFastTracksGen (last_applied sq m) ->
  Forall no_setup_call (new_events m m') /\ setup m' = setup m.
Proof.
  intros Hwf Hreach H E1 E2 E3.
  apply (reachable_settled _ _ _ _ _ Hwf) in Hreach as [Inv S].
  apply cycle_until_dispatch in H as (m3 & flow & m4 & H3 & H4 & Hflow).
  pose proof (sleep_poll_idle_only _ _ _ _ _ _ H3) as K3.
  apply idle_only_unchanged in K3.
  apply (before_dispatch_settled _ _ _ _ _ _ Hwf Inv S) in H3
    as [(S1 & S2 & _) L3].
  pose proof (dispatch_flow _ _ _ _ _ _ _ H4) as Hf.
  assert (K : unchanged m m').
  { destruct flow.
    - destruct Hflow as [Hw _]. destruct Hf as (-> & _).
      pose proof (work_refs _ _ _ _ _ _ Hw) as (_ & Cw & Rw).
      assert (Ecur : deref sq m' (current m') = deref sq m3 (current m3))
        by (rewrite Cw; now apply deref_same_preIdle).
      rewrite Ecur in E1, E2, E3.
      apply work_inv in Hw as (m5 & m6 & m7 & H5 & H6 & H7 & H8).
      pose proof (state_change_refs _ _ _ _ _ H5) as (_ & C5 & R5).
      apply state_change_unchanged in H5 as [T5 U5];
        [|congruence..].
      assert (K5 : unchanged m3 m5).
      { split; [|exact U5]. exists []. split; [|constructor].
        now rewrite app_nil_r. }
      assert (K8 : unchanged m5 m').
      { apply (after_state_change_unchanged ndebug env
                 (mCommand (deref sq m' (current m')))
                 (deref sq m5 (current m5)) m5 tt m').
        rewrite (bind_Ok _ _ _ _ _ H6). now rewrite (bind_Ok _ _ _ _ _ H7). }
      transitivity m3; [exact K3|]. transitivity m5; assumption.
    - destruct Hflow as [-> _].
      apply dispatch_continue_idle_only, idle_only_unchanged in H4.
      transitivity m3; assumption.
    - destruct Hflow as [_ F]. discriminate. }
  destruct K as [(evs & T & F) U].
  split; [now rewrite (new_events_app m m' evs T)|exact U].
Qed.

Lemma unchanged_state_sets_nothing_up_on_resume :
  Forall no_setup_call (new_events m192_idle m192_resumed) /\
  setup m192_resumed = setup m192_idle.
Proof.
  apply (unchanged_state_sets_nothing_up true mix_then_idle no_dump_areas
           [answers (Some 0%nat) 48000 192 (Some (1, 0));
            answers (Some 1%nat) 48000 192 None]
           (answers (Some 0%nat) 48000 192 (Some (100, 0)))
           m192_idle m192_resumed).
  - intros [|k]; cbn; discriminate.
  - vm_compute. reflexivity.
  - vm_compute. reflexivity.
  - reflexivity.
  - reflexivity.
  - reflexivity.
Defined.

(** * FastMixerDumpState::dump (lines 412-452) *)

Import String.StringSyntax Ascii.AsciiSyntax.
Delimit Scope string_scope with string.
Delimit Scope char_scope with char.

(** [printf]'s [%u] and [%d] on 32-bit values: decimal digits, most
    significant first, no leading zero, a minus sign for a negative [int].
    Ten digits are enough below 2^32. *)
Definition digit (d : Z) : Ascii.ascii := Ascii.ascii_of_nat (48 + Z.to_nat d).

Fixpoint print_digits (fuel : nat) (n : Z) (acc : String.string)
  : String.string :=
  match fuel with
  | O => acc
  | S fuel' =>
      let acc' := String.String (digit (n mod 10)) acc in
      if n <? 10 then acc' else print_digits fuel' (n / 10) acc'
  end.

Definition print_u (n : Z) : String.string :=
  print_digits 10 (wrap_u32 n) String.EmptyString.

Definition print_d (n : Z) : String.string :=
  let i := to_int n in
  if i <? 0
  then String.String "-"%char (print_digits 10 (- i) String.EmptyString)
  else print_digits 10 i String.EmptyString.

Definition COMMAND_MAX : nat := 32.

(** [snprintf(string, size, ...)]: at most [size - 1] characters are kept. *)
Definition snprintf (size : nat) (s : String.string) : String.string :=
  String.substring 0 (size - 1) s.

(** The [switch] of lines 416-441: what is left in [string]. *)
Definition command_string (command : Z) : String.string :=
  if command =? INITIAL then "INITIAL"%string
  else if command =? HOT_IDLE then "HOT_IDLE"%string
  else if command =? COLD_IDLE then "COLD_IDLE"%string
  else if command =? EXIT then "EXIT"%string
  else if command =? MIX then "MIX"%string
  else if command =? WRITE then "WRITE"%string
  else if command =? MIX_WRITE then "MIX_WRITE"%string
  else snprintf COMMAND_MAX (print_d command).

(** The line feed that ends each of the two lines of the format. *)
Definition line_feed : Ascii.ascii := Ascii.ascii_of_nat 10.

(** What [dump] writes to [fd]: the format of lines 442-445 with its
    arguments in place. *)
Definition dump (d : FastMixerDumpState) : String.string :=
  String.append "FastMixer command="
 (String.append (command_string (dCommand d))
 (String.append " writeSequence="
 (String.append (print_u (mWriteSequence d))
 (String.append " framesWritten="
 (String.append (print_u (mFramesWritten d))
 (String.String line_feed
 (String.append "          numTracks="
 (String.append (print_u (mNumTracks d))
 (String.append " writeErrors="
 (String.append (print_u (mWriteErrors d))
 (String.append " underruns="
 (String.append (print_u (mUnderruns d))
 (String.append " overruns="
 (String.append (print_u (mOverruns d))
 (String.String line_feed String.EmptyString))))))))))))))).

Lemma print_digits_length fuel :
  forall n acc,
    (String.length (print_digits fuel n acc)
     <= fuel + String.length acc)%nat.
Proof.
  induction fuel as [|fuel IH]; intros n acc; cbn [print_digits].
  - lia.
  - destruct (n <? 10); [cbn; lia|].
    etransitivity; [apply IH|]. cbn. lia.
Qed.

Lemma print_d_length n : (String.length (print_d n) <= 11)%nat.
Proof.
  unfold print_d. destruct (to_int n <? 0).
  - cbn [String.length].
    pose proof (print_digits_length 10 (- to_int n) String.EmptyString) as H.
    cbn [String.length] in H. lia.
  - pose proof (print_digits_length 10 (to_int n) String.EmptyString) as H.
    cbn [String.length] in H. lia.
Qed.

Lemma substring_all s :
  forall n, (String.length s <= n)%nat -> String.substring 0 n s = s.
Proof.
  induction s as [|c s IH]; intros [|n] H; cbn in *; try reflexivity; try lia.
  f_equal. apply IH. lia.
Qed.

Lemma snprintf_print_d n : snprintf COMMAND_MAX (print_d n) = print_d n.
Proof.
  unfold snprintf. apply substring_all.
  pose proof (print_d_length n). unfold COMMAND_MAX. lia.
Qed.

(** The commands that [dump] prints by name. *)
Definition named (command : Z) : bool :=
  (command =? INITIAL) || (command =? HOT_IDLE) || (command =? COLD_IDLE)
  || (command =? EXIT) || (command =? MIX) || (command =? WRITE)
  || (command =? MIX_WRITE).

Lemma command_string_number command :
  named command = false -> command_string command = print_d command.
Proof.
  unfold named, command_string. intros H.
  repeat (apply orb_false_elim in H as [H ?]).
  repeat match goal with E : (_ =? _) = false |- _ => rewrite E; clear E end.
  apply snprintf_print_d.
Qed.

(** X14: whatever the command, what [dump] puts in [string] is at most 11
    characters long, so that it fits the [COMMAND_MAX] bytes of [string]
    with its terminator; a command that is not one of the seven of the
    enumeration is printed in decimal, in full: [snprintf] never cuts it. *)
Lemma command_string_fits command :
  (String.length (command_string command) <= 11)%nat /\
  (String.length (command_string command) < COMMAND_MAX)%nat /\
  (named command = false -> command_string command = print_d command).
Proof.
  assert (H : (String.length (command_string command) <= 11)%nat).
  { destruct (named command) eqn:E.
    - unfold named in E. unfold command_string.
      repeat match goal with
             | |- context [?c =? ?k] =>
                 destruct (c =? k); [cbn; lia|]
             end.
      discriminate.
    - rewrite (command_string_number _ E). apply print_d_length. }
  split; [exact H|]. split; [unfold COMMAND_MAX; lia|].
  apply command_string_number.
Qed.

Lemma digit_code d :
  0 <= d < 10 -> Ascii.nat_of_ascii (digit d) = (48 + Z.to_nat d)%nat.
Proof. intros H. unfold digit. apply Ascii.nat_ascii_embedding. lia. Qed.

Lemma digit_inj a b :
  0 <= a < 10 -> 0 <= b < 10 -> digit a = digit b -> a = b.
Proof.
  intros Ha Hb E. apply (f_equal Ascii.nat_of_ascii) in E.
  rewrite !digit_code in E by assumption. lia.
Qed.

Lemma print_digits_keeps fuel :
  forall n acc,
    (String.length acc <= String.length (print_digits fuel n acc))%nat.
Proof.
  induction fuel as [|fuel IH]; intros n acc; cbn [print_digits]; [lia|].
  destruct (n <? 10); [cbn; lia|].
  etransitivity; [|apply IH]. cbn. lia.
Qed.

Lemma print_digits_inj fuel :
  forall n1 n2 acc1 acc2,
    0 <= n1 < 10 ^ Z.of_nat fuel -> 0 <= n2 < 10 ^ Z.of_nat fuel ->
    String.length acc1 = String.length acc2 ->
    print_digits fuel n1 acc1 = print_digits fuel n2 acc2 ->
    n1 = n2 /\ acc1 = acc2.
Proof.
  induction fuel as [|fuel IH]; intros n1 n2 acc1 acc2 H1 H2 L E.
  - cbn in *. split; [lia|exact E].
  - rewrite Nat2Z.inj_succ, Z.pow_succ_r in H1, H2 by lia.
    assert (D1 : 0 <= n1 mod 10 < 10) by (apply Z.mod_pos_bound; lia).
    assert (D2 : 0 <= n2 mod 10 < 10) by (apply Z.mod_pos_bound; lia).
    assert (Q1 : 0 <= n1 / 10 < 10 ^ Z.of_nat fuel).
    { split; [apply Z.div_pos; lia|apply Z.div_lt_upper_bound; lia]. }
    assert (Q2 : 0 <= n2 / 10 < 10 ^ Z.of_nat fuel).
    { split; [apply Z.div_pos; lia|apply Z.div_lt_upper_bound; lia]. }
    assert (Hlong : forall n d acc (a : String.string),
               10 <= n < 10 * 10 ^ Z.of_nat fuel ->
               String.length a = S (String.length acc) ->
               a <> print_digits fuel (n / 10) (String.String d acc)).
    { intros n d acc a Hn La Ea. destruct fuel as [|fuel'].
      - cbn in Hn. lia.
      - apply (f_equal String.length) in Ea. rewrite La in Ea.
        cbn [print_digits] in Ea.
        destruct (n / 10 <? 10); [cbn in Ea; lia|].
        pose proof (print_digits_keeps fuel' (n / 10 / 10)
                      (String.String (digit (n / 10 mod 10))
                         (String.String d acc))) as K.
        cbn [String.length] in K. lia. }
    cbn [print_digits] in E.
    destruct (Z.ltb_spec n1 10) as [S1|S1], (Z.ltb_spec n2 10) as [S2|S2].
    + injection E as Ed Ea. apply digit_inj in Ed; try assumption.
      rewrite !Z.mod_small in Ed by lia. now split.
    + exfalso. apply (Hlong n2 (digit (n2 mod 10)) acc2 _ (conj S2 (proj2 H2)))
        in E; [exact E|]. cbn. now rewrite L.
    + exfalso. symmetry in E.
      apply (Hlong n1 (digit (n1 mod 10)) acc1 _ (conj S1 (proj2 H1)))
        in E; [exact E|]. cbn. now rewrite L.
    + apply IH in E as [Eq Ea]; try assumption; [|cbn; now rewrite L].
      injection Ea as Ed Ea. apply digit_inj in Ed; try assumption.
      split; [|exact Ea].
      rewrite (Z.div_mod n1 10), (Z.div_mod n2 10) by lia. congruence.
Qed.

(** A string that starts with a minus sign or a decimal digit. *)
Definition numeric_head (s : String.string) : Prop :=
  exists x rest,
    s = String.String x rest /\
    (Ascii.nat_of_ascii x = 45%nat \/
     (48 <= Ascii.nat_of_ascii x <= 57)%nat).

Lemma print_digits_head fuel :
  forall n acc,
    (0 < fuel)%nat -> 0 <= n ->
    exists d rest,
      0 <= d < 10 /\ print_digits fuel n acc = String.String (digit d) rest.
Proof.
  induction fuel as [|fuel IH]; intros n acc Hf Hn; [lia|].
  assert (D : 0 <= n mod 10 < 10) by (apply Z.mod_pos_bound; lia).
  cbn [print_digits]. destruct (n <? 10); [now exists (n mod 10), acc|].
  destruct fuel as [|fuel']; [now exists (n mod 10), acc|].
  apply IH; [lia|apply Z.div_pos; lia].
Qed.

Lemma print_d_head n : numeric_head (print_d n).
Proof.
  unfold print_d. destruct (Z.ltb_spec (to_int n) 0) as [Hneg|Hpos].
  - eexists _, _. split; [reflexivity|]. now left.
  - destruct (print_digits_head 10 (to_int n) String.EmptyString)
      as (d & rest & Hd & ->); [lia|exact Hpos|].
    exists (digit d), rest. split; [reflexivity|]. right.
    rewrite digit_code by exact Hd. lia.
Qed.

Lemma String_inj a b (s t : String.string) :
  String.String a s = String.String b t -> a = b /\ s = t.
Proof. intros E. now injection E. Qed.

Lemma print_d_inj a b :
  - 2 ^ 31 <= a < 2 ^ 31 -> - 2 ^ 31 <= b < 2 ^ 31 ->
  print_d a = print_d b -> a = b.
Proof.
  intros Ha Hb. unfold print_d, to_int.
  rewrite !wrap_s32_small by assumption.
  destruct (Z.ltb_spec a 0) as [Na|Pa], (Z.ltb_spec b 0) as [Nb|Pb]; intros E.
  - apply String_inj in E as [_ E].
    apply print_digits_inj in E as [E _]; [lia| | |reflexivity];
      change (10 ^ Z.of_nat 10) with 10000000000; lia.
  - exfalso.
    destruct (print_digits_head 10 b String.EmptyString)
      as (d & rest & Hd & Hp); [lia|exact Pb|].
    rewrite Hp in E. apply String_inj in E as [E _].
    apply (f_equal Ascii.nat_of_ascii) in E.
    rewrite digit_code in E by exact Hd.
    change (Ascii.nat_of_ascii "-"%char) with 45%nat in E. lia.
  - exfalso.
    destruct (print_digits_head 10 a String.EmptyString)
      as (d & rest & Hd & Hp); [lia|exact Pa|].
    rewrite Hp in E. apply String_inj in E as [E _].
    apply (f_equal Ascii.nat_of_ascii) in E.
    rewrite digit_code in E by exact Hd.
    change (Ascii.nat_of_ascii "-"%char) with 45%nat in E. lia.
  - apply print_digits_inj in E as [E _]; [exact E| | |reflexivity];
      change (10 ^ Z.of_nat 10) with 10000000000; lia.
Qed.

Lemma named_cases command :
  named command = true ->
  command = INITIAL \/ command = HOT_IDLE \/ command = COLD_IDLE \/
  command = EXIT \/ command = MIX \/ command = WRITE \/ command = MIX_WRITE.
Proof.
  unfold named. intros H.
  repeat (apply orb_prop in H as [H|H]);
    apply Z.eqb_eq in H; tauto.
Qed.

Lemma named_not_numeric command :
  named command = true -> ~ numeric_head (command_string command).
Proof.
  intros H (x & rest & E & Hx).
  apply named_cases in H as [->|[->|[->|[->|[->|[->| ->]]]]]];
    vm_compute in E; apply String_inj in E as [<- _]; vm_compute in Hx; lia.
Qed.

Lemma command_string_differs c1 c2 :
  - 2 ^ 31 <= c1 < 2 ^ 31 -> - 2 ^ 31 <= c2 < 2 ^ 31 ->
  c1 <> c2 ->
  command_string c1 <> command_string c2.
Proof.
  intros H1 H2 Hne E.
  destruct (named c1) eqn:N1, (named c2) eqn:N2.
  - apply named_cases in N1, N2.
    destruct N1 as [->|[->|[->|[->|[->|[->| ->]]]]]];
      destruct N2 as [->|[->|[->|[->|[->|[->| ->]]]]]];
      try (now apply Hne); vm_compute in E; discriminate.
  - apply (named_not_numeric _ N1). rewrite E.
    rewrite (command_string_number _ N2). apply print_d_head.
  - apply (named_not_numeric _ N2). rewrite <- E.
    rewrite (command_string_number _ N1). apply print_d_head.
  - rewrite (command_string_number _ N1), (command_string_number _ N2) in E.
    apply Hne. now apply print_d_inj.
Qed.

(** X15: [dump] names no two commands alike: two different commands within
    the range of an [int] are printed differently, whether each is printed
    by name or in decimal. *)
Lemma command_string_distinguishes c1 c2 :
  - 2 ^ 31 <= c1 < 2 ^ 31 -> - 2 ^ 31 <= c2 < 2 ^ 31 ->
  c1 <> c2 ->
  command_string c1 <> command_string c2.
Proof. apply command_string_differs. Qed.

Lemma command_string_distinguishes_exit_44 :
  String.eqb (command_string EXIT) (command_string 44) = false.
Proof.
  apply String.eqb_neq.
  apply (command_string_distinguishes EXIT 44); unfold EXIT; lia.
Defined.

(** * Aborts of a debug build, and commands outside the enumeration
      (lines 76, 90, 126-156) *)

Lemma do_sleep_debug_returns m :
  sleepNs m < 1000000000 ->
  exists m2,
    do_sleep false m = Ok (tt, m2) /\
    current m2 = current m /\ previous m2 = previous m.
Proof.
  intros Hs. unfold do_sleep. rewrite run_gets.
  destruct (0 <=? sleepNs m); cbn [when].
  - destruct (0 <? sleepNs m).
    + apply Z.ltb_lt in Hs. unfold ALOG_ASSERT. cbn [negb].
      rewrite Hs. mrun. unfold modify. eexists. split; [reflexivity|].
      now destruct m.
    + mrun. unfold modify. eexists. split; [reflexivity|]. now destruct m.
  - mrun. unfold modify. eexists. split; [reflexivity|]. now destruct m.
Qed.

(** X16: in a debug build the loop aborts when [poll] returns NULL after a
    state has been adopted: the assertion of line 90 holds only as long as
    [current] and [previous] are both the built-in state. *)
Lemma null_poll_aborts_debug sq env (m : Machine) :
  sq_poll env = None ->
  current m <> RefInitial \/ previous m <> RefInitial ->
  sleepNs m < 1000000000 ->
  cycle false sq env m = Fatal.
Proof.
  intros Hpoll Hadopted Hs. unfold cycle. rewrite run_modify.
  destruct (do_sleep_debug_returns (set_nameSupply (track_names env) m))
    as (m2 & H2 & C2 & P2); [now destruct m|].
  rewrite (bind_Ok _ _ _ _ _ H2).
  assert (Hp : poll_state false sq env m2 = Fatal).
  { unfold poll_state. rewrite !run_gets, Hpoll.
    assert (E : StateRef_eqb (current m2) RefInitial
                && StateRef_eqb (previous m2) RefInitial = false).
    { apply andb_false_iff. rewrite C2, P2.
      destruct Hadopted as [H|H]; [left|right];
        apply StateRef_eqb_neq; now destruct m. }
    rewrite E. reflexivity. }
  unfold bind at 1. now rewrite Hp.
Qed.

Lemma null_poll_aborts_debug_after_mixing :
  cycle false mixing_192 (answers None 48000 192 (Some (1, 4000000)))
        m192_first = Fatal.
Proof.
  apply (null_poll_aborts_debug mixing_192
           (answers None 48000 192 (Some (1, 4000000))) m192_first).
  - reflexivity.
  - left. vm_compute. discriminate.
  - vm_compute. reflexivity.
Defined.

Lemma poll_state_some_returns ndebug sq env m k :
  sq_poll env = Some k ->
  exists m', poll_state ndebug sq env m = Ok (mCommand (sq k), m').
Proof.
  intros Hpoll. destruct (StateRef_eqb (RefQueue k) (current m)) eqn:E.
  - apply StateRef_eqb_eq in E.
    unfold poll_state. rewrite !run_gets, Hpoll, run_ret, run_get.
    rewrite <- E.
    assert (R : StateRef_eqb (RefQueue k) (RefQueue k) = true)
      by now apply StateRef_eqb_eq.
    rewrite R. cbn [negb when]. mrun. unfold modify, ret.
    eexists. reflexivity.
  - destruct (poll_state_binds ndebug sq env m k Hpoll) as (m' & H & _).
    { intros Hc. rewrite Hc in E.
      assert (R : StateRef_eqb (RefQueue k) (RefQueue k) = true)
        by now apply StateRef_eqb_eq.
      congruence. }
    now exists m'.
Qed.

Definition any_event (e : Event) : Prop := True.

Lemma timing_trace env m m' :
  timing env m = Ok (tt, m') -> trace m' = trace m ++ [EvClockGettime].
Proof.
  unfold timing. rewrite run_emit. intros H.
  assert (S : emits_only no_event
                (set_trace (trace m ++ [EvClockGettime]) m) m').
  { by_steps (emits_only no_event) H emits_side. exact H. }
  apply no_event_nil in S. rewrite S. now destruct m.
Qed.

(** X17: a command that is not one of the seven of the enumeration aborts
    a debug build; a release build takes it for a command that calls for
    work: the cycle handles the state change, mixes and writes as the MIX
    and WRITE bits of the command say, reads the clock, and goes on. *)
Lemma unknown_command (ndebug : bool) sq env (m : Machine) k :
  sq_poll env = Some k ->
  named (mCommand (sq k)) = false ->
  current m <> RefPreIdle ->
  sleepNs m < 1000000000 ->
  if ndebug
  then exists m' evs,
      cycle ndebug sq env m = Ok (true, m') /\
      new_events m m' = evs ++ [EvClockGettime] /\
      previous m' = current m' /\ current m' = RefQueue k
  else cycle ndebug sq env m = Fatal.
Proof.
  intros Hpoll Hnamed Hcur Hs.
  assert (N : mCommand (sq k) <> INITIAL /\ mCommand (sq k) <> HOT_IDLE /\
              mCommand (sq k) <> COLD_IDLE /\ mCommand (sq k) <> EXIT).
  { unfold named in Hnamed.
    repeat (apply orb_false_elim in Hnamed as [Hnamed ?]).
    repeat split; now apply Z.eqb_neq. }
  destruct N as (N1 & N2 & N3 & N4).
  destruct ndebug.
  - destruct (cycle_release_returns sq env m Hcur) as (c & m' & H).
    { unfold polled. rewrite Hpoll. intros E. contradiction. }
    pose proof H as Hph.
    apply cycle_until_dispatch in Hph as (m3 & flow & m4 & H3 & H4 & Hflow).
    pose proof (sleep_poll_trace _ _ _ _ _ _ H3) as T3.
    rewrite run_modify in H3. apply bind_inv in H3 as ([] & m2 & H2 & H3).
    destruct (poll_state_some_returns true sq env m2 k Hpoll) as (m3' & H3').
    rewrite H3' in H3. injection H3 as Ecmd <-.
    rewrite <- Ecmd in H4, Hflow.
    pose proof (dispatch_flow _ _ _ _ _ _ _ H4) as Hf.
    assert (Hc3 : current m3' = RefQueue k).
    { apply poll_state_cases in H3' as [(_ & -> & Hsame)|(j & Hj & _ & ->)];
        [|congruence].
      destruct (current_kept_update_dump (set_dCommand (mCommand (sq k))) m2)
        as [-> _].
      destruct Hsame as [F|(j & Hj & ->)]; congruence. }
    destruct flow.
    + destruct Hflow as [Hw ->]. destruct Hf as (-> & _).
      pose proof (work_refs _ _ _ _ _ _ Hw) as (Pw & Cw & _).
      apply work_inv in Hw as (m5 & m6 & m7 & H5 & H6 & H7 & Ht).
      apply timing_trace in Ht.
      by_steps (emits_only any_event) H5 emits_side.
      by_steps (emits_only any_event) H6 emits_side.
      by_steps (emits_only any_event) H7 emits_side.
      destruct H5 as (e5 & T5 & _), H6 as (e6 & T6 & _), H7 as (e7 & T7 & _).
      exists m', (sleep_calls (sleepNs m) ++ e5 ++ e6 ++ e7).
      split; [exact H|]. split; [|split; congruence].
      apply new_events_app. rewrite Ht, T7, T6, T5, T3.
      now rewrite <- !app_assoc.
    + exfalso. destruct Hf as [E|[E|E]]; contradiction.
    + exfalso. contradiction.
  - unfold cycle. rewrite run_modify.
    destruct (do_sleep_debug_returns (set_nameSupply (track_names env) m))
      as (m2 & H2 & _); [now destruct m|].
    rewrite (bind_Ok _ _ _ _ _ H2).
    destruct (poll_state_some_returns false sq env m2 k Hpoll) as (m3 & H3).
    rewrite (bind_Ok _ _ _ _ _ H3).
    unfold dispatch.
    apply Z.eqb_neq in N1, N2, N3, N4. rewrite N1, N2, N3, N4.
    unfold named in Hnamed.
    repeat (apply orb_false_elim in Hnamed as [Hnamed ?]).
    repeat match goal with E : (_ =? _) = false |- _ => rewrite E; clear E end.
    reflexivity.
Qed.

(** A state whose command is 5. *)
Definition odd_command (k : nat) : FastMixerState :=
  snapshot 5 192 (Some 0%nat) 1.

Lemma unknown_command_5_release :
  exists m' evs,
    cycle true odd_command (tick 1 0) machine0 = Ok (true, m') /\
    new_events machine0 m' = evs ++ [EvClockGettime] /\
    previous m' = current m' /\ current m' = RefQueue 0.
Proof.
  apply (unknown_command true odd_command (tick 1 0) machine0 0%nat).
  - reflexivity.
  - reflexivity.
  - vm_compute. discriminate.
  - vm_compute. reflexivity.
Defined.

(** * Termination and aborts of the loop *)

(** X18: no cycle hangs in a loop over a track mask: in either build, each
    of the loops of lines 222, 239, 261 and 300 ends within the 32 rounds
    that a 32-bit mask allows, so that the loop of [threadLoop], run over any
    answers of its collaborators, never stops for want of rounds. *)
Lemma mask_loops_terminate ndebug sq areas envs :
  run ndebug sq envs (init_machine areas) <> OutOfFuel.
Proof. apply run_fueled. Qed.

(** X19: a release build never aborts, and every cycle it is given returns,
    when each COLD_IDLE snapshot of the queue carries the address of a
    futex: [run] gives the worker at the top of the next cycle, or tells
    that [threadLoop] has returned. *)
Lemma release_build_returns sq areas envs :
  (forall k, mCommand (sq k) = COLD_IDLE -> mColdFutexAddr (sq k) <> None) ->
  exists r, run true sq envs (init_machine areas) = Ok r.
Proof. apply run_release_returns. Qed.

Lemma release_build_returns_when_parked :
  exists r,
    run true mix_then_cold
        [answers (Some 0%nat) 48000 192 (Some (1, 0)); park; park]
        (init_machine no_dump_areas) = Ok r.
Proof.
  apply (release_build_returns mix_then_cold no_dump_areas
           [answers (Some 0%nat) 48000 192 (Some (1, 0)); park; park]).
  intros [|k] H; cbn; discriminate.
Defined.

(** * What [dump] prints determines the dump state (lines 442-445) *)

(** A character of a number or of a command name: neither a space nor a
    line feed, the two characters that follow the arguments in the format. *)
Definition word_char (c : Ascii.ascii) : bool :=
  negb (Nat.eqb (Ascii.nat_of_ascii c) 32)
  && negb (Nat.eqb (Ascii.nat_of_ascii c) 10).

Fixpoint word (s : String.string) : bool :=
  match s with
  | String.EmptyString => true
  | String.String c rest => word_char c && word rest
  end.

Lemma word_split a :
  forall a' sep r r',
    word a = true -> word a' = true -> word_char sep = false ->
    String.append a (String.String sep r)
    = String.append a' (String.String sep r') ->
    a = a' /\ r = r'.
Proof.
  induction a as [|x a IH]; intros [|y a'] sep r r' Wa Wa' Hsep E;
    cbn [String.append word] in *.
  - apply String_inj in E as [_ E]. now split.
  - apply String_inj in E as [<- _].
    apply andb_prop in Wa' as [Wy _]. congruence.
  - apply String_inj in E as [-> _].
    apply andb_prop in Wa as [Wx _]. congruence.
  - apply String_inj in E as [<- E].
    apply andb_prop in Wa as [_ Wa]. apply andb_prop in Wa' as [_ Wa'].
    destruct (IH a' sep r r' Wa Wa' Hsep E) as [-> ->]. now split.
Qed.

Lemma word_digit d : 0 <= d < 10 -> word_char (digit d) = true.
Proof.
  intros H. unfold word_char. rewrite digit_code by exact H.
  apply andb_true_intro. split; apply negb_true_iff, Nat.eqb_neq; lia.
Qed.

Lemma word_print_digits fuel :
  forall n acc, word acc = true -> word (print_digits fuel n acc) = true.
Proof.
  induction fuel as [|fuel IH]; intros n acc Ha; cbn [print_digits];
    [exact Ha|].
  assert (W : word (String.String (digit (n mod 10)) acc) = true).
  { cbn [word]. rewrite Ha, word_digit; [reflexivity|].
    apply Z.mod_pos_bound. lia. }
  destruct (n <? 10); [exact W|now apply IH].
Qed.

Lemma word_print_u n : word (print_u n) = true.
Proof. now apply word_print_digits. Qed.

Lemma word_print_d n : word (print_d n) = true.
Proof.
  unfold print_d. destruct (to_int n <? 0).
  - cbn [word]. now rewrite word_print_digits.
  - now apply word_print_digits.
Qed.

Lemma word_command_string command : word (command_string command) = true.
Proof.
  destruct (named command) eqn:N.
  - apply named_cases in N as [->|[->|[->|[->|[->|[->| ->]]]]]];
      reflexivity.
  - rewrite (command_string_number _ N). apply word_print_d.
Qed.

Lemma print_u_inj a b :
  0 <= a < 2 ^ 32 -> 0 <= b < 2 ^ 32 -> print_u a = print_u b -> a = b.
Proof.
  intros Ha Hb E. unfold print_u, wrap_u32 in E.
  rewrite !Z.mod_small in E by assumption.
  apply print_digits_inj in E as [E _]; [exact E| | |reflexivity];
    change (10 ^ Z.of_nat 10) with 10000000000; lia.
Qed.

(** The values that the fields of a dump state can hold: an [int] and six
    [uint32_t]. *)
Definition dump_state_typed (d : FastMixerDumpState) : Prop :=
  - 2 ^ 31 <= dCommand d < 2 ^ 31 /\
  0 <= mWriteSequence d < 2 ^ 32 /\ 0 <= mFramesWritten d < 2 ^ 32 /\
  0 <= mNumTracks d < 2 ^ 32 /\ 0 <= mWriteErrors d < 2 ^ 32 /\
  0 <= mUnderruns d < 2 ^ 32 /\ 0 <= mOverruns d < 2 ^ 32.

Ltac strip_literal E :=
  cbn [String.append] in E;
  repeat (apply String_inj in E as [_ E]).

Lemma dump_determines d d' :
  dump_state_typed d -> dump_state_typed d' ->
  dump d = dump d' -> d = d'.
Proof.
  intros (C & W & F & N & R & U & O) (C' & W' & F' & N' & R' & U' & O') E.
  unfold dump in E.
  assert (Hsp : word_char " "%char = false) by reflexivity.
  assert (Hlf : word_char line_feed = false) by reflexivity.
  strip_literal E.
  apply word_split in E as [Ec E];
    [|apply word_command_string..|exact Hsp].
  strip_literal E.
  apply word_split in E as [Ew E]; [|apply word_print_u..|exact Hsp].
  strip_literal E.
  apply word_split in E as [Ef E]; [|apply word_print_u..|exact Hlf].
  strip_literal E.
  apply word_split in E as [En E]; [|apply word_print_u..|exact Hsp].
  strip_literal E.
  apply word_split in E as [Er E]; [|apply word_print_u..|exact Hsp].
  strip_literal E.
  apply word_split in E as [Eu E]; [|apply word_print_u..|exact Hsp].
  strip_literal E.
  apply word_split in E as [Eo _]; [|apply word_print_u..|exact Hlf].
  apply print_u_inj in Ew, Ef, En, Er, Eu, Eo; try assumption.
  assert (Ec' : dCommand d = dCommand d').
  { destruct (Z.eq_dec (dCommand d) (dCommand d')) as [|Hne];
      [assumption|].
    exfalso. now apply (command_string_differs _ _ C C' Hne). }
  destruct d, d'. cbn in *. congruence.
Qed.

(** X20: what [dump] prints loses nothing: two dump states whose fields are
    within the range of their types (an [int] command and six [uint32_t]
    counters) and that differ in some field are printed differently. *)
Lemma dump_distinguishes d d' :
  dump_state_typed d -> dump_state_typed d' ->
  d <> d' -> dump d <> dump d'.
Proof.
  intros T T' Hne E. apply Hne. now apply dump_determines.
Qed.

Lemma dump_distinguishes_one_underrun :
  String.eqb (dump new_FastMixerDumpState)
             (dump (set_mUnderruns 1 new_FastMixerDumpState)) = false.
Proof.
  apply String.eqb_neq.
  apply (dump_distinguishes new_FastMixerDumpState
           (set_mUnderruns 1 new_FastMixerDumpState)).
  - repeat split; vm_compute; congruence.
  - repeat split; vm_compute; congruence.
  - discriminate.
Defined.

(** * The engine and its buffer (lines 181-217, 296-297) *)

Lemma reallocate_returns ndebug cur prev pf :
  returns (reallocate ndebug cur prev pf).
Proof. unfold_phases. returns_auto. Qed.

Lemma to_int_pred_differs g : to_int (g - 1) <> g.
Proof.
  unfold to_int, wrap_s32. intros E.
  pose proof (Z.mod_pos_bound (g - 1 + 2 ^ 31) (2 ^ 32) ltac:(lia)) as B.
  assert (Hx : (g - 1 + 2 ^ 31) mod 2 ^ 32 = g + 2 ^ 31) by lia.
  destruct (Z.eq_dec (g + 2 ^ 31) 0) as [Z0|NZ].
  - replace (g - 1 + 2 ^ 31) with (-1) in Hx by lia.
    rewrite Z0 in Hx. vm_compute in Hx. discriminate.
  - rewrite Z.mod_small in Hx by lia. lia.
Qed.

(** X21: a debug build does not survive a reallocation that leaves no
    buffer.  When a state change finds the frame count changed, and the
    frame count of the new state or the sample rate held is not positive,
    the engine and the buffer are freed and none is made; the reallocation
    forces the track diff, whose assertion [mixBuffer != NULL] (line 217)
    then fails. *)
Lemma frameless_reallocation_aborts_debug sq env (m : Machine) :
  current m <> previous m ->
  mOutputSinkGen (deref sq m (current m)) = outputSinkGen m ->
  mFrameCount (deref sq m (current m))
  <> mFrameCount (deref sq m (previous m)) ->
  mFrameCount (deref sq m (current m)) <= 0 \/ sampleRate m <= 0 ->
  state_change false sq env m = Fatal.
Proof.
  intros Hne Hgen Hfc Hzero.
  unfold state_change. rewrite run_get.
  rewrite (StateRef_eqb_neq _ _ Hne). cbn [negb when].
  unfold check_sink. rewrite run_assoc, run_gets.
  rewrite Hgen, Z.eqb_refl. cbn [negb when]. rewrite run_ret.
  assert (Hchg : negb (Format_eqb (format m) (format m))
                 || negb (mFrameCount (deref sq m (current m))
                          =? mFrameCount (deref sq m (previous m))) = true).
  { apply orb_true_intro. right. apply negb_true_iff. now apply Z.eqb_neq. }
  destruct (reallocate_returns false (deref sq m (current m))
              (deref sq m (previous m)) (format m) m) as (r & m2 & H2).
  rewrite (bind_Ok _ _ _ _ _ H2).
  apply (reallocate_trace _ _ _ _ _ _ _ Hchg) in H2 as (_ & B & _ & G).
  assert (Hb : non_null (mixBuffer m2) = false).
  { rewrite B. apply andb_false_iff.
    destruct Hzero as [Z1|Z1]; [left|right]; apply Z.ltb_ge; lia. }
  unfold track_diff. rewrite run_assoc, run_gets, G.
  pose proof (to_int_pred_differs
                (mFastTracksGen (deref sq m (current m)))) as Hd.
  assert (Hd' : (mFastTracksGen (deref sq m (current m))
                 =? to_int (mFastTracksGen (deref sq m (current m)) - 1))
                = false) by (apply Z.eqb_neq; congruence).
  rewrite Hd'. cbn [negb when].
  rewrite !run_assoc, run_gets, Hb. reflexivity.
Qed.

Lemma frameless_reallocation_aborts_debug_after_192 :
  state_change false frames_then_none
               (answers (Some 1%nat) 48000 0 (Some (1, 4000000)))
               (set_current (RefQueue 1) m192_first) = Fatal.
Proof.
  apply (frameless_reallocation_aborts_debug frames_then_none
           (answers (Some 1%nat) 48000 0 (Some (1, 4000000)))
           (set_current (RefQueue 1) m192_first)).
  - vm_compute. discriminate.
  - reflexivity.
  - vm_compute. discriminate.
  - left. vm_compute. discriminate.
Defined.

(** The engine and the buffer are there together, or neither is. *)
Definition paired (m : Machine) : Prop := non_null (mixBuffer m) = mixer m.

Lemma kept_paired m m' :
  engine_kept m m' -> null_kept m m' -> paired m -> paired m'.
Proof.
  intros (M & _) N P. unfold paired, null_kept in *. congruence.
Qed.

Lemma mixer_held_check_sink ndebug env cur :
  steps (held (fun m => (mixer m, mixBuffer m))) (check_sink ndebug env cur).
Proof. unfold_phases. steps_auto; held_side. Qed.

Lemma mixer_held_track_diff ndebug cur mask :
  steps (held (fun m => (mixer m, mixBuffer m))) (track_diff ndebug cur mask).
Proof. unfold_phases. steps_auto; held_side. Qed.

Lemma state_change_paired ndebug sq env m m' :
  paired m -> state_change ndebug sq env m = Ok (tt, m') -> paired m'.
Proof.
  intros P. unfold state_change. rewrite run_get.
  destruct (StateRef_eqb (current m) (previous m)); cbn [negb when].
  { intros H. now injection H as <-. }
  intros H.
  apply bind_inv in H as ([] & m1 & H1 & H).
  apply bind_inv in H as (mask & m2 & H2 & H).
  apply bind_inv in H as ([] & m3 & H3 & H4).
  unfold modify in H4. injection H4 as <-.
  apply mixer_held_check_sink in H1. apply mixer_held_track_diff in H3.
  unfold held in H1, H3. cbv beta in H1, H3.
  injection H1 as M1 B1. injection H3 as M3 B3.
  assert (P1 : paired m1) by (unfold paired in *; congruence).
  assert (P2 : paired m2).
  { apply reallocate_engine in H2 as (_ & _ & K). unfold paired.
    destruct (negb _ || negb _).
    - destruct (_ && _).
      + destruct K as [-> ->]. reflexivity.
      + destruct K as (-> & -> & _). reflexivity.
    - now subst m2. }
  unfold paired in *.
  assert (E : mixBuffer (set_previous (current m3) m3) = mixBuffer m3
              /\ mixer (set_previous (current m3) m3) = mixer m3)
    by (now destruct m3).
  destruct E as [-> ->]. congruence.
Qed.

Lemma mixer_held_after ndebug env command cur :
  steps (held mixer)
        (mix_step ndebug env command cur ;;;
         write_step env command cur ;;;
         timing env).
Proof. unfold_phases. steps_auto; held_side. Qed.

Lemma cycle_paired ndebug sq env m m' :
  paired m -> cycle ndebug sq env m = Ok (true, m') -> paired m'.
Proof.
  intros P H.
  apply cycle_phases in H
    as (m2 & command & m3 & flow & m4 & H2 & H3 & H4 & Hflow).
  apply sleep_kept in H2 as (_ & E2 & _ & N2 & _).
  apply poll_state_silent in H3 as (_ & E3 & N3).
  pose proof (dispatch_refs_kept _ _ _ _ _ _ _ H4) as (_ & E4 & N4).
  assert (P4 : paired m4).
  { apply (kept_paired m3 m4 E4 N4), (kept_paired m2 m3 E3 N3).
    exact (kept_paired m m2 E2 N2 P). }
  destruct flow.
  - destruct Hflow as [Hw _].
    apply work_inv in Hw as (m5 & m6 & m7 & H5 & H6 & H7 & H8).
    apply (state_change_paired _ _ _ _ _ P4) in H5.
    assert (M : held mixer m5 m').
    { apply (mixer_held_after ndebug env command
               (deref sq m5 (current m5)) m5 tt m').
      rewrite (bind_Ok _ _ _ _ _ H6). now rewrite (bind_Ok _ _ _ _ _ H7). }
    assert (N6 : null_kept m5 m6)
      by (by_steps null_kept H6 null_side; exact H6).
    apply write_step_null in H7.
    assert (N8 : null_kept m7 m')
      by (by_steps null_kept H8 null_side; exact H8).
    unfold paired, null_kept, held in *. congruence.
  - now destruct Hflow as [-> _].
  - destruct Hflow as [_ F]. discriminate.
Qed.

(** X22: the engine and the mix buffer are made and freed together: at
    the top of every cycle of the loop, whatever the states published and
    in either build, [mixBuffer] is NULL exactly when [mixer] is (the
    pairing that the assertion of line 297 checks once an engine is
    found). *)
Lemma engine_and_buffer_paired ndebug sq areas envs (m : Machine) :
  run ndebug sq envs (init_machine areas) = Ok (Some m) ->
  non_null (mixBuffer m) = mixer m.
Proof.
  apply (run_invariant ndebug sq paired).
  - intros env m0 m' P H. exact (cycle_paired _ _ _ _ _ P H).
  - reflexivity.
Qed.

Lemma engine_and_buffer_paired_at_192 :
  non_null (mixBuffer m192_underrun) = mixer m192_underrun.
Proof.
  apply (engine_and_buffer_paired true mixing_192 no_dump_areas
           [tick 1 0; tick 1 8000000]).
  vm_compute. reflexivity.
Defined.

(** * A period of a second or more (lines 73-84, 187-191, 383-391) *)

Lemma first_reading_sleeps_a_period ndebug sq env m m' :
  oldTsValid m = false ->
  cycle ndebug sq env m = Ok (true, m') ->
  oldTsValid m' = true ->
  sleepNs m' = periodNs m'.
Proof.
  intros Hv H Hv'.
  apply cycle_until_dispatch in H as (m3 & flow & m4 & H3 & H4 & Hflow).
  apply sleep_poll_unmeasured in H3 as [_ V3].
  apply dispatch_unmeasured in H4 as [_ V4].
  assert (V : oldTsValid m4 = false) by (apply V4, V3, Hv).
  destruct flow.
  - destruct Hflow as [Hw _].
    apply work_inv in Hw as (m5 & m6 & m7 & H5 & H6 & H7 & Ht).
    apply state_change_unmeasured in H5 as [_ V5].
    apply mix_step_unmeasured in H6 as [_ V6].
    apply write_step_unmeasured in H7 as [_ V7].
    assert (V' : oldTsValid m7 = false) by (apply V7, V6, V5, V).
    clear - V' Ht Hv'. revert Ht.
    unfold timing. rewrite run_emit.
    destruct (clock env) as [newTs|].
    + rewrite run_get. fields. rewrite V'.
      intros H. mrun_in H. unfold modify in H. injection H as <-.
      now destruct m7.
    + intros H. mrun_in H. unfold modify in H. injection H as <-.
      now destruct m7.
  - destruct Hflow as [-> _]. congruence.
  - destruct Hflow as [-> _]. congruence.
Qed.

Lemma long_sleep_aborts_debug sq env m :
  1000000000 <= sleepNs m -> cycle false sq env m = Fatal.
Proof.
  intros Hs. unfold cycle. rewrite run_modify.
  unfold do_sleep. rewrite !run_assoc, run_gets.
  replace (sleepNs (set_nameSupply (track_names env) m)) with (sleepNs m)
    by now destruct m.
  replace (0 <=? sleepNs m) with true by (symmetry; apply Z.leb_le; lia).
  replace (0 <? sleepNs m) with true by (symmetry; apply Z.ltb_lt; lia).
  cbn [when]. rewrite !run_assoc.
  unfold ALOG_ASSERT.
  replace (sleepNs m <? 1000000000) with false
    by (symmetry; apply Z.ltb_ge; lia).
  reflexivity.
Qed.

(** X23: a period of a second or more is not supported.  The cycle that
    takes the first clock reading after a start or an idle phase
    ([oldTsValid] goes from false to true) asks for a sleep of one period;
    when [periodNs] is 1000000000 or more, a debug build aborts at the top
    of the next cycle, at the assertion [sleepNs < 1000000000] that guards
    the [tv_nsec] passed to [nanosleep]. *)
Lemma period_of_a_second_aborts_debug ndebug sq env env' (m m' : Machine) :
  oldTsValid m = false ->
  cycle ndebug sq env m = Ok (true, m') ->
  oldTsValid m' = true ->
  1000000000 <= periodNs m' ->
  sleepNs m' = periodNs m' /\ cycle false sq env' m' = Fatal.
Proof.
  intros Hv H Hv' Hp.
  pose proof (first_reading_sleeps_a_period _ _ _ _ _ Hv H Hv') as Hs.
  split; [exact Hs|]. apply long_sleep_aborts_debug. lia.
Qed.

(** A worker handed 48000 frames at 48000 Hz: a period of one second. *)
Definition mixing_1s (k : nat) : FastMixerState :=
  snapshot MIX_WRITE 48000 (Some 0%nat) 1.

Definition m1s_first : Machine :=
  Eval vm_compute in
    match cycle false mixing_1s
                (answers (Some 0%nat) 48000 48000 (Some (1, 0))) machine0 with
    | Ok (_, m') => m'
    | _ => machine0
    end.

Lemma period_of_a_second_aborts_debug_at_48000 :
  sleepNs m1s_first = periodNs m1s_first /\
  cycle false mixing_1s (answers (Some 0%nat) 48000 48000 (Some (2, 0)))
        m1s_first = Fatal.
Proof.
  apply (period_of_a_second_aborts_debug false mixing_1s
           (answers (Some 0%nat) 48000 48000 (Some (1, 0)))
           (answers (Some 0%nat) 48000 48000 (Some (2, 0)))
           machine0 m1s_first).
  - reflexivity.
  - vm_compute. reflexivity.
  - reflexivity.
  - vm_compute. discriminate.
Defined.

(** * What the sink is given without a mix (lines 181-212, 296-331) *)

(** The worker believes the buffer ZEROED only when a [memset] has cleared
    the bytes of [frameCount] frames of state [s]. *)
Definition cleared_for (s : FastMixerState) (m : Machine) : Prop :=
  mixBufferState m = ZEROED ->
  exists under,
    mixBuffer m = Some (Cleared (wrap_u32 (mFrameCount s * 2 * 2)) under).

Lemma same_buffer_cleared s m m' :
  same_buffer m m' -> cleared_for s m -> cleared_for s m'.
Proof. intros [B S] C. unfold cleared_for. now rewrite B, S. Qed.

Lemma undefined_cleared s m : mixBufferState m = UNDEFINED -> cleared_for s m.
Proof. intros U Z. congruence. Qed.

Lemma reallocate_undefined ndebug cur prev pf m r m' :
  negb (Format_eqb (format m) pf)
  || negb (mFrameCount cur =? mFrameCount prev) = true ->
  reallocate ndebug cur prev pf m = Ok (r, m') ->
  mixBufferState m' = UNDEFINED.
Proof.
  intros Hchg. unfold reallocate. rewrite run_gets, Hchg.
  intros H. peel H. injection H as _ <-.
  match goal with
  | Hs : modify (set_mixBufferState UNDEFINED) ?x = Ok (_, ?y),
    Hn : when (negb ndebug) _ ?y = Ok (_, ?z),
    Hg : modify (set_fastTracksGen _) ?z = Ok (_, _) |- _ =>
      injection Hs as _ <-; injection Hg as _ <-;
      destruct ndebug; injection Hn as _ <-; now destruct x
  end.
Qed.

Lemma state_change_cleared ndebug sq env m m' :
  cleared_for (last_applied sq m) m ->
  state_change ndebug sq env m = Ok (tt, m') ->
  cleared_for (deref sq m (current m)) m'.
Proof.
  intros C. unfold state_change. rewrite run_get.
  destruct (StateRef_eqb (current m) (previous m)) eqn:E; cbn [negb when].
  { intros H. injection H as <-.
    apply StateRef_eqb_eq in E. now rewrite E. }
  intros H.
  apply bind_inv in H as ([] & m1 & H1 & H).
  apply bind_inv in H as (mask & m2 & H2 & H).
  apply bind_inv in H as ([] & m3 & H3 & H4).
  unfold modify in H4. injection H4 as <-.
  apply check_sink_quiet in H1 as [_ B1].
  apply track_diff_quiet in H3 as [_ B3].
  assert (B4 : same_buffer m3 (set_previous (current m3) m3))
    by (split; now destruct m3).
  apply (same_buffer_cleared _ _ _ B4), (same_buffer_cleared _ _ _ B3).
  destruct (negb (Format_eqb (format m1) (format m))
            || negb (mFrameCount (deref sq m (current m))
                     =? mFrameCount (deref sq m (previous m)))) eqn:Hchg.
  - apply undefined_cleared.
    exact (reallocate_undefined _ _ _ _ _ _ _ Hchg H2).
  - apply (reallocate_same _ _ _ _ _ _ _ Hchg) in H2 as [-> Efc].
    apply (same_buffer_cleared _ _ _ B1).
    unfold cleared_for in *. rewrite Efc. exact C.
Qed.

(** The calls on the samples during a cycle: [process()] is among them, or
    there is none, or the sink is given [frameCount] frames from a buffer
    whose first [frameCount * 2 * sizeof(short)] bytes a [memset] has
    cleared, in this cycle unless the buffer was ZEROED from its start. *)
Definition silence_or_mix (m m' : Machine) (evs : list Event) : Prop :=
  In EvProcess evs \/
  List.filter is_buffer_event evs = [] \/
  (exists sink fc seq under,
      List.filter is_buffer_event evs
      = [EvSinkWrite sink (Cleared (wrap_u32 (fc * 2 * 2)) under) fc seq] /\
      mixBufferState m = ZEROED /\ mixBufferState m' = ZEROED) \/
  (exists sink fc seq under,
      List.filter is_buffer_event evs
      = [EvMemset (wrap_u32 (fc * 2 * 2));
         EvSinkWrite sink (Cleared (wrap_u32 (fc * 2 * 2)) under) fc seq] /\
      mixBufferState m' = ZEROED).

Lemma work_buffer ndebug sq env command m m' :
  cleared_for (last_applied sq m) m ->
  work ndebug sq env command m = Ok (tt, m') ->
  cleared_for (deref sq m (current m)) m' /\
  exists evs, trace m' = trace m ++ evs /\ silence_or_mix m m' evs.
Proof.
  intros Inv H.
  apply work_inv in H as (m1 & m2 & m3 & H1 & H2 & H3 & H4).
  pose proof (state_change_refs _ _ _ _ _ H1) as (_ & C1 & R1).
  assert (Hcur : deref sq m1 (current m1) = deref sq m (current m))
    by (rewrite C1; now apply deref_same_preIdle).
  rewrite Hcur in H2, H3.
  set (cur := deref sq m (current m)) in *.
  pose proof (state_change_cleared _ _ _ _ _ Inv H1) as Inv1.
  fold cur in Inv1.
  apply state_change_buffer in H1 as [(e1 & T1 & F1) B1].
  apply timing_quiet in H4 as [(e4 & T4 & F4) [B4 S4]].
  assert (St1 : mixBufferState m1 = ZEROED -> mixBufferState m = ZEROED).
  { destruct B1 as [[B S]|U]; congruence. }
  unfold cleared_for. rewrite B4, S4.
  destruct (has_flag command MIX && mixer m1) eqn:Hmix.
  - (* the mix is done *)
    destruct (mix_step_done _ _ _ _ _ _ Hmix H2)
      as (St2 & _ & e2 & T2 & F2).
    assert (Hst3 : mixBufferState m3 = MIXED /\
                   exists e3, trace m3 = trace m2 ++ e3).
    { destruct (has_flag command WRITE) eqn:Hflag;
        [destruct (outputSink m2) as [sink|] eqn:Hsink;
           [destruct (mixBuffer m2) as [b|] eqn:Hbuf|]|].
      - destruct (write_step_attempt env command cur
                    m2 sink b Hflag Hsink Hbuf)
          as (m3' & Hrun & _ & T3 & S3 & _).
        rewrite Hrun in H3. injection H3 as <-.
        rewrite St2 in S3, T3. cbn in S3, T3.
        split; [congruence|]. eexists; exact T3.
      - rewrite write_step_skipped in H3 by auto. injection H3 as <-.
        split; [exact St2|]. exists []. now rewrite app_nil_r.
      - rewrite write_step_skipped in H3 by auto. injection H3 as <-.
        split; [exact St2|]. exists []. now rewrite app_nil_r.
      - rewrite write_step_skipped in H3 by auto. injection H3 as <-.
        split; [exact St2|]. exists []. now rewrite app_nil_r. }
    destruct Hst3 as (St3 & e3 & T3).
    split; [congruence|].
    exists (e1 ++ (e2 ++ [EvProcess]) ++ e3 ++ e4). split.
    + rewrite T4, T3, T2, T1. now rewrite <- !app_assoc.
    + left. rewrite !in_app_iff. cbn. tauto.
  - (* no mix in this cycle *)
    rewrite mix_step_skipped in H2 by exact Hmix. injection H2 as <-.
    set (m2 := if MixBufferState_eqb (mixBufferState m1) MIXED
               then set_mixBufferState UNDEFINED m1 else m1) in *.
    assert (T2 : trace m2 = trace m1)
      by (subst m2; destruct (MixBufferState_eqb _ _); now destruct m1).
    assert (Hb2 : mixBuffer m2 = mixBuffer m1)
      by (subst m2; destruct (MixBufferState_eqb _ _); now destruct m1).
    assert (Hs2 : mixBufferState m2 = ZEROED /\ mixBufferState m1 = ZEROED \/
                  mixBufferState m2 = UNDEFINED).
    { subst m2. destruct (mixBufferState m1) eqn:E; cbn; rewrite ?E; auto;
        right; now destruct m1. }
    assert (Inv2 : cleared_for cur m2).
    { unfold cleared_for.
      destruct Hs2 as [[Z2 Z1]|U2]; [intros _; rewrite Hb2; auto|congruence]. }
    destruct (has_flag command WRITE) eqn:Hflag;
      [destruct (outputSink m2) as [sink|] eqn:Hsink;
         [destruct (mixBuffer m2) as [b|] eqn:Hbuf|]|].
    + destruct (write_step_attempt env command cur
                  m2 sink b Hflag Hsink Hbuf)
        as (m3' & Hrun & _ & T3 & S3 & Bf3 & _).
      rewrite Hrun in H3. injection H3 as <-.
      destruct Hs2 as [[Z2 Z1]|U2].
      * rewrite Z2 in T3, S3, Bf3. cbn in T3, S3, Bf3.
        destruct (Inv1 Z1) as (under & Hu).
        assert (b = Cleared (wrap_u32 (mFrameCount cur * 2 * 2)) under)
          by congruence.
        subst b.
        split; [intros _; now exists under|].
        eexists. split.
        { rewrite T4, T3, T2, T1. rewrite <- !app_assoc. reflexivity. }
        right. right. left. exists sink, (mFrameCount cur). do 2 eexists.
        rewrite !List.filter_app.
        rewrite (filter_no_buffer_event e1), (filter_no_buffer_event e4)
          by assumption.
        cbn. split; [reflexivity|]. split; [auto|congruence].
      * rewrite U2 in T3, S3, Bf3. cbn in T3, S3, Bf3.
        split; [intros _; now exists b|].
        eexists. split.
        { rewrite T4, T3, T2, T1. rewrite <- !app_assoc. reflexivity. }
        right. right. right. exists sink, (mFrameCount cur). do 2 eexists.
        rewrite !List.filter_app.
        rewrite (filter_no_buffer_event e1), (filter_no_buffer_event e4)
          by assumption.
        cbn. split; [reflexivity|congruence].
    + rewrite write_step_skipped in H3 by auto. injection H3 as <-.
      split; [exact Inv2|].
      exists (e1 ++ e4). split.
      { rewrite T4, T2, T1. now rewrite <- app_assoc. }
      right. left. rewrite List.filter_app.
      now rewrite !filter_no_buffer_event.
    + rewrite write_step_skipped in H3 by auto. injection H3 as <-.
      split; [exact Inv2|].
      exists (e1 ++ e4). split.
      { rewrite T4, T2, T1. now rewrite <- app_assoc. }
      right. left. rewrite List.filter_app.
      now rewrite !filter_no_buffer_event.
    + rewrite write_step_skipped in H3 by auto. injection H3 as <-.
      split; [exact Inv2|].
      exists (e1 ++ e4). split.
      { rewrite T4, T2, T1. now rewrite <- app_assoc. }
      right. left. rewrite List.filter_app.
      now rewrite !filter_no_buffer_event.
Qed.

(** The invariant: [previous] designates the state last applied, and a
    buffer believed ZEROED was cleared for the frame count of that state. *)
Definition cleared_inv (sq : nat -> FastMixerState) (m : Machine) : Prop :=
  anchored sq m /\ cleared_for (last_applied sq m) m.

Lemma cycle_buffer ndebug sq env m c m' :
  wf_queue sq -> cleared_inv sq m ->
  cycle ndebug sq env m = Ok (c, m') ->
  cleared_for (last_applied sq m') m' /\
  exists evs, trace m' = trace m ++ evs /\ silence_or_mix m m' evs.
Proof.
  intros Hwf [Anc Inv] H.
  apply cycle_until_dispatch in H as (m3 & flow & m4 & H3 & H4 & Hflow).
  assert (Q3 : quiet m m3 /\ last_applied sq m3 = last_applied sq m).
  { split.
    - by_steps quiet H3 quiet_side. exact H3.
    - rewrite run_modify in H3. apply bind_inv in H3 as ([] & m2 & H2 & H3).
      apply (sleep_anchored _ _ _ _ _ Anc) in H2 as [Anc2 L2].
      apply (poll_state_anchored _ _ _ _ _ _ Hwf Anc2) in H3 as (L3 & _).
      congruence. }
  destruct Q3 as [[(e3 & T3 & F3) B3] L3].
  pose proof (dispatch_refs_kept _ _ _ _ _ _ _ H4) as [(P4 & C4 & R4) _].
  assert (Q4 : quiet m3 m4) by (by_steps quiet H4 quiet_side; exact H4).
  destruct Q4 as [(e4 & T4 & F4) B4].
  assert (L4 : last_applied sq m4 = last_applied sq m).
  { rewrite <- L3. unfold last_applied. rewrite P4.
    now apply deref_same_preIdle. }
  assert (B : same_buffer m m4) by (transitivity m3; assumption).
  assert (Inv4 : cleared_for (last_applied sq m4) m4).
  { rewrite L4. exact (same_buffer_cleared _ _ _ B Inv). }
  assert (Hidle : m' = m4 ->
            cleared_for (last_applied sq m') m' /\
            exists evs, trace m' = trace m ++ evs /\ silence_or_mix m m' evs).
  { intros ->. split; [exact Inv4|].
    exists (e3 ++ e4). split; [now rewrite T4, T3, app_assoc|].
    right. left. rewrite List.filter_app.
    now rewrite !filter_no_buffer_event. }
  destruct flow; [|destruct Hflow as [E _]; now apply Hidle
                  |destruct Hflow as [E _]; now apply Hidle].
  destruct Hflow as [Hw _].
  pose proof (work_inv _ _ _ _ _ _ Hw) as (m5 & m6 & m7 & H5 & H6 & H7 & H8).
  pose proof (state_change_refs _ _ _ _ _ H5) as (P5 & C5 & R5).
  assert (R6 : refs_kept m5 m6) by (by_steps refs_kept H6 refs_side; exact H6).
  assert (R7 : refs_kept m6 m7) by (by_steps refs_kept H7 refs_side; exact H7).
  assert (R8 : refs_kept m7 m') by (by_steps refs_kept H8 refs_side; exact H8).
  assert (R : refs_kept m5 m')
    by (transitivity m6; [exact R6|]; transitivity m7; assumption).
  destruct R as (P & _ & Rp).
  assert (L : last_applied sq m' = deref sq m4 (current m4)).
  { unfold last_applied. rewrite P, P5.
    rewrite (deref_same_preIdle sq m5 m' _ Rp).
    now apply deref_same_preIdle. }
  apply (work_buffer _ _ _ _ _ _ Inv4) in Hw as (Inv' & e & T & Hcases).
  rewrite L. split; [exact Inv'|].
  exists ((e3 ++ e4) ++ e). split; [now rewrite T, T4, T3, !app_assoc|].
  destruct B as [_ S].
  unfold silence_or_mix in *.
  rewrite List.filter_app, List.filter_app.
  rewrite (filter_no_buffer_event e3), (filter_no_buffer_event e4)
    by assumption.
  cbn [app]. rewrite in_app_iff, <- S. tauto.
Qed.

Lemma reachable_cleared ndebug sq areas envs m :
  wf_queue sq ->
  run ndebug sq envs (init_machine areas) = Ok (Some m) ->
  cleared_inv sq m.
Proof.
  intros Hwf. apply (run_invariant ndebug sq (cleared_inv sq)).
  - intros env m0 m' Inv H. split.
    + destruct Inv as [Anc _]. exact (cycle_anchored _ _ _ _ _ Hwf Anc H).
    + now apply (cycle_buffer _ _ _ _ _ _ Hwf Inv H).
  - split.
    + split; [|reflexivity].
      split; [discriminate|]. split; [discriminate|]. now left.
    + intros H. discriminate.
Qed.

(** X24: provided no published snapshot carries the INITIAL command, in
    every cycle of the loop, unless [process()] runs in that cycle, what
    the sink is given is cleared: a [write] of [frameCount] frames finds the
    buffer ZEROED with its first [frameCount * 2 * sizeof(short)] bytes
    cleared by a [memset], made in the same cycle unless the buffer was
    ZEROED from the start of the cycle (so a buffer left MIXED by an earlier
    cycle is cleared again before it is written). *)
Lemma silence_without_mix ndebug sq areas envs env (m : Machine) c m' :
  wf_queue sq ->
  run ndebug sq envs (init_machine areas) = Ok (Some m) ->
  cycle ndebug sq env m = Ok (c, m') ->
  exists evs, trace m' = trace m ++ evs /\ silence_or_mix m m' evs.
Proof.
  intros Hwf Hreach H.
  apply (reachable_cleared _ _ _ _ _ Hwf) in Hreach.
  now apply (cycle_buffer _ _ _ _ _ _ Hwf Hreach H).
Qed.

(** From snapshot 0 (mixing) to snapshot 1 (a write without mix). *)
Definition mix_then_write (k : nat) : FastMixerState :=
  match k with
  | O => snapshot MIX_WRITE 192 (Some 0%nat) 1
  | _ => snapshot WRITE 192 (Some 0%nat) 1
  end.

Lemma silence_after_mix_is_dropped :
  exists evs,
    trace (after_cycle mix_then_write
             (answers (Some 1%nat) 48000 192 (Some (1, 4000000)))
             m192_first)
    = trace m192_first ++ evs /\
    silence_or_mix m192_first
      (after_cycle mix_then_write
         (answers (Some 1%nat) 48000 192 (Some (1, 4000000))) m192_first)
      evs.
Proof.
  apply (silence_without_mix true mix_then_write no_dump_areas
           [answers (Some 0%nat) 48000 192 (Some (1, 0))]
           (answers (Some 1%nat) 48000 192 (Some (1, 4000000)))
           m192_first true).
  - intros [|k]; cbn; discriminate.
  - vm_compute. reflexivity.
  - vm_compute. reflexivity.
Defined.
